(** * GoalMentor: the conversation handlers of [goalmentor_langgraph.py]
      and the numbered-list plan reader of [main.py]

    The handlers are embedded as functions over a record for the state
    dictionary [GoalMentorState].  Python exceptions are a [result]; the
    language model is a port handed to every handler, and each handler
    logs the prompts it sends, so that the number of model calls is part
    of what a handler returns.

    Text is modelled by [string], one [ascii] per character: the [str]
    methods below follow Python on ASCII text. *)

From Stdlib Require Import ZArith Lia Ascii String.
From Stdlib Require Import Floats.PrimFloat.
From stdpp Require Import base option list strings gmap pretty.

Set Warnings "-register-all".

Local Open Scope string_scope.
Local Open Scope list_scope.
Local Open Scope Z_scope.

(** ** Text *)

Module Text.

(** The double quote. *)
Definition dq : string := String "034"%char EmptyString.

(** [c.lower()] for one ASCII character. *)
Definition lower_ascii (c : ascii) : ascii :=
  let n := nat_of_ascii c in
  if ((65 <=? n) && (n <=? 90))%nat then ascii_of_nat (n + 32) else c.

(** [s.lower()] *)
Fixpoint lower (s : string) : string :=
  match s with
  | EmptyString => EmptyString
  | String c t => String (lower_ascii c) (lower t)
  end.

(** [c.isspace()]: tab, line feed, vertical tab, form feed, carriage
    return, the four separators 28..31 and the space. *)
Definition isspace (c : ascii) : bool :=
  let n := nat_of_ascii c in
  (((9 <=? n) && (n <=? 13)) || ((28 <=? n) && (n <=? 32)))%nat.

(** [c.isdigit()] *)
Definition isdigit (c : ascii) : bool :=
  let n := nat_of_ascii c in ((48 <=? n) && (n <=? 57))%nat.

(** [s.lstrip()] *)
Fixpoint lstrip (s : string) : string :=
  match s with
  | EmptyString => EmptyString
  | String c t => if isspace c then lstrip t else s
  end.

(** [s.rstrip()]: a character is dropped when it is white and
    everything after it was dropped. *)
Fixpoint rstrip (s : string) : string :=
  match s with
  | EmptyString => EmptyString
  | String c t =>
      match rstrip t with
      | EmptyString => if isspace c then EmptyString else String c EmptyString
      | t' => String c t'
      end
  end.

(** [s.strip()] *)
Definition strip (s : string) : string := rstrip (lstrip s).

(** [s.startswith(p)] *)
Fixpoint startswith (p s : string) : bool :=
  match p, s with
  | EmptyString, _ => true
  | String _ _, EmptyString => false
  | String a p', String b s' => if Ascii.eqb a b then startswith p' s' else false
  end.

(** [needle in hay] *)
Fixpoint contains (needle hay : string) : bool :=
  startswith needle hay ||
  match hay with
  | EmptyString => false
  | String _ t => contains needle t
  end.

(** [any(word in s for word in words)] *)
Definition any_in (words : list string) (s : string) : bool :=
  existsb (fun w => contains w s) words.

(** [s.replace(old, new)] for a non-empty [old]: occurrences are
    replaced from the left and do not overlap; [skip] counts the
    characters of an occurrence still to be passed over. *)
Fixpoint replace_go (old new : string) (skip : nat) (s : string) : string :=
  match s with
  | EmptyString => EmptyString
  | String c t =>
      match skip with
      | S k => replace_go old new k t
      | O =>
          if startswith old s
          then new +:+ replace_go old new (String.length old - 1) t
          else String c (replace_go old new O t)
      end
  end.

Definition replace (old new s : string) : string := replace_go old new O s.

(** [s.split(sep)] for a one-character separator. *)
Fixpoint split (sep : ascii) (s : string) : list string :=
  match s with
  | EmptyString => [EmptyString]
  | String c t =>
      if Ascii.eqb c sep then EmptyString :: split sep t
      else match split sep t with
           | [] => [String c EmptyString]
           | piece :: rest => String c piece :: rest
           end
  end.

(** [s[n:]] *)
Fixpoint drop (n : nat) (s : string) : string :=
  match n, s with
  | O, _ => s
  | S _, EmptyString => EmptyString
  | S k, String _ t => drop k t
  end.

(** What follows the first occurrence of [sep] in [s], if there is one. *)
Fixpoint find_after (sep s : string) : option string :=
  if startswith sep s then Some (drop (String.length sep) s)
  else match s with
       | EmptyString => None
       | String _ t => find_after sep t
       end.

(** [s.split(sep, 1)[-1]]: what follows the first occurrence of [sep],
    the whole of [s] when there is none. *)
Definition after_first (sep s : string) : string :=
  default s (find_after sep s).

End Text.

(** ** Python values and exceptions *)

(** What [json.loads] returns: [None], a [bool], an [int], a [float], a
    [str], a [list] or a [dict] with [str] keys.  A [dict] is the list of
    its items in insertion order, the keys distinct; [dict_get] reads the
    first item of a key. *)
Inductive json : Type :=
  | JNull
  | JBool (b : bool)
  | JInt (n : Z)
  | JFloat (x : float)
  | JStr (s : string)
  | JArr (items : list json)
  | JObj (fields : list (string * json)).

(** The exceptions the handlers can meet.  [ModelError] stands for
    whatever [llm.invoke] raises. *)
Inductive exn : Type :=
  | KeyError
  | IndexError
  | TypeError
  | AttributeError
  | ValueError
  | ModelError.

Inductive result (A : Type) : Type :=
  | Ok (a : A)
  | Raise (e : exn).

Arguments Ok {A} a.
Arguments Raise {A} e.

#[global] Instance result_ret : MRet result := fun A a => Ok a.
#[global] Instance result_bind : MBind result := fun A B f r =>
  match r with
  | Ok a => f a
  | Raise e => Raise e
  end.

Module Py.

Fixpoint dict_get (d : list (string * json)) (k : string) : option json :=
  match d with
  | [] => None
  | (k', v) :: d' => if String.eqb k' k then Some v else dict_get d' k
  end.

(** The characters of a [str], each a [str] of length one. *)
Fixpoint chars (s : string) : list json :=
  match s with
  | EmptyString => []
  | String c t => JStr (String c EmptyString) :: chars t
  end.

(** [len(v)] *)
Definition len (v : json) : result Z :=
  match v with
  | JStr s => Ok (Z.of_nat (String.length s))
  | JArr l => Ok (Z.of_nat (length l))
  | JObj d => Ok (Z.of_nat (length d))
  | _ => Raise TypeError
  end.

(** [l[i]] on a sequence: a negative index counts from the end. *)
Definition seq_item (l : list json) (i : Z) : result json :=
  let n := Z.of_nat (length l) in
  let j := if i <? 0 then n + i else i in
  if (0 <=? j) && (j <? n)
  then match l !! Z.to_nat j with
       | Some v => Ok v
       | None => Raise IndexError
       end
  else Raise IndexError.

(** [v[i]] for an [int] index: a [dict] of [json.loads] has [str] keys
    only, so no item is found there. *)
Definition getitem_int (v : json) (i : Z) : result json :=
  match v with
  | JArr l => seq_item l i
  | JStr s => seq_item (chars s) i
  | JObj _ => Raise KeyError
  | _ => Raise TypeError
  end.

(** [v[k]] for a [str] key. *)
Definition getitem_str (v : json) (k : string) : result json :=
  match v with
  | JObj d =>
      match dict_get d k with
      | Some x => Ok x
      | None => Raise KeyError
      end
  | _ => Raise TypeError
  end.

(** [v.get(k, dflt)]: only a [dict] has the method. *)
Definition get (v : json) (k : string) (dflt : json) : result json :=
  match v with
  | JObj d => Ok (default dflt (dict_get d k))
  | _ => Raise AttributeError
  end.

(** The items [for x in v] runs over. *)
Definition iter (v : json) : result (list json) :=
  match v with
  | JArr l => Ok l
  | JStr s => Ok (chars s)
  | JObj d => Ok (map (fun kv => JStr (fst kv)) d)
  | _ => Raise TypeError
  end.

(** [l[-n:]] *)
Definition last_n {A} (n : nat) (l : list A) : list A :=
  skipn (length l - n) l.

End Py.

(** ** The language model port and the handler monad *)

Inductive message : Type :=
  | SystemMessage (content : string)
  | HumanMessage (content : string)
  | AIMessage (content : string).

(** [llm.invoke(messages).content], [None] when the call raises. *)
Definition port : Type := list message -> option string.

(** A handler reads the port and returns its result with the prompts it
    sent, in order. *)
Definition M (A : Type) : Type := port -> result A * list (list message).

#[global] Instance M_ret : MRet M := fun A a _ => (Ok a, []).
#[global] Instance M_bind : MBind M := fun A B f m llm =>
  match m llm with
  | (Ok a, sent) => let '(r, sent') := f a llm in (r, sent ++ sent')
  | (Raise e, sent) => (Raise e, sent)
  end.

Definition lift {A} (r : result A) : M A := fun _ => (r, []).

Definition invoke (messages : list message) : M string := fun llm =>
  (match llm messages with
   | Some content => Ok content
   | None => Raise ModelError
   end, [messages]).

(** [try: body  except: handler] *)
Definition try_except {A} (body handler : M A) : M A := fun llm =>
  match body llm with
  | (Ok a, sent) => (Ok a, sent)
  | (Raise _, sent) => let '(r, sent') := handler llm in (r, sent ++ sent')
  end.

(** The result of a handler and the number of model calls it made. *)
Definition outcome {A} (m : M A) (llm : port) : result A := fst (m llm).
Definition calls {A} (m : M A) (llm : port) : nat := length (snd (m llm)).

(** A port that is down. *)
Definition failing_port : port := fun _ => None.

(** ** The state dictionary *)

(** [mode: Literal["goal_setting", "planning", "execution", "help", "completed"]] *)
Inductive mode_t : Type :=
  | goal_setting
  | planning
  | execution
  | help
  | completed.

Definition mode_name (m : mode_t) : string :=
  match m with
  | goal_setting => "goal_setting"
  | planning => "planning"
  | execution => "execution"
  | help => "help"
  | completed => "completed"
  end.

(** One entry of [conversation_history]: [{"role": ..., "content": ...}]. *)
Record turn : Type := { role : string; content : string }.

Definition user_turn (s : string) : turn := {| role := "user"; content := s |}.
Definition assistant_turn (s : string) : turn := {| role := "assistant"; content := s |}.

(** One entry of [completion_status]. *)
Module Completion.
Record t : Type := { completed_at : string; user_feedback : string }.
End Completion.

(** [GoalMentorState].  A state carries every key, as the dictionary built
    by [initialize_session_state] does, so [state.get(key, default)] never
    takes its default.  [steps] is whatever the planning handler stored:
    the value read from the model's reply is not checked to be a list of
    steps. *)
Record GoalMentorState : Type := {
  goal : string;
  goal_refined : bool;
  steps : json;
  current_step_index : Z;
  user_message : string;
  assistant_response : string;
  conversation_history : list turn;
  mode : mode_t;
  user_feedback : gmap string string;
  stuck_count : Z;
  completion_status : gmap Z Completion.t;
  next_action : string
}.

(** [{**state, key: value}], one function per key the handlers write. *)
Definition with_goal_refined (b : bool) (st : GoalMentorState) : GoalMentorState :=
  {| goal := goal st; goal_refined := b; steps := steps st;
     current_step_index := current_step_index st; user_message := user_message st;
     assistant_response := assistant_response st;
     conversation_history := conversation_history st; mode := mode st;
     user_feedback := user_feedback st; stuck_count := stuck_count st;
     completion_status := completion_status st; next_action := next_action st |}.

Definition with_steps (v : json) (st : GoalMentorState) : GoalMentorState :=
  {| goal := goal st; goal_refined := goal_refined st; steps := v;
     current_step_index := current_step_index st; user_message := user_message st;
     assistant_response := assistant_response st;
     conversation_history := conversation_history st; mode := mode st;
     user_feedback := user_feedback st; stuck_count := stuck_count st;
     completion_status := completion_status st; next_action := next_action st |}.

Definition with_current_step_index (i : Z) (st : GoalMentorState) : GoalMentorState :=
  {| goal := goal st; goal_refined := goal_refined st; steps := steps st;
     current_step_index := i; user_message := user_message st;
     assistant_response := assistant_response st;
     conversation_history := conversation_history st; mode := mode st;
     user_feedback := user_feedback st; stuck_count := stuck_count st;
     completion_status := completion_status st; next_action := next_action st |}.

Definition with_user_message (s : string) (st : GoalMentorState) : GoalMentorState :=
  {| goal := goal st; goal_refined := goal_refined st; steps := steps st;
     current_step_index := current_step_index st; user_message := s;
     assistant_response := assistant_response st;
     conversation_history := conversation_history st; mode := mode st;
     user_feedback := user_feedback st; stuck_count := stuck_count st;
     completion_status := completion_status st; next_action := next_action st |}.

Definition with_assistant_response (s : string) (st : GoalMentorState) : GoalMentorState :=
  {| goal := goal st; goal_refined := goal_refined st; steps := steps st;
     current_step_index := current_step_index st; user_message := user_message st;
     assistant_response := s;
     conversation_history := conversation_history st; mode := mode st;
     user_feedback := user_feedback st; stuck_count := stuck_count st;
     completion_status := completion_status st; next_action := next_action st |}.

Definition with_conversation_history (h : list turn) (st : GoalMentorState) : GoalMentorState :=
  {| goal := goal st; goal_refined := goal_refined st; steps := steps st;
     current_step_index := current_step_index st; user_message := user_message st;
     assistant_response := assistant_response st;
     conversation_history := h; mode := mode st;
     user_feedback := user_feedback st; stuck_count := stuck_count st;
     completion_status := completion_status st; next_action := next_action st |}.

Definition with_mode (m : mode_t) (st : GoalMentorState) : GoalMentorState :=
  {| goal := goal st; goal_refined := goal_refined st; steps := steps st;
     current_step_index := current_step_index st; user_message := user_message st;
     assistant_response := assistant_response st;
     conversation_history := conversation_history st; mode := m;
     user_feedback := user_feedback st; stuck_count := stuck_count st;
     completion_status := completion_status st; next_action := next_action st |}.

Definition with_stuck_count (n : Z) (st : GoalMentorState) : GoalMentorState :=
  {| goal := goal st; goal_refined := goal_refined st; steps := steps st;
     current_step_index := current_step_index st; user_message := user_message st;
     assistant_response := assistant_response st;
     conversation_history := conversation_history st; mode := mode st;
     user_feedback := user_feedback st; stuck_count := n;
     completion_status := completion_status st; next_action := next_action st |}.

Definition with_completion_status (c : gmap Z Completion.t) (st : GoalMentorState)
  : GoalMentorState :=
  {| goal := goal st; goal_refined := goal_refined st; steps := steps st;
     current_step_index := current_step_index st; user_message := user_message st;
     assistant_response := assistant_response st;
     conversation_history := conversation_history st; mode := mode st;
     user_feedback := user_feedback st; stuck_count := stuck_count st;
     completion_status := c; next_action := next_action st |}.

(** The state [initialize_session_state] starts a session with. *)
Definition initial_state : GoalMentorState :=
  {| goal := EmptyString; goal_refined := false; steps := JArr [];
     current_step_index := 0; user_message := EmptyString;
     assistant_response :=
       "Hi! I'm your Goal Mentor. What goal would you like to work on together?";
     conversation_history := []; mode := goal_setting;
     user_feedback := ∅; stuck_count := 0;
     completion_status := ∅; next_action := EmptyString |}.

(** The state the side bar's New Goal button installs. *)
Definition new_goal_state : GoalMentorState :=
  with_assistant_response "What new goal would you like to work on?" initial_state.

(** ** The texts the handlers build

    Each f-string of the source is a function of the text put into it. *)

Definition system_msg (goal mode step total stuck : string) : string :=
  "You are a professional goal mentor. The user's goal is: " +:+ Text.dq +:+ goal +:+ Text.dq +:+ "
    
Current situation:
- Mode: " +:+ mode +:+ "
- Current step: " +:+ step +:+ " of " +:+ total +:+ "
- Times asked for help: " +:+ stuck +:+ "

Be encouraging, practical, and conversational. Don't be robotic.".

Definition analysis_prompt (goal user_msg : string) : string :=
  "
The user wants to achieve: " +:+ Text.dq +:+ goal +:+ Text.dq +:+ "

Analyze this goal and respond naturally:
1. Is this goal specific and actionable enough?
2. If not, ask 1-2 friendly questions to help refine it
3. If it's good, acknowledge it and show enthusiasm

Recent user message: " +:+ Text.dq +:+ user_msg +:+ Text.dq +:+ "

Be conversational and encouraging, not robotic.
".

Definition analysis_fallback (goal : string) : string :=
  "I'm having trouble connecting right now. Let's work with your goal: " +:+ goal.

Definition planning_prompt (goal : string) : string :=
  "
Create a 4-week plan for: " +:+ Text.dq +:+ goal +:+ Text.dq +:+ "

Return ONLY a JSON object with this exact structure:
{
    " +:+ Text.dq +:+ "steps" +:+ Text.dq +:+ ": [
        {
            " +:+ Text.dq +:+ "title" +:+ Text.dq +:+ ": " +:+ Text.dq +:+ "Week 1: [Short descriptive title]" +:+ Text.dq +:+ ",
            " +:+ Text.dq +:+ "description" +:+ Text.dq +:+ ": " +:+ Text.dq +:+ "[What to focus on this week]" +:+ Text.dq +:+ ",
            " +:+ Text.dq +:+ "tips" +:+ Text.dq +:+ ": " +:+ Text.dq +:+ "[2-3 practical tips for success]" +:+ Text.dq +:+ ",
            " +:+ Text.dq +:+ "key_actions" +:+ Text.dq +:+ ": " +:+ Text.dq +:+ "[Specific things to do]" +:+ Text.dq +:+ "
        },
        // ... 3 more weeks
    ],
    " +:+ Text.dq +:+ "encouragement" +:+ Text.dq +:+ ": " +:+ Text.dq +:+ "[Personal encouraging message about their goal]" +:+ Text.dq +:+ "
}

Make it practical, achievable, and motivating. Each week should build on the previous one.
".

Definition plan_ready (encouragement : string) : string :=
  encouragement +:+ "

I've created your 4-week plan! Ready to start with Week 1?".

Definition all_done_msg (goal : string) : string :=
  "🎉 Congratulations! You've completed all 4 weeks of your goal plan for '" +:+ goal +:+ "'! That's amazing dedication.".

Definition step_done_msg (title next_title next_description : string) : string :=
  "✅ Awesome! You've completed " +:+ title +:+ "!

Ready for " +:+ next_title +:+ "?

" +:+ next_description.

Definition step_context (title description tips user_message : string) : string :=
  "
The user is working on: " +:+ title +:+ "
Description: " +:+ description +:+ "
Tips: " +:+ tips +:+ "

User said: " +:+ Text.dq +:+ user_message +:+ Text.dq +:+ "

Respond conversationally. Be encouraging and provide relevant advice for their current step.
".

Definition step_fallback (title tips : string) : string :=
  "I understand you're working on " +:+ title +:+ ". " +:+ tips +:+ " What specific part would you like to focus on?".

Definition help_prompt (title description user_msg stuck_count help_level : string) : string :=
  "
The user is stuck on: " +:+ title +:+ "
Description: " +:+ description +:+ "
They said: " +:+ Text.dq +:+ user_msg +:+ Text.dq +:+ "
Times they've asked for help: " +:+ stuck_count +:+ "

Provide " +:+ help_level +:+ ". Be understanding and practical. 

If they've been stuck multiple times, consider suggesting they might want to break this down into smaller parts or try a different approach.
".

Definition fallback_help (title tips : string) : string :=
  "I can see you're having trouble with " +:+ title +:+ ". That's totally normal!
        
Here are some ways to approach it:
1. Break it into smaller 15-minute tasks
2. Focus on just one small part today
3. Ask yourself: what's the smallest step I could take right now?

" +:+ tips +:+ "

What feels most manageable to you?".

Definition celebration_head (goal : string) : string :=
  "🎉 CONGRATULATIONS! 🎉

You've successfully completed your 4-week journey toward " +:+ Text.dq +:+ goal +:+ Text.dq +:+ "!

Here's what you accomplished:
".

Definition completed_line (title : string) : string :=
  "✅ " +:+ title +:+ "
".

Definition skipped_line (title : string) : string :=
  "📝 " +:+ title +:+ "
".

Definition celebration_tail  : string :=
  "
That's incredible dedication! You should be proud of yourself.

What's next? Ready to set a new goal, or do you want to keep building on this one?".

(** The user's message counts as a completed step, or as a call for help,
    when it contains one of these words. *)
Definition done_words : list string := ["done"; "complete"; "finished"; "next"].
Definition help_words : list string :=
  ["help"; "stuck"; "difficult"; "hard"; "don't know"].
Definition new_goal_phrases : list string :=
  ["new goal"; "start over"; "different goal"].

(** [help_level] of [help_node]. *)
Definition help_level (stuck_count : Z) : string :=
  if stuck_count =? 1 then "gentle encouragement and tips"
  else if stuck_count =? 2 then "more specific, actionable advice"
  else "very detailed, step-by-step breakdown".

(** [fallback_steps] of [planning_node]. *)
Definition fallback_step (title description tips key_actions : string) : json :=
  JObj [("title", JStr title); ("description", JStr description);
        ("tips", JStr tips); ("key_actions", JStr key_actions)].

Definition fallback_steps (goal : string) : list json :=
  [ fallback_step "Week 1: Foundation Building"
      ("Set up the basics for achieving " +:+ goal)
      "Start small, be consistent, track your progress"
      "Research, plan, and take the first small step";
    fallback_step "Week 2: Skill Development"
      ("Focus on building key skills needed for " +:+ goal)
      "Practice daily, seek feedback, don't fear mistakes"
      "Dedicate time each day to skill-building activities";
    fallback_step "Week 3: Implementation"
      ("Apply what you've learned toward " +:+ goal)
      "Take action, measure results, adjust as needed"
      "Execute your plan and track concrete progress";
    fallback_step "Week 4: Optimization"
      ("Refine your approach and plan next steps for " +:+ goal)
      "Reflect on what worked, optimize your methods"
      "Fine-tune your approach and set up for continued success" ].

Definition fallback_ready : string :=
  "I've created a solid 4-week plan for you! Let's start with Week 1.".

(** ** The handlers *)

Section Handlers.

(** [json.loads], [None] when it raises. *)
Variable json_loads : string -> option json.

(** [str(v)] of a decoded value that is not a [str], as an f-string
    prints it. *)
Variable py_repr : json -> string.

(** [f"{v}"] *)
Definition fmt (v : json) : string :=
  match v with
  | JStr s => s
  | _ => py_repr v
  end.

Definition to_message (t : turn) : message :=
  if String.eqb (role t) "user" then HumanMessage (content t)
  else AIMessage (content t).

(** [create_conversation_context]: [len(steps)] is the one place where
    it can raise. *)
Definition create_conversation_context (state : GoalMentorState)
  : result (list message) :=
  total ← Py.len (steps state);
  let system_msg :=
    system_msg (goal state) (mode_name (mode state))
      (pretty (current_step_index state + 1)) (pretty total)
      (pretty (stuck_count state)) in
  mret (SystemMessage system_msg
        :: map to_message (Py.last_n 6 (conversation_history state))).

(** [goal_analysis_node]: the reply is taken as a call for refinement when
    it holds a question mark and the goal is not marked refined yet.  Any
    exception of the [try] block leads to [planning]. *)
Definition goal_analysis_node (state : GoalMentorState) : M GoalMentorState :=
  let goal := goal state in
  let user_msg := user_message state in
  let analysis_prompt := analysis_prompt goal user_msg in
  try_except
    (messages ← lift (create_conversation_context state);
     response ← invoke (messages ++ [HumanMessage analysis_prompt]);
     let assistant_msg := Text.strip response in
     let needs_refinement :=
       Text.contains "?" assistant_msg && negb (goal_refined state) in
     let new_history :=
       conversation_history state
       ++ (if String.eqb user_msg EmptyString then [] else [user_turn user_msg])
       ++ [assistant_turn assistant_msg] in
     mret (with_goal_refined (negb needs_refinement)
            (with_mode (if needs_refinement then goal_setting else planning)
              (with_conversation_history new_history
                (with_assistant_response assistant_msg state)))))
    (mret (with_goal_refined true
            (with_mode planning
              (with_assistant_response (analysis_fallback goal) state)))).

(** The reply with its code fence taken off, as [planning_node] does
    before decoding. *)
Definition unfence (content : string) : string :=
  if Text.startswith "```json" content
  then Text.strip (Text.replace "```" EmptyString
                     (Text.replace "```json" EmptyString content))
  else content.

(** [planning_node]: the value under [steps] is stored as it was decoded.
    The bare [except] catches the failure of the model call, of
    [json.loads] and of [.get] on a value that is no [dict]. *)
Definition planning_node (state : GoalMentorState) : M GoalMentorState :=
  let goal := goal state in
  let planning_prompt := planning_prompt goal in
  try_except
    (messages ← lift (create_conversation_context state);
     response ← invoke (messages ++ [HumanMessage planning_prompt]);
     let content := unfence (Text.strip response) in
     plan_data ← lift (match json_loads content with
                       | Some v => Ok v
                       | None => Raise ValueError
                       end);
     steps ← lift (Py.get plan_data "steps" (JArr []));
     encouragement ← lift (Py.get plan_data "encouragement"
                             (JStr "Great goal! Let's make it happen."));
     let reply := plan_ready (fmt encouragement) in
     let new_history := conversation_history state ++ [assistant_turn reply] in
     mret (with_current_step_index 0
            (with_mode execution
              (with_conversation_history new_history
                (with_assistant_response reply
                  (with_steps steps state))))))
    (let new_history :=
       conversation_history state ++ [assistant_turn fallback_ready] in
     mret (with_current_step_index 0
            (with_mode execution
              (with_conversation_history new_history
                (with_assistant_response fallback_ready
                  (with_steps (JArr (fallback_steps goal)) state)))))).

(** [execution_node].  The length of the plan, the current step and the
    texts of the step are read outside of the [try] block: an exception
    there leaves the handler.  The source writes the completion record
    into the dictionary of the state it was given; here the new
    dictionary is part of the state returned. *)
Definition execution_node (state : GoalMentorState) : M GoalMentorState :=
  let current_idx := current_step_index state in
  let steps := steps state in
  let user_msg := Text.lower (user_message state) in
  total ← lift (Py.len steps);
  if current_idx >=? total then
    mret (with_mode completed state)
  else
    current_step ← lift (Py.getitem_int steps current_idx);
    if Text.any_in done_words user_msg then
      let completion_status :=
        <[current_idx :=
            {| Completion.completed_at := "now";
               Completion.user_feedback := user_msg |}]>
          (completion_status state) in
      let new_idx := current_idx + 1 in
      congrats_msg ←
        (if new_idx >=? total then
           mret (all_done_msg (goal state))
         else
           next_step ← lift (Py.getitem_int steps new_idx);
           title ← lift (Py.getitem_str current_step "title");
           next_title ← lift (Py.getitem_str next_step "title");
           next_description ← lift (Py.getitem_str next_step "description");
           mret (step_done_msg (fmt title) (fmt next_title)
                   (fmt next_description)));
      let new_history :=
        conversation_history state
        ++ [user_turn (user_message state); assistant_turn congrats_msg] in
      mret (with_mode (if new_idx >=? total then completed else execution)
             (with_conversation_history new_history
               (with_assistant_response congrats_msg
                 (with_completion_status completion_status
                   (with_current_step_index new_idx state)))))
    else if Text.any_in help_words user_msg then
      mret (with_stuck_count (stuck_count state + 1) (with_mode help state))
    else
      title ← lift (Py.getitem_str current_step "title");
      description ← lift (Py.getitem_str current_step "description");
      tips ← lift (Py.getitem_str current_step "tips");
      let step_context :=
        step_context (fmt title) (fmt description) (fmt tips)
          (user_message state) in
      try_except
        (messages ← lift (create_conversation_context state);
         response ← invoke (messages ++ [HumanMessage step_context]);
         let assistant_msg := Text.strip response in
         let new_history :=
           conversation_history state
           ++ [user_turn (user_message state); assistant_turn assistant_msg] in
         mret (with_conversation_history new_history
                (with_assistant_response assistant_msg state)))
        (title ← lift (Py.getitem_str current_step "title");
         tips ← lift (Py.getitem_str current_step "tips");
         mret (with_assistant_response
                 (step_fallback (fmt title) (fmt tips)) state)).

(** [help_node]: the step and the prompt are read outside of the [try]
    block, and the fallback reads the title and the tips again. *)
Definition help_node (state : GoalMentorState) : M GoalMentorState :=
  let current_idx := current_step_index state in
  current_step ← lift (Py.getitem_int (steps state) current_idx);
  let stuck_count := stuck_count state in
  let user_msg := user_message state in
  let help_level := help_level stuck_count in
  title ← lift (Py.getitem_str current_step "title");
  description ← lift (Py.getitem_str current_step "description");
  let help_prompt :=
    help_prompt (fmt title) (fmt description) user_msg
      (pretty stuck_count) help_level in
  try_except
    (messages ← lift (create_conversation_context state);
     response ← invoke (messages ++ [HumanMessage help_prompt]);
     let assistant_msg := Text.strip response in
     let new_history :=
       conversation_history state
       ++ [user_turn user_msg; assistant_turn assistant_msg] in
     mret (with_mode execution
            (with_conversation_history new_history
              (with_assistant_response assistant_msg state))))
    (title ← lift (Py.getitem_str current_step "title");
     tips ← lift (Py.getitem_str current_step "tips");
     let fallback_help := fallback_help (fmt title) (fmt tips) in
     mret (with_mode execution
            (with_assistant_response fallback_help state))).

(** The lines of the celebration, one per step: [i] is the position
    [enumerate] gives the step. *)
Fixpoint celebration_lines (completion_status : gmap Z Completion.t)
    (i : Z) (items : list json) : result string :=
  match items with
  | [] => Ok EmptyString
  | step :: rest =>
      title ← Py.getitem_str step "title";
      let line :=
        if bool_decide (is_Some (completion_status !! i))
        then completed_line (fmt title) else skipped_line (fmt title) in
      more ← celebration_lines completion_status (i + 1) rest;
      mret (line +:+ more)
  end.

(** [completion_node]: no model call. *)
Definition completion_node (state : GoalMentorState) : M GoalMentorState :=
  let goal := goal state in
  let completion_status := completion_status state in
  items ← lift (Py.iter (steps state));
  lines ← lift (celebration_lines completion_status 0 items);
  let celebration_msg := celebration_head goal +:+ lines +:+ celebration_tail in
  let new_history :=
    conversation_history state ++ [assistant_turn celebration_msg] in
  mret (with_conversation_history new_history
         (with_assistant_response celebration_msg state)).

(** [route_conversation]: the name of the handler to run. *)
Definition route_conversation (state : GoalMentorState) : string :=
  let mode := mode state in
  let user_msg := Text.lower (user_message state) in
  if Text.any_in new_goal_phrases user_msg then "goal_analysis"
  else match mode with
       | goal_setting => "goal_analysis"
       | planning => "planning"
       | help => "help"
       | completed => "completion"
       | execution => "execution"
       end.

(** The handlers under the names [create_goal_mentor_graph] adds them
    with. *)
Definition node (name : string) : option (GoalMentorState -> M GoalMentorState) :=
  if String.eqb name "goal_analysis" then Some goal_analysis_node
  else if String.eqb name "planning" then Some planning_node
  else if String.eqb name "execution" then Some execution_node
  else if String.eqb name "help" then Some help_node
  else if String.eqb name "completion" then Some completion_node
  else None.

End Handlers.

(** ** A reader for plain JSON

    The handlers take [json.loads] as a variable, and what is proved of
    them holds for every decoder.  To run them on a reply, [Json.loads]
    reads plain JSON: [null], [true], [false], integers, text without
    backslash escapes, arrays and objects.  On such a text it returns
    what [json.loads] returns, a later item of a repeated key replacing
    the earlier one; on text that is not JSON it returns [None], as
    [json.loads] raises.  Numbers with a fraction or an exponent, [NaN],
    [Infinity] and escapes are outside of what it reads. *)

Module Json.

Definition is_ws (c : ascii) : bool :=
  let n := nat_of_ascii c in
  ((n =? 32) || (n =? 9) || (n =? 10) || (n =? 13))%nat.

Fixpoint skip_ws (s : string) : string :=
  match s with
  | String c t => if is_ws c then skip_ws t else s
  | EmptyString => EmptyString
  end.

(** The digits [s] starts with, read as a number on top of [acc]. *)
Fixpoint digits (acc : Z) (s : string) : Z * string :=
  match s with
  | String c t =>
      if Text.isdigit c
      then digits (10 * acc + (Z.of_nat (nat_of_ascii c) - 48)) t
      else (acc, s)
  | EmptyString => (acc, EmptyString)
  end.

(** [0] or a number with no leading zero, not followed by a fraction
    or an exponent. *)
Definition natural (s : string) : option (Z * string) :=
  match s with
  | String c t =>
      if Text.isdigit c then
        let '(n, rest) := if Ascii.eqb c "0" then (0, t) else digits 0 s in
        match rest with
        | String d _ =>
            if Text.isdigit d || Ascii.eqb d "." || Ascii.eqb d "e" || Ascii.eqb d "E"
            then None else Some (n, rest)
        | EmptyString => Some (n, rest)
        end
      else None
  | EmptyString => None
  end.

(** The text up to the closing quote; control characters and the
    backslash are not read. *)
Fixpoint text (s : string) : option (string * string) :=
  match s with
  | EmptyString => None
  | String c t =>
      if Ascii.eqb c "034" then Some (EmptyString, t)
      else if Ascii.eqb c "\" || (nat_of_ascii c <? 32)%nat then None
      else '(body, rest) ← text t; Some (String c body, rest)
  end.

(** [d[k] = v] *)
Fixpoint dict_set (d : list (string * json)) (k : string) (v : json)
  : list (string * json) :=
  match d with
  | [] => [(k, v)]
  | (k', v') :: d' =>
      if String.eqb k' k then (k', v) :: d' else (k', v') :: dict_set d' k v
  end.

Fixpoint value (fuel : nat) (s : string) : option (json * string) :=
  match fuel with
  | O => None
  | S fuel =>
      match skip_ws s with
      | String "n" (String "u" (String "l" (String "l" rest))) => Some (JNull, rest)
      | String "t" (String "r" (String "u" (String "e" rest))) => Some (JBool true, rest)
      | String "f" (String "a" (String "l" (String "s" (String "e" rest)))) =>
          Some (JBool false, rest)
      | String "034" rest => '(body, rest) ← text rest; Some (JStr body, rest)
      | String "[" rest =>
          match skip_ws rest with
          | String "]" rest => Some (JArr [], rest)
          | _ => '(items, rest) ← elements fuel rest; Some (JArr items, rest)
          end
      | String "{" rest =>
          match skip_ws rest with
          | String "}" rest => Some (JObj [], rest)
          | _ => '(fields, rest) ← members fuel [] rest; Some (JObj fields, rest)
          end
      | String "-" rest => '(n, rest) ← natural rest; Some (JInt (- n), rest)
      | rest => '(n, rest) ← natural rest; Some (JInt n, rest)
      end
  end
with elements (fuel : nat) (s : string) : option (list json * string) :=
  match fuel with
  | O => None
  | S fuel =>
      '(v, rest) ← value fuel s;
      match skip_ws rest with
      | String "," rest => '(vs, rest) ← elements fuel rest; Some (v :: vs, rest)
      | String "]" rest => Some ([v], rest)
      | _ => None
      end
  end
with members (fuel : nat) (d : list (string * json)) (s : string)
  : option (list (string * json) * string) :=
  match fuel with
  | O => None
  | S fuel =>
      match skip_ws s with
      | String "034" rest =>
          '(k, rest) ← text rest;
          match skip_ws rest with
          | String ":" rest =>
              '(v, rest) ← value fuel rest;
              let d := dict_set d k v in
              match skip_ws rest with
              | String "," rest => members fuel d rest
              | String "}" rest => Some (d, rest)
              | _ => None
              end
          | _ => None
          end
      | _ => None
      end
  end.

Definition loads (s : string) : option json :=
  '(v, rest) ← value (2 * String.length s + 2) s;
  match skip_ws rest with
  | EmptyString => Some v
  | _ => None
  end.

End Json.

(** ** The numbered-list plan reader of [main.py] *)

Module NumberedList.

Definition plan_instruction : string :=
  "Break the user's goal into 4 clear, actionable weekly steps. Format as a numbered list (1. step one
2. step two
 etc.). Each step should be specific and measurable.".

(** The step a line of the reply holds, if it is a numbered line. *)
Definition numbered_line (line : string) : option string :=
  let line := Text.strip line in
  match line with
  | String c _ =>
      if (2 <? String.length line)%nat && Text.isdigit c
         && Text.contains ". " line
      then Some (Text.strip (Text.after_first ". " line))
      else None
  | EmptyString => None
  end.

(** The loop of [generate_plan] over the lines of the reply. *)
Definition numbered_steps (text : string) : list string :=
  omap numbered_line (Text.split "010" text).

(** [generate_plan]: the steps are those the reply holds, however many;
    when the call raises the plan is empty (the error goes to the
    page). *)
Definition generate_plan (goal : string) : M (list string) :=
  let messages :=
    [SystemMessage plan_instruction; HumanMessage ("My goal is: " +:+ goal)] in
  try_except
    (response ← invoke messages;
     let text := Text.strip response in
     mret (numbered_steps text))
    (mret []).

End NumberedList.

(** ** Sessions

    [main] puts the user's message into the state and hands it to the
    graph, which runs handlers one after the other along its edges; when
    the graph raises, the state [main] had is kept, with an apology for
    a response.  A session is a list of handler runs, each with the
    message the state carries and the port as it answers then; the
    handlers the graph chains in one turn are runs with the same
    message. *)

Definition hiccup : string :=
  "I'm having a technical hiccup. Could you try rephrasing that?".

Record handler_run : Type := {
  node_name : string;
  said : string;
  model : port
}.

Section Sessions.

Variable json_loads : string -> option json.
Variable py_repr : json -> string.

(** The state after the runs [rs]; [None] when a name is not that of a
    handler. *)
Fixpoint run (rs : list handler_run) (state : GoalMentorState)
  : option GoalMentorState :=
  match rs with
  | [] => Some state
  | r :: rs' =>
      match node json_loads py_repr (node_name r) with
      | None => None
      | Some handler =>
          match outcome (handler (with_user_message (said r) state)) (model r) with
          | Ok state' => run rs' state'
          | Raise _ => run rs' (with_assistant_response hiccup state)
          end
      end
  end.

End Sessions.

(** ** What a list of messages holds *)

Definition is_system (m : message) : bool :=
  match m with
  | SystemMessage _ => true
  | _ => false
  end.

Definition text_of (m : message) : string :=
  match m with
  | SystemMessage c | HumanMessage c | AIMessage c => c
  end.

(** A state in which the goal, the plan, the step index, the stuck count,
    the completion records and the history are all back to what a session
    starts with. *)
Definition cleared (state : GoalMentorState) : Prop :=
  goal state = EmptyString
  /\ steps state = JArr []
  /\ current_step_index state = 0
  /\ stuck_count state = 0
  /\ completion_status state = ∅
  /\ conversation_history state = [].

(** Two states that differ at most in the response, the mode and the
    refinement flag. *)
Definition same_session_data (a b : GoalMentorState) : Prop :=
  goal a = goal b
  /\ steps a = steps b
  /\ current_step_index a = current_step_index b
  /\ user_message a = user_message b
  /\ conversation_history a = conversation_history b
  /\ user_feedback a = user_feedback b
  /\ stuck_count a = stuck_count b
  /\ completion_status a = completion_status b
  /\ next_action a = next_action b.

(** ** States for running the handlers *)

Module Demo.

(** A printer for values that are not text: [None], [True], [False] and
    the integers as Python prints them.  The steps of the states below
    hold text only. *)
Definition repr (v : json) : string :=
  match v with
  | JNull => "None"
  | JBool true => "True"
  | JBool false => "False"
  | JInt n => pretty n
  | _ => EmptyString
  end.

Definition goal_text : string := "learn python".

(** A session in its last week: the fallback plan, three steps done. *)
Definition last_week : GoalMentorState :=
  {| goal := goal_text; goal_refined := true;
     steps := JArr (fallback_steps goal_text);
     current_step_index := 3; user_message := "done, finally!";
     assistant_response := EmptyString;
     conversation_history := [assistant_turn fallback_ready];
     mode := execution; user_feedback := ∅; stuck_count := 1;
     completion_status :=
       {[ 0 := {| Completion.completed_at := "now";
                  Completion.user_feedback := "done" |} ]};
     next_action := EmptyString |}.

(** The same session once the index has run past the plan. *)
Definition overrun : GoalMentorState := with_current_step_index 4 last_week.

(** The session waiting for its plan. *)
Definition awaiting_plan : GoalMentorState :=
  with_mode planning (with_steps (JArr []) (with_current_step_index 0 last_week)).

(** The second week, the user asking about the step. *)
Definition chatting : GoalMentorState :=
  with_user_message "What should I read first?"
    (with_current_step_index 1 last_week).

(** The second week, the user having asked for help twice. *)
Definition stuck : GoalMentorState :=
  with_mode help
    (with_stuck_count 2
      (with_user_message "I am stuck" (with_current_step_index 1 last_week))).

(** The last week, the user asking for another goal. *)
Definition wants_new_goal : GoalMentorState :=
  with_user_message "I want to start over with a new goal" last_week.

(** A session that has just started, the user naming a goal. *)
Definition first_message : GoalMentorState :=
  with_user_message "learn python" initial_state.

(** A port that answers every prompt with the same text. *)
Definition answering (response : string) : port := fun _ => Some response.

(** A week of a session: a step done, a call for help, the help, the
    next step done, and the celebration. *)
Definition week : list handler_run :=
  [ {| node_name := "execution"; said := "Done with this one";
       model := failing_port |};
    {| node_name := "execution"; said := "this is hard";
       model := failing_port |};
    {| node_name := "help"; said := "this is hard";
       model := answering "Try ten minutes a day." |};
    {| node_name := "execution"; said := "finished!"; model := failing_port |};
    {| node_name := "completion"; said := "finished!"; model := failing_port |} ].

(** A reply that is a JSON object with no plan in it, and one whose plan
    has a single step. *)
Definition empty_reply : string := "{}".

Definition short_reply : string :=
  "{" +:+ Text.dq +:+ "steps" +:+ Text.dq +:+ ": [{" +:+ Text.dq +:+ "title"
  +:+ Text.dq +:+ ": " +:+ Text.dq +:+ "Week 1: Read" +:+ Text.dq +:+ "}]}".

(** The last week with ten turns of history behind it. *)
Definition ten_turns : list turn :=
  [ user_turn "t1"; assistant_turn "t2"; user_turn "t3"; assistant_turn "t4";
    user_turn "t5"; assistant_turn "t6"; user_turn "t7"; assistant_turn "t8";
    user_turn "t9"; assistant_turn "t10" ].

Definition long_session : GoalMentorState :=
  with_conversation_history ten_turns last_week.

End Demo.

(** ** Plans of steps, routed turns and the graph *)

(** [step[key]] can be read. *)
Definition readable (step : json) (key : string) : bool :=
  match Py.getitem_str step key with
  | Ok _ => true
  | Raise _ => false
  end.

(** A step as the state's declaration describes it: a dictionary with a
    title, a description and tips. *)
Definition step_ok (step : json) : bool :=
  readable step "title" && readable step "description" && readable step "tips".

(** A session whose plan is a list of such steps and whose index is not
    negative, and lies within the plan when help is due. *)
Definition session_ok (state : GoalMentorState) : Prop :=
  exists plan : list json,
    steps state = JArr plan
    /\ forallb step_ok plan = true
    /\ 0 <= current_step_index state
    /\ (mode state = help -> current_step_index state < Z.of_nat (length plan)).

(** What a handler may do to the state it is given: [b] has the goal, the
    message, the feedback and the next action of [a], a stuck count that
    is the same or one more, completion records that are the same or have
    one record written at the step index of [a], and a history that
    extends that of [a]. *)
Definition patched (a b : GoalMentorState) : Prop :=
  goal b = goal a
  /\ user_message b = user_message a
  /\ user_feedback b = user_feedback a
  /\ next_action b = next_action a
  /\ (stuck_count b = stuck_count a \/ stuck_count b = stuck_count a + 1)
  /\ (completion_status b = completion_status a
      \/ exists record,
           completion_status b
           = <[current_step_index a := record]> (completion_status a))
  /\ exists added, conversation_history b = conversation_history a ++ added.

(** Where the graph goes after a node: to another node, to [END], or
    nowhere when the router's answer is not a key of the path map. *)
Inductive edge : Type :=
  | Goto (name : string)
  | End_of_graph
  | No_edge.

(** How a run of the graph ends: at [END] with a state, with an
    exception of a handler, at a missing edge or node, or out of
    steps. *)
Inductive walk_result : Type :=
  | Finished (state : GoalMentorState)
  | Raised (e : exn)
  | No_target
  | Out_of_steps.

(** The path map of the conditional edges after [execution]. *)
Definition execution_path_map : list (string * string) :=
  [("execution", "execution"); ("help", "help");
   ("completion", "completion"); ("goal_analysis", "goal_analysis")].

Fixpoint path_lookup (path_map : list (string * string)) (key : string)
  : option string :=
  match path_map with
  | [] => None
  | (k, target) :: rest =>
      if String.eqb k key then Some target else path_lookup rest key
  end.

Section Graph.

Variable json_loads : string -> option json.
Variable py_repr : json -> string.

(** One turn through the router: the handler [route_conversation] names,
    run on the state. *)
Definition routed_turn (state : GoalMentorState) : M GoalMentorState :=
  match node json_loads py_repr (route_conversation state) with
  | Some handler => handler state
  | None => lift (Raise KeyError)
  end.

(** The edges of [create_goal_mentor_graph], read on the state the node
    [name] has returned. *)
Definition next_node (name : string) (state : GoalMentorState) : edge :=
  if String.eqb name "goal_analysis" then
    Goto (match mode state with
          | planning => "planning"
          | _ => "goal_analysis"
          end)
  else if String.eqb name "planning" then Goto "execution"
  else if String.eqb name "execution" then
    match path_lookup execution_path_map (route_conversation state) with
    | Some target => Goto target
    | None => No_edge
    end
  else if String.eqb name "help" then Goto "execution"
  else if String.eqb name "completion" then End_of_graph
  else No_edge.

(** A run of the graph from the node [name]: the node runs, its edge is
    followed, and so on until [END], for at most [fuel] nodes.  The state
    a node returns is the state the next node is given; the port is the
    same for every node of the run. *)
Fixpoint walk (fuel : nat) (name : string) (state : GoalMentorState)
    (llm : port) : walk_result :=
  match fuel with
  | O => Out_of_steps
  | S fuel' =>
      match node json_loads py_repr name with
      | None => No_target
      | Some handler =>
          match outcome (handler state) llm with
          | Raise e => Raised e
          | Ok state' =>
              match next_node name state' with
              | End_of_graph => Finished state'
              | Goto target => walk fuel' target state' llm
              | No_edge => No_target
              end
          end
      end
  end.

(** [graph.invoke]: a run from the entry point. *)
Definition graph_invoke (fuel : nat) (state : GoalMentorState) (llm : port)
  : walk_result :=
  walk fuel "goal_analysis" state llm.

End Graph.

(** ** The plan as the console prints it

    [run_goal_mentor] of [goalmentor_withoutui.py] reads the model's
    reply with the loop of [generate_plan] and shows the plan one step a
    line, numbered from 1. *)

Module Console.

(** [f"{i+1}. {step}"] *)
Definition numbered (i : nat) (step : string) : string :=
  pretty (Z.of_nat i + 1) +:+ ". " +:+ step.

(** The lines [for i, step in enumerate(steps): print(...)] prints. *)
Definition plan_lines (steps : list string) : list string :=
  imap numbered steps.

(** The text a sequence of [print] calls writes: each line and a line
    feed. *)
Fixpoint printed (lines : list string) : string :=
  match lines with
  | [] => EmptyString
  | line :: rest => line +:+ String "010" (printed rest)
  end.

End Console.

(** A text with digits only. *)
Fixpoint all_digits (s : string) : bool :=
  match s with
  | EmptyString => true
  | String c t => Text.isdigit c && all_digits t
  end.

(** A text that does not start with white space. *)
Definition starts_solid (s : string) : Prop :=
  match s with
  | EmptyString => True
  | String c _ => Text.isspace c = false
  end.

(** The character [c] occurs in [s]. *)
Definition has (c : ascii) (s : string) : bool :=
  Text.contains (String c EmptyString) s.

(** A step as the reader returns it: not empty, with no white space at
    either end and no line feed. *)
Definition tidy (step : string) : Prop :=
  step <> EmptyString
  /\ Text.strip step = step
  /\ Text.contains (String "010" EmptyString) step = false.

(** ** The console mentor of [goalmentor_withoutui.py]

    [run_goal_mentor] keeps a goal, a plan and a step index and reads
    one line a turn.  What it prints is part of what a turn returns. *)

Module ConsoleApp.

(** The texts of the program, in the order of the source. *)

Definition resources_prompt (goal step : string) : string :=
  "
    The user is working on this goal: " +:+ Text.dq +:+ goal +:+ Text.dq +:+ "
    They are stuck on this specific step: " +:+ Text.dq +:+ step +:+ Text.dq +:+ "
    
    Provide practical help in this exact format:

    💡 PRACTICAL TIPS:
    • [Tip 1 - specific, actionable advice]
    • [Tip 2 - specific, actionable advice] 
    • [Tip 3 - specific, actionable advice]

    📺 RECOMMENDED YOUTUBE SEARCHES:
    • " +:+ Text.dq +:+ "[search term 1]" +:+ Text.dq +:+ "
    • " +:+ Text.dq +:+ "[search term 2]" +:+ Text.dq +:+ "
    • " +:+ Text.dq +:+ "[search term 3]" +:+ Text.dq +:+ "

    🔗 HELPFUL RESOURCES:
    • [Website/platform 1 - specific recommendation]
    • [Website/platform 2 - specific recommendation]
    • [Website/platform 3 - specific recommendation]

    📝 ACTION PLAN:
    Break this step into 3 smaller mini-steps:
    1. [Mini-step 1]
    2. [Mini-step 2] 
    3. [Mini-step 3]

    Keep responses practical and specific to their goal and step.
    ".

Definition resources_fallback (goal step : string) : string :=
  "
💡 PRACTICAL TIPS:
• Break this step into smaller, manageable tasks
• Set a specific deadline for completion
• Find an accountability partner to check your progress

📺 RECOMMENDED YOUTUBE SEARCHES:
• " +:+ Text.dq +:+ "how to " +:+ Text.lower step +:+ Text.dq +:+ "
• " +:+ Text.dq +:+ Text.lower goal +:+ " beginner guide" +:+ Text.dq +:+ " 
• " +:+ Text.dq +:+ "step by step " +:+ Text.lower step +:+ Text.dq +:+ "

🔗 HELPFUL RESOURCES:
• Reddit communities related to your goal
• Online forums and discussion groups
• Free online courses on relevant topics

📝 ACTION PLAN:
1. Identify the main obstacle preventing completion
2. Research solutions using the resources above
3. Take one small action today toward this step
".

Definition banner : string :=
  "Goal Mentor Initialized.".

Definition ask_goal : string :=
  "
Mentor: What is one goal you're working toward? (e.g., get a job, learn Python, lose weight)".

Definition farewell : string :=
  "Session ended. Stay consistent and keep progressing!".

Definition goal_is (goal : string) : string :=
  "
Great! Your goal is: " +:+ goal.

Definition creating_plan : string :=
  "Let me create a 4-week plan for you...".

Definition plan_instruction : string :=
  "Break the user's goal into 4 clear, simple weekly steps. Format as a numbered list (1. step one\n2. step two\n etc.).".

Definition my_goal_is (goal : string) : string :=
  "My goal is: " +:+ goal.

Definition no_plan : string :=
  "
Mentor: I couldn't create a plan. Please describe your goal differently.".

Definition here_is_plan : string :=
  "
Mentor: Here is your 4-week plan:".

Definition start_week_one : string :=
  "
Let's start with week 1. Have you completed this step?".

Definition first_step (step : string) : string :=
  "➡️ " +:+ step +:+ " (yes/no)".

Definition plan_trouble (e : string) : string :=
  "
Mentor: Sorry, I had trouble creating your plan. Error: " +:+ e.

Definition try_again : string :=
  "Please try describing your goal again.".

Definition all_completed : string :=
  "
Mentor: 🎉 Congratulations! You've completed all steps for your goal. Well done!".

Definition great_job (week : string) : string :=
  "
Mentor: ✅ Great job! Next step (Week " +:+ week +:+ "):".

Definition arrow (step : string) : string :=
  "➡️ " +:+ step.

Definition completed_question : string :=
  "
Have you completed this step? (yes/no)".

Definition no_worries : string :=
  "
Mentor: No worries! Let me help you with:".

Definition how_i_can_help : string :=
  "🚀 HERE'S HOW I CAN HELP YOU:".

Definition generating : string :=
  "Generating personalized tips and resources...".

Definition you_got_this : string :=
  "💪 YOU'VE GOT THIS!".

Definition take_your_time : string :=
  "
Take your time with these resources. When you're ready, let me know:".

Definition completed_short : string :=
  "Have you completed this step? (yes/no)".

Definition or_type : string :=
  "Or type 'help' for more resources, or 'skip' to move to the next step".

Definition more_guidance : string :=
  "
Mentor: Let me give you more detailed guidance for:".

Definition additional_help : string :=
  "
🎯 ALTERNATIVE APPROACHES:
Try a different method if the current one isn't working:

📊 TRACK YOUR PROGRESS:
• Create a simple checklist
• Set daily mini-goals
• Use apps like Habitica or Todoist
• Track progress visually (calendar, chart)

🤝 GET SUPPORT:
• Join online communities (Reddit, Discord, Facebook groups)
• Find a study/workout/accountability buddy
• Consider hiring a coach or mentor
• Ask friends/family for encouragement

⚡ MOTIVATION BOOSTERS:
• Remind yourself WHY this goal matters to you
• Visualize how you'll feel when you complete it
• Celebrate small wins along the way
• Create a reward system for progress

🔄 COMMON OBSTACLES & SOLUTIONS:
• Lack of time → Schedule specific time blocks
• Lack of motivation → Start with just 5 minutes daily
• Don't know where to start → Break it into micro-steps
• Feel overwhelmed → Focus on just today's task
                ".

Definition ready_again : string :=
  "
Ready to try again? Have you completed this step? (yes/no)".

Definition end_of_plan : string :=
  "
Mentor: You've reached the end of your plan!".

Definition skipped_progress : string :=
  "🎉 Even if you skipped some steps, you've made progress. Keep going!".

Definition move_on (week : string) : string :=
  "
Mentor: Okay, let's move to the next step (Week " +:+ week +:+ "):".

Definition please_respond : string :=
  "
Mentor: Please respond with:".

Definition respond_yes : string :=
  "• 'yes' - if you completed the step".

Definition respond_no : string :=
  "• 'no' - if you need help with the step".

Definition respond_help : string :=
  "• 'help' - for additional resources".

Definition respond_skip : string :=
  "• 'skip' - to move to the next step".

Definition current_step_is (step : string) : string :=
  "
Current step: ➡️ " +:+ step.

Definition you_prompt : string :=
  "
You: ".

(** ["=" * 60] *)
Definition rule : string :=
  "============================================================".

Definition line_feed : string := String "010" EmptyString.

(** The variables of the loop.  [goal] is [None] or a text; the loop
    tests it as a truth value, so the empty text counts as no goal. *)
Record state : Type := {
  goal : option string;
  steps : list string;
  current_step_index : Z
}.

(** What the program writes: a [print], or the prompt of [input]. *)
Inductive output : Type :=
  | Print (text : string)
  | Prompt (text : string).

(** How a turn of the loop ends: the loop goes on with the variables, or
    [break]. *)
Inductive control : Type :=
  | Continue (st : state)
  | Break.

(** [steps[i]] *)
Definition item (l : list string) (i : Z) : result string :=
  let n := Z.of_nat (length l) in
  let j := if i <? 0 then n + i else i in
  if (0 <=? j) && (j <? n)
  then match l !! Z.to_nat j with
       | Some v => Ok v
       | None => Raise IndexError
       end
  else Raise IndexError.

(** [get_helpful_resources]: the model's tips, or the fixed ones when the
    call raises. *)
Definition get_helpful_resources (goal step : string) : M string :=
  let prompt := resources_prompt goal step in
  try_except
    (response ← invoke [SystemMessage prompt];
     mret (Text.strip response))
    (mret (resources_fallback goal step)).

Section Loop.

(** [str(e)] of the exception [llm.invoke] raises on these messages. *)
Variable error_text : list message -> string.

(** The branch [if not goal]: the input is the goal and a plan is asked
    for.  The reply is read by the loop of [generate_plan]. *)
Definition set_goal (st : state) (user_input : string)
  : M (list output * control) :=
  let goal := user_input in
  let shown := [Print (goal_is goal); Print creating_plan] in
  let messages :=
    [SystemMessage plan_instruction; HumanMessage (my_goal_is goal)] in
  try_except
    (response ← invoke messages;
     let text := Text.strip response in
     let steps := NumberedList.numbered_steps text in
     match steps with
     | [] =>
         mret (shown ++ [Print no_plan],
               Continue {| goal := None; steps := [];
                           current_step_index := current_step_index st |})
     | first :: _ =>
         mret (shown
               ++ [Print here_is_plan]
               ++ map Print (Console.plan_lines steps)
               ++ [Print start_week_one; Print (first_step first)],
               Continue {| goal := Some goal; steps := steps;
                           current_step_index := 0 |})
     end)
    (mret (shown
           ++ [Print (plan_trouble (error_text messages)); Print try_again],
           Continue {| goal := None; steps := ConsoleApp.steps st;
                       current_step_index := current_step_index st |})).

(** The branches [yes] and [skip]: on to the next step, or out of the
    loop after the last. *)
Definition move_to_next (goal : string) (st : state)
    (at_end : list output) (at_next : string -> list output)
  : M (list output * control) :=
  let current_step_index := current_step_index st + 1 in
  if current_step_index >=? Z.of_nat (length (steps st)) then
    mret (at_end, Break)
  else
    next_step ← lift (item (steps st) current_step_index);
    mret (at_next (pretty (current_step_index + 1))
          ++ [Print (arrow next_step); Print completed_question],
          Continue {| goal := Some goal; steps := steps st;
                      current_step_index := current_step_index |}).

(** The branch [elif steps]: the input is an answer about the current
    step. *)
Definition track (goal : string) (st : state) (user_input : string)
  : M (list output * control) :=
  let user_response := Text.lower user_input in
  if Text.contains "yes" user_response then
    move_to_next goal st [Print all_completed]
      (fun week => [Print (great_job week)])
  else if Text.contains "no" user_response then
    current_step ← lift (item (steps st) (current_step_index st));
    resources ← get_helpful_resources goal current_step;
    mret ([Print no_worries; Print (arrow current_step);
           Print (line_feed +:+ rule); Print how_i_can_help; Print rule;
           Print generating; Print resources;
           Print (line_feed +:+ rule); Print you_got_this; Print rule;
           Print take_your_time; Print completed_short; Print or_type],
          Continue st)
  else if Text.contains "help" user_response then
    current_step ← lift (item (steps st) (current_step_index st));
    mret ([Print more_guidance; Print (arrow current_step);
           Print additional_help; Print ready_again],
          Continue st)
  else if Text.contains "skip" user_response then
    move_to_next goal st [Print end_of_plan; Print skipped_progress]
      (fun week => [Print (move_on week)])
  else
    current_step ← lift (item (steps st) (current_step_index st));
    mret ([Print please_respond; Print respond_yes; Print respond_no;
           Print respond_help; Print respond_skip;
           Print (current_step_is current_step)],
          Continue st).

(** One turn of [while True]: the line typed is [typed]. *)
Definition turn (st : state) (typed : string) : M (list output * control) :=
  let user_input := Text.strip typed in
  if String.eqb (Text.lower user_input) "exit" then
    mret ([Prompt you_prompt; Print farewell], Break)
  else
    result ←
      match goal st, steps st with
      | Some (String c g), _ :: _ => track (String c g) st user_input
      | Some (String _ _), [] => mret ([], Continue st)
      | _, _ => set_goal st user_input
      end;
    mret (Prompt you_prompt :: fst result, snd result).

(** The loop over the lines typed, until [break] or the last line. *)
Fixpoint loop (typed : list string) (st : state) : M (list output * control) :=
  match typed with
  | [] => mret ([], Continue st)
  | line :: rest =>
      result ← turn st line;
      match snd result with
      | Break => mret result
      | Continue st' =>
          later ← loop rest st';
          mret (fst result ++ fst later, snd later)
      end
  end.

(** [run_goal_mentor] on the lines typed. *)
Definition run_goal_mentor (typed : list string) : M (list output * control) :=
  result ← loop typed {| goal := None; steps := []; current_step_index := 0 |};
  mret (Print banner :: Print ask_goal :: fst result, snd result).

End Loop.

(** The index points into the plan, when there is a plan. *)
Definition index_in_plan (st : state) : Prop :=
  steps st = [] \/ 0 <= current_step_index st < Z.of_nat (length (steps st)).

(** A goal that counts, a text that is not empty, comes with a plan. *)
Definition goal_has_plan (st : state) : Prop :=
  forall c g, goal st = Some (String c g) -> steps st <> [].

End ConsoleApp.

(** ** Sessions and lines to run the handlers and the console on *)

Module Cases.

(** The second week, the user saying the step is done. *)
Definition second_done : GoalMentorState :=
  with_user_message "Done with this one" Demo.chatting.


(** The second week, a message with a done word and a help word. *)
Definition done_and_help : GoalMentorState :=
  with_user_message "Done, but it was hard" Demo.chatting.


(** The help handler entered with the index past the plan. *)
Definition help_overrun : GoalMentorState := with_mode help Demo.overrun.



(** A reply of the model with a plan of two numbered lines. *)
Definition two_lines : string :=
  "1. Read a book" +:+ ConsoleApp.line_feed +:+ "2. Write a script".

(** The console mentor with a goal and that plan, at its first step. *)
Definition console : ConsoleApp.state :=
  {| ConsoleApp.goal := Some Demo.goal_text;
     ConsoleApp.steps := ["Read a book"; "Write a script"];
     ConsoleApp.current_step_index := 0 |}.

(** The text of an exception, as the console prints it. *)
Definition error_text : list message -> string := fun _ => "Connection error.".

End Cases.

(** ** The text functions and the reader on examples *)

Example lower_mixed : Text.lower "Start OVER, please" = "start over, please".
Proof. reflexivity. Qed.

Example strip_both : Text.strip "  a b
 " = "a b".
Proof. reflexivity. Qed.

Example replace_fence :
  Text.replace "```json" EmptyString "```json{}```" = "{}```".
Proof. reflexivity. Qed.

Example split_lines : Text.split "010"%char "1. a
2. b" = ["1. a"; "2. b"].
Proof. reflexivity. Qed.

Example after_first_dot : Text.after_first ". " "1. read. write" = "read. write".
Proof. reflexivity. Qed.

Example loads_empty_object : Json.loads "{}" = Some (JObj []).
Proof. reflexivity. Qed.

Example loads_steps :
  Json.loads ("{" +:+ Text.dq +:+ "steps" +:+ Text.dq +:+ ": [1, -20, null, [true]]}")
  = Some (JObj [("steps", JArr [JInt 1; JInt (-20); JNull; JArr [JBool true]])]).
Proof. vm_compute. reflexivity. Qed.

Example loads_not_json : Json.loads "Here is your plan!" = None.
Proof. reflexivity. Qed.

Example numbered_steps_two :
  NumberedList.numbered_steps "Plan:
1. Read a book
 2. Write code. Test it
3.x" = ["Read a book"; "Write code. Test it"].
Proof. vm_compute. reflexivity. Qed.

(** ** Running a handler *)

Lemma bind_lift_ok {A B} (a : A) (k : A -> M B) (llm : port) :
  (lift (Ok a) ≫= k) llm = k a llm.
Proof.
  unfold mbind, M_bind, lift. destruct (k a llm) as [r sent]. reflexivity.
Qed.

Lemma bind_lift_raise {A B} (e : exn) (k : A -> M B) (llm : port) :
  (lift (Raise e) ≫= k) llm = (Raise e, []).
Proof. reflexivity. Qed.

Lemma bind_invoke {B} (messages : list message) (k : string -> M B) (llm : port) :
  (invoke messages ≫= k) llm
  = match llm messages with
    | Some response => let '(r, sent) := k response llm in (r, messages :: sent)
    | None => (Raise ModelError, [messages])
    end.
Proof.
  unfold mbind, M_bind, invoke. destruct (llm messages); reflexivity.
Qed.

(** Case analysis on the next [lift] or [invoke] of a handler. *)
Ltac next_step :=
  match goal with
  | |- context [(lift ?r ≫= _) _] =>
      let v := fresh "v" in let e := fresh "e" in
      destruct r as [v | e] eqn:?;
      [rewrite bind_lift_ok | rewrite bind_lift_raise]
  | |- context [(invoke ?m ≫= _) ?llm] =>
      rewrite bind_invoke; destruct (llm m) eqn:?
  end.

(** The words are looked for in the lowered message, so a word written in
    any mix of cases is found. *)

Lemma startswith_lower (p s : string) :
  Text.startswith p s = true ->
  Text.startswith (Text.lower p) (Text.lower s) = true.
Proof.
  revert s. induction p as [ | a p IH]; intros s; [reflexivity | ].
  destruct s as [ | b s]; simpl; [discriminate | ].
  destruct (Ascii.eqb_spec a b) as [-> | _]; [ | discriminate].
  intros Hrest. rewrite Ascii.eqb_refl. apply IH, Hrest.
Qed.

Lemma contains_lower (written message : string) :
  Text.contains written message = true ->
  Text.contains (Text.lower written) (Text.lower message) = true.
Proof.
  induction message as [ | c message IH]; simpl.
  - rewrite orb_false_r. intros Hstart.
    apply (startswith_lower written EmptyString) in Hstart.
    simpl in Hstart. rewrite Hstart. reflexivity.
  - intros Hfound. apply orb_true_iff in Hfound as [Hstart | Hlater].
    + apply (startswith_lower written (String c message)) in Hstart.
      simpl in Hstart. rewrite Hstart. reflexivity.
    + rewrite (IH Hlater). apply orb_true_r.
Qed.

Section Facts.

Variable json_loads : string -> option json.
Variable py_repr : json -> string.

(** C3: when the port fails on every prompt, one run of the planning
    handler returns a state whose plan is the fallback plan of four
    steps, with [mode] set to [execution] and the step index at 0; and
    whatever the port does, the handler sends at most one prompt. *)
Theorem planning_falls_back_when_port_fails
    (state : GoalMentorState) (llm : port) :
  (forall messages, llm messages = None) ->
  exists state',
    outcome (planning_node json_loads py_repr state) llm = Ok state'
    /\ steps state' = JArr (fallback_steps (goal state))
    /\ length (fallback_steps (goal state)) = 4%nat
    /\ mode state' = execution
    /\ current_step_index state' = 0
    /\ forall any_port : port,
         (calls (planning_node json_loads py_repr state) any_port <= 1)%nat.
Proof.
  intros Hdown.
  assert (Hcalls : forall any_port : port,
             (calls (planning_node json_loads py_repr state) any_port <= 1)%nat).
  { intros any_port. unfold calls, planning_node, try_except.
    destruct (create_conversation_context state) as [messages | e].
    - rewrite bind_lift_ok.
      unfold mbind at 1, M_bind, invoke.
      destruct (any_port _) as [response | ]; [ | simpl; lia].
      destruct (json_loads _) as [plan_data | ]; [ | simpl; lia].
      rewrite bind_lift_ok.
      destruct (Py.get plan_data "steps" _) as [plan | e]; [ | simpl; lia].
      rewrite bind_lift_ok.
      destruct (Py.get plan_data "encouragement" _) as [enc | e]; simpl; lia.
    - rewrite bind_lift_raise. simpl. lia. }
  eexists. split; [ | repeat split; [ | | | exact Hcalls]].
  - unfold outcome, planning_node, try_except.
    destruct (create_conversation_context state) as [messages | e].
    + rewrite bind_lift_ok. unfold mbind at 1, M_bind, invoke.
      rewrite Hdown. reflexivity.
    + rewrite bind_lift_raise. reflexivity.
  - reflexivity.
  - reflexivity.
  - reflexivity.
Qed.

(** C4: in [execution] mode with a plan of four steps and the step index
    at 3, the message [done, finally!] is routed to the execution handler,
    which takes it as a completed step: the index becomes 4, [mode]
    becomes [completed], step 3 gets its completion record, and no prompt
    is sent to the model. *)
Theorem last_step_done_completes
    (state : GoalMentorState) (llm : port) (plan : list json) :
  mode state = execution ->
  steps state = JArr plan ->
  length plan = 4%nat ->
  current_step_index state = 3 ->
  user_message state = "done, finally!" ->
  Text.any_in done_words (Text.lower (user_message state)) = true
  /\ route_conversation state = "execution"
  /\ exists state',
       execution_node py_repr state llm = (Ok state', [])
       /\ current_step_index state' = 4
       /\ mode state' = completed
       /\ completion_status state' !! 3
          = Some {| Completion.completed_at := "now";
                    Completion.user_feedback := "done, finally!" |}.
Proof.
  intros Hmode Hsteps Hlen Hidx Hmsg.
  split; [rewrite Hmsg; reflexivity | ].
  split; [unfold route_conversation; rewrite Hmsg, Hmode; reflexivity | ].
  destruct plan as [ | s0 [ | s1 [ | s2 [ | s3 [ | ? ?]]]]]; try discriminate Hlen.
  eexists. split.
  - unfold execution_node. rewrite Hsteps, Hidx, Hmsg. reflexivity.
  - repeat split; try reflexivity.
    exact (lookup_insert_eq (completion_status state) 3 _).
Qed.

(** C7: for a state whose plan has a length, the context builder
    returns one system message followed by the last six entries of the
    history in their order, all of them when there are at most six.  The
    system message is the text below: it names the goal, the mode, the
    step index plus one, the length of the plan and the stuck count.  An
    entry of role [user] comes as a human message, any other as an
    assistant message, each with the text of its entry; none is a system
    message.  The builder is a function of the state: it reads no port
    and sends nothing. *)
Theorem context_is_system_then_last_six
    (state : GoalMentorState) (total : Z) :
  Py.len (steps state) = Ok total ->
  exists (older recent : list turn) (mode_text : string),
    create_conversation_context state
    = Ok (SystemMessage
            ("You are a professional goal mentor. The user's goal is: " +:+ Text.dq +:+ goal state +:+ Text.dq +:+ "
    
Current situation:
- Mode: " +:+ mode_text +:+ "
- Current step: " +:+ pretty (current_step_index state + 1) +:+ " of " +:+ pretty total +:+ "
- Times asked for help: " +:+ pretty (stuck_count state) +:+ "

Be encouraging, practical, and conversational. Don't be robotic.")
          :: map (fun entry =>
                    if String.eqb (role entry) "user"
                    then HumanMessage (content entry)
                    else AIMessage (content entry)) recent)
    /\ mode_text
       = match mode state with
         | goal_setting => "goal_setting"
         | planning => "planning"
         | execution => "execution"
         | help => "help"
         | completed => "completed"
         end
    /\ conversation_history state = older ++ recent
    /\ length recent = Nat.min 6 (length (conversation_history state))
    /\ map text_of (map to_message recent) = map content recent
    /\ forallb (fun m => negb (is_system m)) (map to_message recent) = true.
Proof.
  intros Hlen.
  exists (firstn (length (conversation_history state) - 6) (conversation_history state)),
         (Py.last_n 6 (conversation_history state)),
         (mode_name (mode state)).
  split; [unfold create_conversation_context; rewrite Hlen; reflexivity | ].
  split; [destruct (mode state); reflexivity | ].
  split; [unfold Py.last_n; symmetry; apply firstn_skipn | ].
  split; [unfold Py.last_n; rewrite length_skipn; lia | ].
  split.
  - induction (Py.last_n 6 (conversation_history state)) as [ | t recent IH];
      [reflexivity | ].
    simpl. rewrite IH. unfold to_message.
    destruct (String.eqb (role t) "user"); reflexivity.
  - induction (Py.last_n 6 (conversation_history state)) as [ | t recent IH];
      [reflexivity | ].
    simpl. rewrite IH. unfold to_message.
    destruct (String.eqb (role t) "user"); reflexivity.
Qed.


(** What each handler does to the step index. *)

Lemma goal_analysis_keeps_index (state state' : GoalMentorState) (llm : port) :
  outcome (goal_analysis_node state) llm = Ok state' ->
  current_step_index state' = current_step_index state.
Proof.
  unfold outcome, goal_analysis_node, try_except.
  repeat next_step; simpl; intros [= <-]; reflexivity.
Qed.

Lemma execution_moves_index_forward
    (state state' : GoalMentorState) (llm : port) :
  outcome (execution_node py_repr state) llm = Ok state' ->
  current_step_index state' = current_step_index state
  \/ current_step_index state' = current_step_index state + 1.
Proof.
  unfold outcome, execution_node, try_except.
  next_step; [ | discriminate].
  destruct (current_step_index state >=? v); [intros [= <-]; left; reflexivity | ].
  next_step; [ | discriminate].
  destruct (Text.any_in done_words _).
  - destruct (current_step_index state + 1 >=? v).
    + simpl. intros [= <-]. right. reflexivity.
    + unfold mbind at 1, M_bind.
      repeat next_step; simpl; try discriminate.
      intros [= <-]. right. reflexivity.
  - destruct (Text.any_in help_words _); [intros [= <-]; left; reflexivity | ].
    repeat next_step; simpl; try discriminate; intros [= <-]; left; reflexivity.
Qed.

Lemma help_keeps_index (state state' : GoalMentorState) (llm : port) :
  outcome (help_node py_repr state) llm = Ok state' ->
  current_step_index state' = current_step_index state.
Proof.
  unfold outcome, help_node, try_except.
  repeat next_step; simpl; try discriminate; intros [= <-]; reflexivity.
Qed.

Lemma completion_keeps_index (state state' : GoalMentorState) (llm : port) :
  outcome (completion_node py_repr state) llm = Ok state' ->
  current_step_index state' = current_step_index state.
Proof.
  unfold outcome, completion_node.
  repeat next_step; simpl; try discriminate; intros [= <-]; reflexivity.
Qed.

Lemma planning_resets_index (state state' : GoalMentorState) (llm : port) :
  outcome (planning_node json_loads py_repr state) llm = Ok state' ->
  current_step_index state' = 0.
Proof.
  unfold outcome, planning_node, try_except.
  repeat next_step; simpl; try (intros [= <-]; reflexivity);
    destruct (json_loads _); repeat next_step; simpl; intros [= <-]; reflexivity.
Qed.

Lemma handler_keeps_index_up
    (name : string) (handler : GoalMentorState -> M GoalMentorState)
    (state state' : GoalMentorState) (llm : port) :
  node json_loads py_repr name = Some handler ->
  name <> "planning" ->
  outcome (handler state) llm = Ok state' ->
  current_step_index state <= current_step_index state'.
Proof.
  unfold node. intros Hnode Hname Hrun.
  destruct (String.eqb name "goal_analysis");
    [injection Hnode as <-; rewrite (goal_analysis_keeps_index _ _ _ Hrun); lia | ].
  destruct (String.eqb_spec name "planning"); [contradiction | ].
  destruct (String.eqb name "execution");
    [injection Hnode as <-;
     destruct (execution_moves_index_forward _ _ _ Hrun) as [-> | ->]; lia | ].
  destruct (String.eqb name "help");
    [injection Hnode as <-; rewrite (help_keeps_index _ _ _ Hrun); lia | ].
  destruct (String.eqb name "completion");
    [injection Hnode as <-; rewrite (completion_keeps_index _ _ _ Hrun); lia | ].
  discriminate.
Qed.

(** C6: along a session the step index never goes down as long as the
    planning handler does not run, whatever the user says and whatever
    the model answers: goal analysis, help and completion leave it as it
    is and execution leaves it or adds one.  The planning handler, which
    installs a plan, is the one that sets it to 0. *)
Theorem step_index_never_decreases :
  (forall (rs : list handler_run) (state state' : GoalMentorState),
      run json_loads py_repr rs state = Some state' ->
      Forall (fun r => node_name r <> "planning") rs ->
      current_step_index state <= current_step_index state')
  /\ (forall (state state' : GoalMentorState) (llm : port),
         outcome (planning_node json_loads py_repr state) llm = Ok state' ->
         current_step_index state' = 0)
  /\ (forall (state state' : GoalMentorState) (llm : port),
         outcome (execution_node py_repr state) llm = Ok state' ->
         current_step_index state' = current_step_index state
         \/ current_step_index state' = current_step_index state + 1).
Proof.
  split; [ | split; [exact planning_resets_index | exact execution_moves_index_forward]].
  induction rs as [ | r rs IH]; intros state state' Hrun Hnames.
  - injection Hrun as <-. lia.
  - inversion Hnames as [ | ? ? Hname Hrest]; subst.
    simpl in Hrun.
    destruct (node json_loads py_repr (node_name r)) as [handler | ] eqn:Hnode;
      [ | discriminate].
    destruct (outcome (handler (with_user_message (said r) state)) (model r))
      as [state1 | e] eqn:Hout.
    + apply (handler_keeps_index_up _ _ _ _ _ Hnode Hname) in Hout.
      specialize (IH _ _ Hrun Hrest). simpl in Hout. lia.
    + specialize (IH _ _ Hrun Hrest). simpl in IH. exact IH.
Qed.



(** The two free-form branches when the model fails, and when it
    answers. *)

Lemma goal_analysis_failure_frame (state : GoalMentorState) (llm : port) :
  (forall messages,
      llm (messages
           ++ [HumanMessage (analysis_prompt (goal state) (user_message state))])
      = None) ->
  outcome (goal_analysis_node state) llm
  = Ok (with_goal_refined true
          (with_mode planning
             (with_assistant_response (analysis_fallback (goal state)) state))).
Proof.
  intros Hdown. unfold outcome, goal_analysis_node, try_except.
  next_step; [ | reflexivity].
  rewrite bind_invoke, Hdown. reflexivity.
Qed.

Lemma goal_analysis_answer_joins_history
    (state : GoalMentorState) (llm : port) (messages : list message)
    (response : string) :
  create_conversation_context state = Ok messages ->
  llm (messages
       ++ [HumanMessage (analysis_prompt (goal state) (user_message state))])
  = Some response ->
  exists state',
    outcome (goal_analysis_node state) llm = Ok state'
    /\ conversation_history state'
       = conversation_history state
         ++ (if String.eqb (user_message state) EmptyString then []
             else [user_turn (user_message state)])
         ++ [assistant_turn (Text.strip response)].
Proof.
  intros Hctx Hllm. unfold outcome, goal_analysis_node, try_except.
  rewrite Hctx, bind_lift_ok, bind_invoke, Hllm.
  eexists. split; reflexivity.
Qed.

Lemma execution_discussion_failure_frame
    (state : GoalMentorState) (llm : port) (total : Z)
    (step title description tips : json) :
  Py.len (steps state) = Ok total ->
  current_step_index state < total ->
  Py.getitem_int (steps state) (current_step_index state) = Ok step ->
  Text.any_in done_words (Text.lower (user_message state)) = false ->
  Text.any_in help_words (Text.lower (user_message state)) = false ->
  Py.getitem_str step "title" = Ok title ->
  Py.getitem_str step "description" = Ok description ->
  Py.getitem_str step "tips" = Ok tips ->
  (forall messages,
      llm (messages
           ++ [HumanMessage
                 (step_context (fmt py_repr title) (fmt py_repr description)
                    (fmt py_repr tips) (user_message state))])
      = None) ->
  outcome (execution_node py_repr state) llm
  = Ok (with_assistant_response
          (step_fallback (fmt py_repr title) (fmt py_repr tips)) state).
Proof.
  intros Hlen Hlt Hstep Hdone Hhelp Htitle Hdescription Htips Hdown.
  unfold outcome, execution_node, try_except.
  rewrite Hlen, bind_lift_ok.
  destruct (Z.geb_spec (current_step_index state) total) as [Hge | _]; [lia | ].
  rewrite Hstep, bind_lift_ok, Hdone, Hhelp.
  rewrite Htitle, bind_lift_ok, Hdescription, bind_lift_ok, Htips, bind_lift_ok.
  unfold create_conversation_context. rewrite Hlen. simpl.
  rewrite bind_lift_ok, bind_invoke, Hdown. reflexivity.
Qed.

Lemma execution_discussion_answer_joins_history
    (state : GoalMentorState) (llm : port) (total : Z)
    (step title description tips : json) (messages : list message)
    (response : string) :
  Py.len (steps state) = Ok total ->
  current_step_index state < total ->
  Py.getitem_int (steps state) (current_step_index state) = Ok step ->
  Text.any_in done_words (Text.lower (user_message state)) = false ->
  Text.any_in help_words (Text.lower (user_message state)) = false ->
  Py.getitem_str step "title" = Ok title ->
  Py.getitem_str step "description" = Ok description ->
  Py.getitem_str step "tips" = Ok tips ->
  create_conversation_context state = Ok messages ->
  llm (messages
       ++ [HumanMessage
             (step_context (fmt py_repr title) (fmt py_repr description)
                (fmt py_repr tips) (user_message state))])
  = Some response ->
  outcome (execution_node py_repr state) llm
  = Ok (with_conversation_history
          (conversation_history state
           ++ [user_turn (user_message state);
               assistant_turn (Text.strip response)])
          (with_assistant_response (Text.strip response) state)).
Proof.
  intros Hlen Hlt Hstep Hdone Hhelp Htitle Hdescription Htips Hctx Hllm.
  unfold outcome, execution_node, try_except.
  rewrite Hlen, bind_lift_ok.
  destruct (Z.geb_spec (current_step_index state) total) as [Hge | _]; [lia | ].
  rewrite Hstep, bind_lift_ok, Hdone, Hhelp.
  rewrite Htitle, bind_lift_ok, Hdescription, bind_lift_ok, Htips, bind_lift_ok.
  rewrite Hctx, bind_lift_ok, bind_invoke, Hllm. reflexivity.
Qed.

(** C10: when the model fails in the discussion branch of the execution
    handler, the state returned is the state given with the response
    replaced: the history is the same, neither the user's turn nor the
    response joins it, and the mode and the refinement flag are kept.
    When the model fails in goal analysis, the state returned differs
    from the state given in the response, the mode ([planning]) and the
    refinement flag (set), and the history is the same.  When the model
    answers, the discussion branch adds the user's turn and the answer to
    the history, and goal analysis adds the answer, after the user's turn
    if the message is not empty. *)
Theorem model_failure_leaves_history :
  (forall (state : GoalMentorState) (llm : port),
      (forall messages,
          llm (messages
               ++ [HumanMessage
                     (analysis_prompt (goal state) (user_message state))])
          = None) ->
      exists state',
        outcome (goal_analysis_node state) llm = Ok state'
        /\ conversation_history state' = conversation_history state
        /\ same_session_data state state'
        /\ mode state' = planning
        /\ goal_refined state' = true)
  /\ (forall (state : GoalMentorState) (llm : port) (total : Z)
             (step title description tips : json),
         Py.len (steps state) = Ok total ->
         current_step_index state < total ->
         Py.getitem_int (steps state) (current_step_index state) = Ok step ->
         Text.any_in done_words (Text.lower (user_message state)) = false ->
         Text.any_in help_words (Text.lower (user_message state)) = false ->
         Py.getitem_str step "title" = Ok title ->
         Py.getitem_str step "description" = Ok description ->
         Py.getitem_str step "tips" = Ok tips ->
         let prompt :=
           HumanMessage
             (step_context (fmt py_repr title) (fmt py_repr description)
                (fmt py_repr tips) (user_message state)) in
         ((forall messages, llm (messages ++ [prompt]) = None) ->
          exists state',
            outcome (execution_node py_repr state) llm = Ok state'
            /\ conversation_history state' = conversation_history state
            /\ same_session_data state state'
            /\ mode state' = mode state
            /\ goal_refined state' = goal_refined state)
         /\ (forall messages response,
                create_conversation_context state = Ok messages ->
                llm (messages ++ [prompt]) = Some response ->
                exists state',
                  outcome (execution_node py_repr state) llm = Ok state'
                  /\ conversation_history state'
                     = conversation_history state
                       ++ [user_turn (user_message state);
                           assistant_turn (Text.strip response)]))
  /\ (forall (state : GoalMentorState) (llm : port) (messages : list message)
             (response : string),
         create_conversation_context state = Ok messages ->
         llm (messages
              ++ [HumanMessage
                    (analysis_prompt (goal state) (user_message state))])
         = Some response ->
         exists state',
           outcome (goal_analysis_node state) llm = Ok state'
           /\ conversation_history state'
              = conversation_history state
                ++ (if String.eqb (user_message state) EmptyString then []
                    else [user_turn (user_message state)])
                ++ [assistant_turn (Text.strip response)]).
Proof.
  split; [ | split].
  - intros state llm Hdown. eexists.
    split; [exact (goal_analysis_failure_frame state llm Hdown) | ].
    unfold same_session_data. repeat split; reflexivity.
  - intros state llm total step title description tips
      Hlen Hlt Hstep Hdone Hhelp Htitle Hdescription Htips prompt.
    split.
    + intros Hdown. eexists.
      split; [exact (execution_discussion_failure_frame state llm total step
                       title description tips Hlen Hlt Hstep Hdone Hhelp
                       Htitle Hdescription Htips Hdown) | ].
      unfold same_session_data. repeat split; reflexivity.
    + intros messages response Hctx Hllm. eexists.
      split; [exact (execution_discussion_answer_joins_history state llm total
                       step title description tips messages response Hlen Hlt
                       Hstep Hdone Hhelp Htitle Hdescription Htips Hctx Hllm) | ].
      reflexivity.
  - exact goal_analysis_answer_joins_history.
Qed.

(** C1, as the code has it: the planning handler never raises and always
    returns a plan, with [mode] set to [execution] and the step index at
    0.  The plan is the fallback plan of four steps built from the goal
    when the context cannot be built, when the model call raises, when
    the reply is not JSON and when the decoded value is not an object.
    When the reply decodes to an object, the plan is the value under
    [steps], the empty list when the key is missing, whatever its length.
    The numbered-list reader of [main.py] never raises either: it returns
    the steps of the numbered lines of the reply, however many, and the
    empty plan when the model call raises. *)
Theorem planning_plan_is_reply_or_fallback
    (state : GoalMentorState) (llm : port) :
  exists state',
    outcome (planning_node json_loads py_repr state) llm = Ok state'
    /\ mode state' = execution
    /\ current_step_index state' = 0
    /\ length (fallback_steps (goal state)) = 4%nat
    /\ (forall e, create_conversation_context state = Raise e ->
        steps state' = JArr (fallback_steps (goal state)))
    /\ (forall messages, create_conversation_context state = Ok messages ->
        let reply :=
          llm (messages ++ [HumanMessage (planning_prompt (goal state))]) in
        (reply = None -> steps state' = JArr (fallback_steps (goal state)))
        /\ (forall response, reply = Some response ->
            match json_loads (unfence (Text.strip response)) with
            | Some (JObj fields) =>
                steps state' = default (JArr []) (Py.dict_get fields "steps")
            | _ => steps state' = JArr (fallback_steps (goal state))
            end))
    /\ (forall goal_text,
        outcome (NumberedList.generate_plan goal_text) llm
        = Ok match llm [SystemMessage NumberedList.plan_instruction;
                        HumanMessage ("My goal is: " +:+ goal_text)] with
             | Some response => NumberedList.numbered_steps (Text.strip response)
             | None => []
             end).
Proof.
  assert (Hlist : forall goal_text,
             outcome (NumberedList.generate_plan goal_text) llm
             = Ok match llm [SystemMessage NumberedList.plan_instruction;
                             HumanMessage ("My goal is: " +:+ goal_text)] with
                  | Some response =>
                      NumberedList.numbered_steps (Text.strip response)
                  | None => []
                  end).
  { intros goal_text. unfold outcome, NumberedList.generate_plan, try_except.
    rewrite bind_invoke. destruct (llm _); reflexivity. }
  unfold outcome, planning_node, try_except.
  destruct (create_conversation_context state) as [messages | e0].
  - rewrite bind_lift_ok, bind_invoke.
    destruct (llm _) as [response | ] eqn:Hllm.
    + destruct (json_loads (unfence (Text.strip response))) as [plan_data | ]
        eqn:Hdecode; cbv iota.
      * destruct plan_data as [ | b | n | x | t | items | fields];
          simpl Py.get; rewrite ?bind_lift_ok, ?bind_lift_raise;
          eexists; (split; [reflexivity | ]);
          (split; [reflexivity | ]); (split; [reflexivity | ]);
          (split; [reflexivity | ]); (split; [intros ? [=] | ]);
          (split; [ | exact Hlist]);
          intros ? [= <-]; cbv zeta; rewrite Hllm;
          (split; [intros [=] | ]);
          intros ? [= <-]; rewrite Hdecode; reflexivity.
      * rewrite bind_lift_raise.
        eexists; (split; [reflexivity | ]);
          (split; [reflexivity | ]); (split; [reflexivity | ]);
          (split; [reflexivity | ]); (split; [intros ? [=] | ]);
          (split; [ | exact Hlist]);
          intros ? [= <-]; cbv zeta; rewrite Hllm;
          (split; [intros [=] | ]);
          intros ? [= <-]; rewrite Hdecode; reflexivity.
    + eexists; (split; [reflexivity | ]);
        (split; [reflexivity | ]); (split; [reflexivity | ]);
        (split; [reflexivity | ]); (split; [intros ? [=] | ]);
        (split; [ | exact Hlist]);
        intros ? [= <-]; cbv zeta; rewrite Hllm;
        (split; [reflexivity | intros ? [=]]).
  - rewrite bind_lift_raise.
    eexists; (split; [reflexivity | ]);
      (split; [reflexivity | ]); (split; [reflexivity | ]);
      (split; [reflexivity | ]); (split; [reflexivity | ]);
      (split; [intros ? [=] | exact Hlist]).
Qed.

(** Goal analysis changes the response, the mode and the refinement flag,
    and adds to the history; everything else is as it was. *)
Lemma goal_analysis_patches_state (state : GoalMentorState) (llm : port) :
  exists (state' : GoalMentorState) (added : list turn),
    outcome (goal_analysis_node state) llm = Ok state'
    /\ goal state' = goal state
    /\ steps state' = steps state
    /\ current_step_index state' = current_step_index state
    /\ stuck_count state' = stuck_count state
    /\ completion_status state' = completion_status state
    /\ conversation_history state' = conversation_history state ++ added.
Proof.
  unfold outcome, goal_analysis_node, try_except.
  repeat next_step; simpl.
  - eexists. eexists. repeat split; reflexivity.
  - exists (with_goal_refined true
              (with_mode planning
                 (with_assistant_response (analysis_fallback (goal state)) state))), [].
    rewrite app_nil_r. repeat split; reflexivity.
  - exists (with_goal_refined true
              (with_mode planning
                 (with_assistant_response (analysis_fallback (goal state)) state))), [].
    rewrite app_nil_r. repeat split; reflexivity.
Qed.

(** C2, as the code has it: whatever the mode, a message that holds one
    of the phrases [new goal], [start over] or [different goal], in any
    mix of cases, is routed to the goal analysis handler.  That handler
    clears nothing: it returns the state with the same goal, plan, step
    index, stuck count and completion records, and with a history that
    extends the one it was given.  The state with everything cleared is
    the one the New Goal button of the side bar installs. *)
Theorem new_goal_is_routed_to_goal_analysis
    (state : GoalMentorState) (phrase : string) :
  In phrase new_goal_phrases ->
  Text.contains phrase (Text.lower (user_message state)) = true ->
  route_conversation state = "goal_analysis"
  /\ node json_loads py_repr "goal_analysis" = Some goal_analysis_node
  /\ (forall llm : port,
       exists (state' : GoalMentorState) (added : list turn),
         outcome (goal_analysis_node state) llm = Ok state'
         /\ goal state' = goal state
         /\ steps state' = steps state
         /\ current_step_index state' = current_step_index state
         /\ stuck_count state' = stuck_count state
         /\ completion_status state' = completion_status state
         /\ conversation_history state' = conversation_history state ++ added)
  /\ cleared new_goal_state.
Proof.
  intros Hphrase Hcontains.
  split; [ | split; [reflexivity | split]].
  - unfold route_conversation.
    assert (Hany : Text.any_in new_goal_phrases (Text.lower (user_message state))
                   = true).
    { unfold Text.any_in. apply existsb_exists. exists phrase. split; assumption. }
    rewrite Hany. reflexivity.
  - intros llm. apply goal_analysis_patches_state.
  - unfold cleared. repeat split; reflexivity.
Qed.

(** No handler writes the goal. *)

Lemma goal_analysis_keeps_goal (state state' : GoalMentorState) (llm : port) :
  outcome (goal_analysis_node state) llm = Ok state' -> goal state' = goal state.
Proof.
  unfold outcome, goal_analysis_node, try_except.
  repeat next_step; simpl; intros [= <-]; reflexivity.
Qed.

Lemma planning_keeps_goal (state state' : GoalMentorState) (llm : port) :
  outcome (planning_node json_loads py_repr state) llm = Ok state' ->
  goal state' = goal state.
Proof.
  unfold outcome, planning_node, try_except.
  repeat next_step; simpl; try (intros [= <-]; reflexivity);
    destruct (json_loads _); repeat next_step; simpl; intros [= <-]; reflexivity.
Qed.

Lemma execution_keeps_goal (state state' : GoalMentorState) (llm : port) :
  outcome (execution_node py_repr state) llm = Ok state' ->
  goal state' = goal state.
Proof.
  unfold outcome, execution_node, try_except.
  next_step; [ | discriminate].
  destruct (current_step_index state >=? v); [intros [= <-]; reflexivity | ].
  next_step; [ | discriminate].
  destruct (Text.any_in done_words _).
  - destruct (current_step_index state + 1 >=? v).
    + simpl. intros [= <-]. reflexivity.
    + unfold mbind at 1, M_bind.
      repeat next_step; simpl; try discriminate.
      intros [= <-]. reflexivity.
  - destruct (Text.any_in help_words _); [intros [= <-]; reflexivity | ].
    repeat next_step; simpl; try discriminate; intros [= <-]; reflexivity.
Qed.

Lemma help_keeps_goal (state state' : GoalMentorState) (llm : port) :
  outcome (help_node py_repr state) llm = Ok state' -> goal state' = goal state.
Proof.
  unfold outcome, help_node, try_except.
  repeat next_step; simpl; try discriminate; intros [= <-]; reflexivity.
Qed.

Lemma completion_keeps_goal (state state' : GoalMentorState) (llm : port) :
  outcome (completion_node py_repr state) llm = Ok state' ->
  goal state' = goal state.
Proof.
  unfold outcome, completion_node.
  repeat next_step; simpl; try discriminate; intros [= <-]; reflexivity.
Qed.

Lemma handler_keeps_goal
    (name : string) (handler : GoalMentorState -> M GoalMentorState)
    (state state' : GoalMentorState) (llm : port) :
  node json_loads py_repr name = Some handler ->
  outcome (handler state) llm = Ok state' ->
  goal state' = goal state.
Proof.
  unfold node. intros Hnode Hrun.
  destruct (String.eqb name "goal_analysis");
    [injection Hnode as <-; exact (goal_analysis_keeps_goal _ _ _ Hrun) | ].
  destruct (String.eqb name "planning");
    [injection Hnode as <-; exact (planning_keeps_goal _ _ _ Hrun) | ].
  destruct (String.eqb name "execution");
    [injection Hnode as <-; exact (execution_keeps_goal _ _ _ Hrun) | ].
  destruct (String.eqb name "help");
    [injection Hnode as <-; exact (help_keeps_goal _ _ _ Hrun) | ].
  destruct (String.eqb name "completion");
    [injection Hnode as <-; exact (completion_keeps_goal _ _ _ Hrun) | ].
  discriminate.
Qed.

(** So the goal a session starts with is the goal it keeps. *)
Lemma run_keeps_goal (rs : list handler_run) (state state' : GoalMentorState) :
  run json_loads py_repr rs state = Some state' ->
  goal state' = goal state.
Proof.
  revert state. induction rs as [ | r rs IH]; intros state Hrun.
  - injection Hrun as <-. reflexivity.
  - simpl in Hrun.
    destruct (node json_loads py_repr (node_name r)) as [handler | ] eqn:Hnode;
      [ | discriminate].
    destruct (outcome (handler (with_user_message (said r) state)) (model r))
      as [state1 | e] eqn:Hout.
    + rewrite (IH _ Hrun). exact (handler_keeps_goal _ _ _ _ _ Hnode Hout).
    + rewrite (IH _ Hrun). reflexivity.
Qed.

End Facts.

(** ** The theorems at concrete states *)

Lemma planning_falls_back_when_port_fails_witness :
  exists state',
    outcome (planning_node Json.loads Demo.repr Demo.awaiting_plan) failing_port
    = Ok state'
    /\ steps state' = JArr (fallback_steps Demo.goal_text)
    /\ length (fallback_steps Demo.goal_text) = 4%nat
    /\ mode state' = execution
    /\ current_step_index state' = 0
    /\ forall any_port : port,
         (calls (planning_node Json.loads Demo.repr Demo.awaiting_plan) any_port
          <= 1)%nat.
Proof.
  apply (planning_falls_back_when_port_fails Json.loads Demo.repr
           Demo.awaiting_plan failing_port).
  intros messages. reflexivity.
Defined.

Lemma last_step_done_completes_witness :
  Text.any_in done_words (Text.lower (user_message Demo.last_week)) = true
  /\ route_conversation Demo.last_week = "execution"
  /\ exists state',
       execution_node Demo.repr Demo.last_week failing_port = (Ok state', [])
       /\ current_step_index state' = 4
       /\ mode state' = completed
       /\ completion_status state' !! 3
          = Some {| Completion.completed_at := "now";
                    Completion.user_feedback := "done, finally!" |}.
Proof.
  apply (last_step_done_completes Demo.repr Demo.last_week failing_port
           (fallback_steps Demo.goal_text)); reflexivity.
Defined.


Lemma context_is_system_then_last_six_witness :
  exists (text : string) (older recent : list turn),
    create_conversation_context Demo.long_session
    = Ok (SystemMessage text :: map to_message recent)
    /\ Text.contains "- Current step: 4 of 4" text = true
    /\ conversation_history Demo.long_session = older ++ recent
    /\ length recent = 6%nat.
Proof.
  destruct (context_is_system_then_last_six Demo.long_session 4 eq_refl)
    as (older & recent & mode_text & Hcontext & Hmode & Hhistory & Hlength & _).
  rewrite Hmode in Hcontext.
  eexists; exists older, recent.
  split; [exact Hcontext | ].
  split; [reflexivity | ].
  split; [exact Hhistory | exact Hlength].
Defined.

(** Ten turns of history: the system message and turns five to ten. *)
Example context_of_ten_turns :
  exists system_text,
    create_conversation_context Demo.long_session
    = Ok [ SystemMessage system_text;
           HumanMessage "t5"; AIMessage "t6"; HumanMessage "t7";
           AIMessage "t8"; HumanMessage "t9"; AIMessage "t10" ].
Proof. eexists. reflexivity. Qed.



Lemma model_failure_leaves_history_witness :
  (exists state',
      outcome (goal_analysis_node Demo.first_message) failing_port = Ok state'
      /\ conversation_history state' = conversation_history Demo.first_message
      /\ same_session_data Demo.first_message state'
      /\ mode state' = planning
      /\ goal_refined state' = true)
  /\ (exists state',
         outcome (execution_node Demo.repr Demo.chatting) failing_port = Ok state'
         /\ conversation_history state' = conversation_history Demo.chatting
         /\ same_session_data Demo.chatting state'
         /\ mode state' = mode Demo.chatting
         /\ goal_refined state' = goal_refined Demo.chatting).
Proof.
  destruct (model_failure_leaves_history Demo.repr) as (Hanalysis & Hexecution & _).
  split.
  - apply (Hanalysis Demo.first_message failing_port). intros messages. reflexivity.
  - refine (proj1 (Hexecution Demo.chatting failing_port 4
                     (fallback_step "Week 2: Skill Development"
                        ("Focus on building key skills needed for "
                         +:+ Demo.goal_text)
                        "Practice daily, seek feedback, don't fear mistakes"
                        "Dedicate time each day to skill-building activities")
                     (JStr "Week 2: Skill Development")
                     (JStr ("Focus on building key skills needed for "
                            +:+ Demo.goal_text))
                     (JStr "Practice daily, seek feedback, don't fear mistakes")
                     eq_refl _ eq_refl eq_refl eq_refl eq_refl eq_refl eq_refl) _).
    + simpl. lia.
    + intros messages. reflexivity.
Defined.

Lemma step_index_never_decreases_witness :
  exists state',
    run Json.loads Demo.repr Demo.week Demo.chatting = Some state'
    /\ current_step_index Demo.chatting <= current_step_index state'.
Proof.
  destruct (run Json.loads Demo.repr Demo.week Demo.chatting) as [state' | ] eqn:Hrun.
  - exists state'. split; [reflexivity | ].
    apply (proj1 (step_index_never_decreases Json.loads Demo.repr)
             Demo.week Demo.chatting state' Hrun).
    repeat constructor; discriminate.
  - vm_compute in Hrun. discriminate Hrun.
Defined.

(** The week above ends at the last step, three steps done. *)
Example week_ends_at_last_step :
  (current_step_index <$> run Json.loads Demo.repr Demo.week Demo.chatting) = Some 3
  /\ (stuck_count <$> run Json.loads Demo.repr Demo.week Demo.chatting) = Some 2
  /\ (mode <$> run Json.loads Demo.repr Demo.week Demo.chatting) = Some execution.
Proof. vm_compute. repeat split. Qed.

Lemma planning_plan_is_reply_or_fallback_witness :
  exists state',
    outcome (planning_node Json.loads Demo.repr Demo.awaiting_plan)
      (Demo.answering Demo.short_reply) = Ok state'
    /\ mode state' = execution
    /\ current_step_index state' = 0
    /\ steps state' = JArr [JObj [("title", JStr "Week 1: Read")]].
Proof.
  destruct (planning_plan_is_reply_or_fallback Json.loads Demo.repr
              Demo.awaiting_plan (Demo.answering Demo.short_reply))
    as (state' & Hrun & Hmode & Hindex & _ & _ & Hplan & _).
  exists state'.
  split; [exact Hrun | ]. split; [exact Hmode | ]. split; [exact Hindex | ].
  destruct (Hplan _ eq_refl) as [_ Hreply].
  exact (Hreply Demo.short_reply eq_refl).
Defined.

(** C1 as stated fails: a reply that is a JSON object with no [steps] in
    it gives the empty plan, a reply whose plan has one step gives that
    plan, and the reader of [main.py] gives the empty plan when the model
    call raises and when the reply has no numbered line. *)
Lemma plan_can_be_empty_or_short :
  (exists state',
      outcome (planning_node Json.loads Demo.repr Demo.awaiting_plan)
        (Demo.answering Demo.empty_reply) = Ok state'
      /\ steps state' = JArr []
      /\ mode state' = execution)
  /\ (exists state',
         outcome (planning_node Json.loads Demo.repr Demo.awaiting_plan)
           (Demo.answering Demo.short_reply) = Ok state'
         /\ steps state' = JArr [JObj [("title", JStr "Week 1: Read")]])
  /\ outcome (NumberedList.generate_plan Demo.goal_text) failing_port = Ok []
  /\ outcome (NumberedList.generate_plan Demo.goal_text)
       (Demo.answering "Happy to help with that!") = Ok [].
Proof.
  split; [ | split; [ | split]].
  - eexists. split; [reflexivity | split; reflexivity].
  - eexists. split; reflexivity.
  - reflexivity.
  - reflexivity.
Qed.

Lemma new_goal_is_routed_to_goal_analysis_witness :
  route_conversation Demo.wants_new_goal = "goal_analysis"
  /\ node Json.loads Demo.repr "goal_analysis" = Some goal_analysis_node
  /\ (forall llm : port,
       exists (state' : GoalMentorState) (added : list turn),
         outcome (goal_analysis_node Demo.wants_new_goal) llm = Ok state'
         /\ goal state' = goal Demo.wants_new_goal
         /\ steps state' = steps Demo.wants_new_goal
         /\ current_step_index state' = current_step_index Demo.wants_new_goal
         /\ stuck_count state' = stuck_count Demo.wants_new_goal
         /\ completion_status state' = completion_status Demo.wants_new_goal
         /\ conversation_history state'
            = conversation_history Demo.wants_new_goal ++ added)
  /\ cleared new_goal_state.
Proof.
  apply (new_goal_is_routed_to_goal_analysis Json.loads Demo.repr
           Demo.wants_new_goal "start over").
  - simpl. tauto.
  - reflexivity.
Defined.

(** C2 as stated fails: in the last week of a session the message
    [I want to start over with a new goal] is routed to goal analysis,
    and the state that handler returns still has the goal, the plan, the
    step index at 3, the stuck count and the completion record of the
    session, with a longer history: nothing is cleared. *)
Lemma new_goal_keeps_the_old_session :
  route_conversation Demo.wants_new_goal = "goal_analysis"
  /\ exists state',
       outcome (goal_analysis_node Demo.wants_new_goal)
         (Demo.answering "What would you like to work on next?") = Ok state'
       /\ goal state' = "learn python"
       /\ steps state' = JArr (fallback_steps "learn python")
       /\ current_step_index state' = 3
       /\ stuck_count state' = 1
       /\ completion_status state' !! 0
          = Some {| Completion.completed_at := "now";
                    Completion.user_feedback := "done" |}
       /\ length (conversation_history state') = 3%nat
       /\ ~ cleared state'.
Proof.
  split; [reflexivity | ].
  eexists. split; [reflexivity | ].
  repeat split; try reflexivity.
  intros (Hgoal & _). discriminate Hgoal.
Qed.

(** C9 at a failing input: a session that has just started, the user
    naming the goal in the first message and the model being down.  Goal
    analysis returns a state in which the goal is marked refined and the
    goal itself is still the empty text the session started with; the
    same happens when the model answers without a question. *)
Theorem refined_goal_is_still_empty :
  goal Demo.first_message = EmptyString
  /\ (exists state',
         outcome (goal_analysis_node Demo.first_message) failing_port = Ok state'
         /\ goal_refined state' = true
         /\ mode state' = planning
         /\ goal state' = EmptyString)
  /\ (exists state',
         outcome (goal_analysis_node Demo.first_message)
           (Demo.answering "Great goal, let us get going.") = Ok state'
         /\ goal_refined state' = true
         /\ goal state' = EmptyString).
Proof.
  split; [reflexivity | split].
  - eexists. split; [reflexivity | repeat split].
  - eexists. split; [reflexivity | repeat split].
Qed.


(** ** What every handler keeps *)

(** Closes a goal [patched state state'] once [state'] is known. *)
Ltac show_patched :=
  unfold patched; simpl;
  repeat match goal with
         | |- _ /\ _ => split
         | |- _ = _ => reflexivity
         | |- ?x = ?x \/ _ => left; reflexivity
         | |- _ \/ ?x = ?y + 1 => right; reflexivity
         | |- _ \/ (exists record, _) => right; eexists; reflexivity
         | |- exists added, ?h = ?h ++ added => exists []; symmetry; apply app_nil_r
         | |- exists added, _ = _ ++ added => eexists; reflexivity
         end.

Section Frames.

Variable json_loads : string -> option json.
Variable py_repr : json -> string.

Lemma goal_analysis_patches (state state' : GoalMentorState) (llm : port) :
  outcome (goal_analysis_node state) llm = Ok state' -> patched state state'.
Proof.
  unfold outcome, goal_analysis_node, try_except.
  repeat next_step; simpl; intros [= <-]; show_patched.
Qed.

Lemma planning_patches (state state' : GoalMentorState) (llm : port) :
  outcome (planning_node json_loads py_repr state) llm = Ok state' ->
  patched state state'.
Proof.
  unfold outcome, planning_node, try_except.
  repeat next_step; simpl; try (intros [= <-]; show_patched);
    destruct (json_loads _); repeat next_step; simpl; intros [= <-]; show_patched.
Qed.

Lemma execution_patches (state state' : GoalMentorState) (llm : port) :
  outcome (execution_node py_repr state) llm = Ok state' -> patched state state'.
Proof.
  unfold outcome, execution_node, try_except.
  next_step; [ | discriminate].
  destruct (current_step_index state >=? v); [intros [= <-]; show_patched | ].
  next_step; [ | discriminate].
  destruct (Text.any_in done_words _).
  - destruct (current_step_index state + 1 >=? v).
    + simpl. intros [= <-]. show_patched.
    + unfold mbind at 1, M_bind.
      repeat next_step; simpl; try discriminate.
      intros [= <-]. show_patched.
  - destruct (Text.any_in help_words _); [intros [= <-]; show_patched | ].
    repeat next_step; simpl; try discriminate; intros [= <-]; show_patched.
Qed.

Lemma help_patches (state state' : GoalMentorState) (llm : port) :
  outcome (help_node py_repr state) llm = Ok state' -> patched state state'.
Proof.
  unfold outcome, help_node, try_except.
  repeat next_step; simpl; try discriminate; intros [= <-]; show_patched.
Qed.

Lemma completion_patches (state state' : GoalMentorState) (llm : port) :
  outcome (completion_node py_repr state) llm = Ok state' -> patched state state'.
Proof.
  unfold outcome, completion_node.
  repeat next_step; simpl; try discriminate; intros [= <-]; show_patched.
Qed.

Lemma handler_patches
    (name : string) (handler : GoalMentorState -> M GoalMentorState)
    (state state' : GoalMentorState) (llm : port) :
  node json_loads py_repr name = Some handler ->
  outcome (handler state) llm = Ok state' ->
  patched state state'.
Proof.
  unfold node. intros Hnode Hrun.
  destruct (String.eqb name "goal_analysis");
    [injection Hnode as <-; exact (goal_analysis_patches _ _ _ Hrun) | ].
  destruct (String.eqb name "planning");
    [injection Hnode as <-; exact (planning_patches _ _ _ Hrun) | ].
  destruct (String.eqb name "execution");
    [injection Hnode as <-; exact (execution_patches _ _ _ Hrun) | ].
  destruct (String.eqb name "help");
    [injection Hnode as <-; exact (help_patches _ _ _ Hrun) | ].
  destruct (String.eqb name "completion");
    [injection Hnode as <-; exact (completion_patches _ _ _ Hrun) | ].
  discriminate.
Qed.

End Frames.

(** ** What a session keeps *)

Section Session_invariants.

Variable json_loads : string -> option json.
Variable py_repr : json -> string.

(** A relation between states that every handler, the arrival of a
    message and the apology of [main] respect holds along a session. *)
Lemma run_respects (R : GoalMentorState -> GoalMentorState -> Prop) :
  (forall a, R a a) ->
  (forall a b c, R a b -> R b c -> R a c) ->
  (forall a text, R a (with_user_message text a)) ->
  (forall a text, R a (with_assistant_response text a)) ->
  (forall a b, patched a b -> R a b) ->
  forall (rs : list handler_run) (state state' : GoalMentorState),
    run json_loads py_repr rs state = Some state' -> R state state'.
Proof.
  intros Hrefl Htrans Hmessage Hresponse Hpatched.
  induction rs as [ | r rs IH]; intros state state' Hrun.
  - injection Hrun as <-. apply Hrefl.
  - simpl in Hrun.
    destruct (node json_loads py_repr (node_name r)) as [handler | ] eqn:Hnode;
      [ | discriminate].
    destruct (outcome (handler (with_user_message (said r) state)) (model r))
      as [state1 | e] eqn:Hout.
    + apply (Htrans _ (with_user_message (said r) state)); [apply Hmessage | ].
      apply (Htrans _ state1); [ | exact (IH _ _ Hrun)].
      apply Hpatched. exact (handler_patches _ _ _ _ _ _ _ Hnode Hout).
    + apply (Htrans _ (with_assistant_response hiccup state));
        [apply Hresponse | exact (IH _ _ Hrun)].
Qed.

(** X1: the history is only ever added to.  Along a session, whatever
    handlers run, whatever the user says and the model answers, the
    history at the end is the history at the start followed by new
    turns: no handler drops or rewrites a turn, not even the planning
    handler when it installs a new plan. *)
Theorem history_only_grows
    (rs : list handler_run) (state state' : GoalMentorState) :
  run json_loads py_repr rs state = Some state' ->
  exists added : list turn,
    conversation_history state' = conversation_history state ++ added.
Proof.
  apply (run_respects
           (fun a b => exists added,
                conversation_history b = conversation_history a ++ added)).
  - intros a. exists []. symmetry. apply app_nil_r.
  - intros a b c [ab Hab] [bc Hbc]. exists (ab ++ bc).
    rewrite Hbc, Hab. symmetry. apply app_assoc.
  - intros a text. exists []. symmetry. apply app_nil_r.
  - intros a text. exists []. symmetry. apply app_nil_r.
  - intros a b (_ & _ & _ & _ & _ & _ & Hhistory). exact Hhistory.
Qed.

(** X2: the stuck count never goes down along a session.  Only the help
    branch of the execution handler writes it, adding one; the planning
    handler installs a new plan without setting it back. *)
Theorem stuck_count_never_decreases
    (rs : list handler_run) (state state' : GoalMentorState) :
  run json_loads py_repr rs state = Some state' ->
  stuck_count state <= stuck_count state'.
Proof.
  apply (run_respects (fun a b => stuck_count a <= stuck_count b)).
  - intros a. lia.
  - intros a b c Hab Hbc. lia.
  - intros a text. simpl. lia.
  - intros a text. simpl. lia.
  - intros a b (_ & _ & _ & _ & [-> | ->] & _); lia.
Qed.

(** X3: a completion record, once written, stays.  Along a session every
    step index that has a record at the start has one at the end: no
    handler deletes a record, and the planning handler keeps the records
    of the plan it replaces. *)
Theorem completion_records_stay
    (rs : list handler_run) (state state' : GoalMentorState) (k : Z) :
  run json_loads py_repr rs state = Some state' ->
  is_Some (completion_status state !! k) ->
  is_Some (completion_status state' !! k).
Proof.
  intros Hrun. revert k.
  apply (run_respects
           (fun a b => forall k, is_Some (completion_status a !! k) ->
                                 is_Some (completion_status b !! k)))
    with (rs := rs); try exact Hrun.
  - intros a k Hk. exact Hk.
  - intros a b c Hab Hbc k Hk. apply Hbc, Hab, Hk.
  - intros a text k Hk. exact Hk.
  - intros a text k Hk. exact Hk.
  - intros a b (_ & _ & _ & _ & _ & [-> | [record ->]] & _) k Hk; [exact Hk | ].
    destruct (decide (current_step_index a = k)) as [-> | Hne].
    + rewrite lookup_insert_eq. eauto.
    + rewrite lookup_insert_ne by exact Hne. exact Hk.
Qed.

End Session_invariants.

(** ** The branches of the execution handler *)

Section Execution_branches.

Variable py_repr : json -> string.


(** X5: a step done before the last one.  When the message holds a done
    word and the step after the current one exists, the execution handler
    sends no prompt and returns the state with the index moved to the
    next step, [mode] still [execution], a completion record for the
    step left, whose feedback is the message in lower case, and a history
    with two more turns: the message as the user wrote it and the
    response, which names the title of the step left and the title and
    description of the next. *)
Theorem step_done_moves_to_next
    (state : GoalMentorState) (llm : port) (total : Z)
    (step next title next_title next_description : json) :
  Py.len (steps state) = Ok total ->
  current_step_index state + 1 < total ->
  Py.getitem_int (steps state) (current_step_index state) = Ok step ->
  Py.getitem_int (steps state) (current_step_index state + 1) = Ok next ->
  Text.any_in done_words (Text.lower (user_message state)) = true ->
  Py.getitem_str step "title" = Ok title ->
  Py.getitem_str next "title" = Ok next_title ->
  Py.getitem_str next "description" = Ok next_description ->
  exists state',
    execution_node py_repr state llm = (Ok state', [])
    /\ current_step_index state' = current_step_index state + 1
    /\ mode state' = execution
    /\ completion_status state'
       = <[current_step_index state :=
             {| Completion.completed_at := "now";
                Completion.user_feedback := Text.lower (user_message state) |}]>
           (completion_status state)
    /\ assistant_response state'
       = step_done_msg (fmt py_repr title) (fmt py_repr next_title)
           (fmt py_repr next_description)
    /\ conversation_history state'
       = conversation_history state
         ++ [user_turn (user_message state);
             assistant_turn (assistant_response state')]
    /\ stuck_count state' = stuck_count state
    /\ steps state' = steps state.
Proof.
  intros Hlen Hlt Hstep Hnext Hdone Htitle Hnext_title Hnext_description.
  unfold execution_node.
  rewrite Hlen, bind_lift_ok.
  destruct (Z.geb_spec (current_step_index state) total) as [Hge | _]; [lia | ].
  rewrite Hstep, bind_lift_ok, Hdone.
  destruct (Z.geb_spec (current_step_index state + 1) total) as [Hge | _]; [lia | ].
  unfold mbind at 1, M_bind.
  rewrite Hnext, bind_lift_ok, Htitle, bind_lift_ok, Hnext_title, bind_lift_ok,
    Hnext_description, bind_lift_ok.
  eexists. split; [reflexivity | ]. repeat split.
Qed.

(** X6: done comes before help.  A message that holds a done word is
    taken as a step done even when it holds a help word as well: if the
    handler returns, the index has moved on by one, the step left has
    its completion record, [mode] is not [help] and the stuck count is
    as it was. *)
Theorem done_word_wins_over_help_word
    (state state' : GoalMentorState) (llm : port) (total : Z) :
  Py.len (steps state) = Ok total ->
  current_step_index state < total ->
  Text.any_in done_words (Text.lower (user_message state)) = true ->
  outcome (execution_node py_repr state) llm = Ok state' ->
  current_step_index state' = current_step_index state + 1
  /\ is_Some (completion_status state' !! current_step_index state)
  /\ mode state' <> help
  /\ stuck_count state' = stuck_count state.
Proof.
  intros Hlen Hlt Hdone. unfold outcome, execution_node.
  rewrite Hlen, bind_lift_ok.
  destruct (Z.geb_spec (current_step_index state) total) as [Hge | _]; [lia | ].
  next_step; [ | discriminate]. rewrite Hdone.
  destruct (current_step_index state + 1 >=? total).
  - simpl. intros [= <-]. simpl. rewrite lookup_insert_eq.
    repeat split; eauto; discriminate.
  - unfold mbind at 1, M_bind.
    repeat next_step; simpl; try discriminate.
    intros [= <-]. simpl. rewrite lookup_insert_eq.
    repeat split; eauto; discriminate.
Qed.

End Execution_branches.

(** ** Model calls, goal analysis and the bounds of the help handler *)

Section Handler_bounds.

Variable json_loads : string -> option json.
Variable py_repr : json -> string.

Lemma goal_analysis_calls (state : GoalMentorState) (llm : port) :
  (calls (goal_analysis_node state) llm <= 1)%nat.
Proof.
  unfold calls, goal_analysis_node, try_except.
  repeat next_step; simpl; lia.
Qed.

Lemma planning_calls (state : GoalMentorState) (llm : port) :
  (calls (planning_node json_loads py_repr state) llm <= 1)%nat.
Proof.
  unfold calls, planning_node, try_except.
  repeat next_step; simpl; try lia;
    destruct (json_loads _); repeat next_step; simpl; lia.
Qed.

Lemma execution_calls (state : GoalMentorState) (llm : port) :
  (calls (execution_node py_repr state) llm <= 1)%nat.
Proof.
  unfold calls, execution_node, try_except.
  next_step; [ | simpl; lia].
  destruct (current_step_index state >=? v); [simpl; lia | ].
  next_step; [ | simpl; lia].
  destruct (Text.any_in done_words _).
  - destruct (current_step_index state + 1 >=? v); [simpl; lia | ].
    unfold mbind at 1, M_bind.
    repeat next_step; simpl; lia.
  - destruct (Text.any_in help_words _); [simpl; lia | ].
    repeat next_step; simpl; lia.
Qed.

Lemma help_calls (state : GoalMentorState) (llm : port) :
  (calls (help_node py_repr state) llm <= 1)%nat.
Proof.
  unfold calls, help_node, try_except.
  repeat next_step; simpl; lia.
Qed.

Lemma completion_calls (state : GoalMentorState) (llm : port) :
  calls (completion_node py_repr state) llm = 0%nat.
Proof.
  unfold calls, completion_node.
  repeat next_step; simpl; reflexivity.
Qed.

(** X7: every handler sends at most one prompt to the model in a run,
    whatever the state, the message and the answers of the model: there
    is no retry anywhere.  The completion handler sends none. *)
Theorem one_model_call_at_most
    (name : string) (handler : GoalMentorState -> M GoalMentorState)
    (state : GoalMentorState) (llm : port) :
  node json_loads py_repr name = Some handler ->
  (calls (handler state) llm <= 1)%nat
  /\ (name = "completion" -> calls (handler state) llm = 0%nat).
Proof.
  unfold node. intros Hnode.
  destruct (String.eqb_spec name "goal_analysis") as [-> | _];
    [injection Hnode as <-;
     split; [apply goal_analysis_calls | discriminate] | ].
  destruct (String.eqb_spec name "planning") as [-> | _];
    [injection Hnode as <-; split; [apply planning_calls | discriminate] | ].
  destruct (String.eqb_spec name "execution") as [-> | _];
    [injection Hnode as <-; split; [apply execution_calls | discriminate] | ].
  destruct (String.eqb_spec name "help") as [-> | _];
    [injection Hnode as <-; split; [apply help_calls | discriminate] | ].
  destruct (String.eqb_spec name "completion") as [-> | _]; [ | discriminate].
  injection Hnode as <-.
  split; [rewrite completion_calls; lia | intros _; apply completion_calls].
Qed.

(** X8: goal analysis never raises, whatever the state and the model.
    It returns either a state in [planning] mode with the goal marked
    refined, or a state in [goal_setting] mode with the goal not marked
    refined; the second only when the goal was not marked refined on
    entry, so a goal once refined is never questioned again. *)
Theorem goal_analysis_always_returns (state : GoalMentorState) (llm : port) :
  exists state',
    outcome (goal_analysis_node state) llm = Ok state'
    /\ ((mode state' = planning /\ goal_refined state' = true)
        \/ (mode state' = goal_setting /\ goal_refined state' = false
            /\ goal_refined state = false)).
Proof.
  unfold outcome, goal_analysis_node, try_except.
  repeat next_step; simpl; try (eexists; split; [reflexivity | left; split; reflexivity]).
  match goal with
  | |- context [Text.contains "?" ?reply] => destruct (Text.contains "?" reply)
  end; simpl; [ | eexists; split; [reflexivity | left; split; reflexivity]].
  destruct (goal_refined state); simpl;
    eexists; (split; [reflexivity | ]);
    [left; split; reflexivity | right; repeat split; reflexivity].
Qed.

(** X9: the help handler has no guard on the step index.  On a plan that
    is a list, an index at or past the end of the plan, or before its
    start counted from the end, makes the handler raise [IndexError]
    before any prompt is sent, where the execution handler completes the
    session. *)
Theorem help_past_the_plan_raises
    (state : GoalMentorState) (llm : port) (plan : list json) :
  steps state = JArr plan ->
  Z.of_nat (length plan) <= current_step_index state
  \/ current_step_index state < - Z.of_nat (length plan) ->
  help_node py_repr state llm = (Raise IndexError, []).
Proof.
  intros Hplan Hout. unfold help_node.
  assert (Hitem : Py.getitem_int (steps state) (current_step_index state)
                  = Raise IndexError).
  { rewrite Hplan. unfold Py.getitem_int, Py.seq_item.
    destruct (Z.ltb_spec (current_step_index state) 0) as [Hneg | Hpos].
    - destruct (Z.leb_spec 0 (Z.of_nat (length plan) + current_step_index state));
        [ | reflexivity].
      destruct Hout as [Hout | Hout]; lia.
    - destruct (Z.leb_spec 0 (current_step_index state)); [ | reflexivity].
      destruct (Z.ltb_spec (current_step_index state) (Z.of_nat (length plan)));
        [ | reflexivity].
      destruct Hout as [Hout | Hout]; lia. }
  rewrite Hitem. reflexivity.
Qed.

End Handler_bounds.

(** ** A turn through the router *)

Lemma context_of_list_plan (state : GoalMentorState) (plan : list json) :
  steps state = JArr plan ->
  exists messages, create_conversation_context state = Ok messages.
Proof.
  intros Hplan. unfold create_conversation_context. rewrite Hplan.
  eexists. reflexivity.
Qed.

Lemma seq_item_in_range (plan : list json) (i : Z) :
  0 <= i < Z.of_nat (length plan) ->
  exists step, Py.seq_item plan i = Ok step /\ In step plan.
Proof.
  intros Hrange. unfold Py.seq_item.
  destruct (Z.ltb_spec i 0) as [Hneg | _]; [lia | ].
  destruct (Z.leb_spec 0 i) as [_ | Hneg]; [ | lia].
  destruct (Z.ltb_spec i (Z.of_nat (length plan))) as [_ | Hge]; [ | lia].
  simpl. destruct (plan !! Z.to_nat i) as [step | ] eqn:Hstep.
  - exists step. split; [reflexivity | ].
    apply list_elem_of_In, list_elem_of_lookup. eauto.
  - apply lookup_ge_None in Hstep. lia.
Qed.

Lemma step_ok_fields (step : json) :
  step_ok step = true ->
  exists title description tips,
    Py.getitem_str step "title" = Ok title
    /\ Py.getitem_str step "description" = Ok description
    /\ Py.getitem_str step "tips" = Ok tips.
Proof.
  unfold step_ok, readable. intros Hok.
  destruct (Py.getitem_str step "title") as [title | ]; [ | discriminate].
  destruct (Py.getitem_str step "description") as [description | ];
    [ | discriminate].
  destruct (Py.getitem_str step "tips") as [tips | ]; [ | discriminate].
  exists title, description, tips. repeat split; reflexivity.
Qed.

Lemma plan_step_fields (plan : list json) (i : Z) :
  forallb step_ok plan = true ->
  0 <= i < Z.of_nat (length plan) ->
  exists step title description tips,
    Py.seq_item plan i = Ok step
    /\ Py.getitem_str step "title" = Ok title
    /\ Py.getitem_str step "description" = Ok description
    /\ Py.getitem_str step "tips" = Ok tips.
Proof.
  intros Hplan Hrange.
  destruct (seq_item_in_range plan i Hrange) as (step & Hitem & Hin).
  rewrite forallb_forall in Hplan.
  destruct (step_ok_fields step (Hplan step Hin))
    as (title & description & tips & Htitle & Hdescription & Htips).
  exists step, title, description, tips. auto.
Qed.

(** Closes a goal [session_ok state'] on the plan of the state given. *)
Ltac show_session plan :=
  exists plan; simpl; repeat split; auto; try lia; try discriminate.

Section Routed_turns.

Variable json_loads : string -> option json.
Variable py_repr : json -> string.

Lemma celebration_lines_of_plan
    (records : gmap Z Completion.t) (plan : list json) (i : Z) :
  forallb step_ok plan = true ->
  exists text, celebration_lines py_repr records i plan = Ok text.
Proof.
  revert i. induction plan as [ | step plan IH]; intros i Hplan; simpl.
  - eexists. reflexivity.
  - simpl in Hplan. apply andb_true_iff in Hplan as [Hstep Hrest].
    destruct (step_ok_fields step Hstep) as (title & _ & _ & Htitle & _).
    rewrite Htitle. simpl.
    destruct (IH (i + 1) Hrest) as [more ->]. simpl. eexists. reflexivity.
Qed.

Lemma execution_keeps_session (state : GoalMentorState) (llm : port) :
  session_ok state ->
  exists state',
    outcome (execution_node py_repr state) llm = Ok state'
    /\ session_ok state'.
Proof.
  intros (plan & Hplan & Hsteps & Hindex & Hhelp).
  unfold outcome, execution_node, try_except. rewrite Hplan. simpl Py.len.
  rewrite bind_lift_ok.
  destruct (Z.geb_spec (current_step_index state) (Z.of_nat (length plan)))
    as [Hge | Hlt].
  { eexists. split; [reflexivity | ].
    show_session plan. }
  destruct (plan_step_fields plan (current_step_index state) Hsteps
              (conj Hindex Hlt))
    as (step & title & description & tips & Hitem & Htitle & Hdescription & Htips).
  simpl Py.getitem_int. rewrite Hitem, bind_lift_ok.
  destruct (Text.any_in done_words _).
  - destruct (Z.geb_spec (current_step_index state + 1) (Z.of_nat (length plan)))
      as [Hlast | Hmore].
    + eexists. split; [reflexivity | ].
      show_session plan.
    + destruct (plan_step_fields plan (current_step_index state + 1) Hsteps)
        as (next & next_title & next_description & _ & Hnext & Hnext_title
            & Hnext_description & _); [lia | ].
      unfold mbind at 1, M_bind.
      rewrite Hnext, bind_lift_ok, Htitle, bind_lift_ok, Hnext_title,
        bind_lift_ok, Hnext_description, bind_lift_ok.
      eexists. split; [reflexivity | ].
      show_session plan.
  - destruct (Text.any_in help_words _).
    + eexists. split; [reflexivity | ].
      show_session plan.
    + rewrite Htitle, bind_lift_ok, Hdescription, bind_lift_ok, Htips,
        bind_lift_ok.
      destruct (context_of_list_plan state plan Hplan) as [messages Hcontext].
      rewrite Hcontext, bind_lift_ok, bind_invoke.
      destruct (llm _).
      * eexists. split; [reflexivity | ].
        show_session plan.
      * eexists. split; [reflexivity | ].
        show_session plan.
Qed.

Lemma help_keeps_session (state : GoalMentorState) (llm : port) :
  session_ok state ->
  mode state = help ->
  exists state',
    outcome (help_node py_repr state) llm = Ok state'
    /\ session_ok state'.
Proof.
  intros (plan & Hplan & Hsteps & Hindex & Hhelp) Hmode.
  specialize (Hhelp Hmode).
  destruct (plan_step_fields plan (current_step_index state) Hsteps
              (conj Hindex Hhelp))
    as (step & title & description & tips & Hitem & Htitle & Hdescription & Htips).
  destruct (context_of_list_plan state plan Hplan) as [messages Hcontext].
  unfold outcome, help_node, try_except.
  rewrite Hplan. simpl Py.getitem_int.
  rewrite Hitem, bind_lift_ok, Htitle, bind_lift_ok, Hdescription, bind_lift_ok.
  rewrite Hcontext, bind_lift_ok, bind_invoke.
  destruct (llm _).
  - eexists. split; [reflexivity | ]. show_session plan.
  - rewrite bind_lift_ok, Htips, bind_lift_ok.
    eexists. split; [reflexivity | ]. show_session plan.
Qed.

Lemma completion_keeps_session (state : GoalMentorState) (llm : port) :
  session_ok state ->
  mode state = completed ->
  exists state',
    outcome (completion_node py_repr state) llm = Ok state'
    /\ session_ok state'.
Proof.
  intros (plan & Hplan & Hsteps & Hindex & Hhelp) Hmode.
  unfold outcome, completion_node. rewrite Hplan. simpl Py.iter.
  rewrite bind_lift_ok.
  destruct (celebration_lines_of_plan (completion_status state) plan 0 Hsteps)
    as [text ->].
  rewrite bind_lift_ok.
  eexists. split; [reflexivity | ]. show_session plan.
Qed.

Lemma goal_analysis_keeps_session (state : GoalMentorState) (llm : port) :
  session_ok state ->
  exists state',
    outcome (goal_analysis_node state) llm = Ok state'
    /\ session_ok state'.
Proof.
  intros (plan & Hplan & Hsteps & Hindex & Hhelp).
  unfold outcome, goal_analysis_node, try_except.
  repeat next_step; simpl;
    try solve [eexists; split; [reflexivity | show_session plan]].
  match goal with
  | |- context [Text.contains "?" ?reply] => destruct (Text.contains "?" reply)
  end; destruct (goal_refined state); simpl;
    eexists; (split; [reflexivity | show_session plan]).
Qed.

Lemma planning_fallback_state (state : GoalMentorState) (llm : port) :
  (forall messages, llm messages = None) ->
  outcome (planning_node json_loads py_repr state) llm
  = Ok (with_current_step_index 0
          (with_mode execution
             (with_conversation_history
                (conversation_history state ++ [assistant_turn fallback_ready])
                (with_assistant_response fallback_ready
                   (with_steps (JArr (fallback_steps (goal state))) state))))).
Proof.
  intros Hdown. unfold outcome, planning_node, try_except.
  next_step; [ | reflexivity].
  rewrite bind_invoke, Hdown. reflexivity.
Qed.

(** X10: a turn through the router never raises on a session whose plan
    is a list of steps with a title, a description and tips and whose
    index is not negative (and within the plan when help is due): the
    router names a handler, the handler returns a state, and that state
    is such a session again.  This holds for every message and every
    model; in [planning] mode it is stated for a model that is down,
    where the plan installed is the fallback plan. *)
Theorem routed_turn_keeps_session (state : GoalMentorState) (llm : port) :
  session_ok state ->
  (mode state = planning -> forall messages, llm messages = None) ->
  exists state',
    outcome (routed_turn json_loads py_repr state) llm = Ok state'
    /\ session_ok state'.
Proof.
  intros Hsession Hplanning. unfold routed_turn, route_conversation.
  destruct (Text.any_in new_goal_phrases _);
    [exact (goal_analysis_keeps_session state llm Hsession) | ].
  destruct (mode state) eqn:Hmode.
  - exact (goal_analysis_keeps_session state llm Hsession).
  - change (node json_loads py_repr "planning")
      with (Some (planning_node json_loads py_repr)).
    cbv iota. rewrite (planning_fallback_state state llm (Hplanning eq_refl)).
    eexists. split; [reflexivity | ].
    exists (fallback_steps (goal state)). simpl.
    repeat split; try reflexivity; try lia; discriminate.
  - exact (execution_keeps_session state llm Hsession).
  - exact (help_keeps_session state llm Hsession Hmode).
  - exact (completion_keeps_session state llm Hsession Hmode).
Qed.

End Routed_turns.

(** ** The graph *)

Section Graph_runs.

Variable json_loads : string -> option json.
Variable py_repr : json -> string.

Lemma completion_keeps_mode (state state' : GoalMentorState) (llm : port) :
  outcome (completion_node py_repr state) llm = Ok state' ->
  mode state' = mode state.
Proof.
  unfold outcome, completion_node.
  repeat next_step; simpl; try discriminate; intros [= <-]; reflexivity.
Qed.

(** A relation that every handler respects holds between the state a run
    of the graph starts with and the state it ends with. *)
Lemma walk_respects (R : GoalMentorState -> GoalMentorState -> Prop) :
  (forall a b c, R a b -> R b c -> R a c) ->
  (forall a b, patched a b -> R a b) ->
  forall (fuel : nat) (name : string) (state state' : GoalMentorState)
         (llm : port),
    walk json_loads py_repr fuel name state llm = Finished state' ->
    R state state'.
Proof.
  intros Htrans Hpatched.
  induction fuel as [ | fuel IH]; intros name state state' llm; simpl;
    [discriminate | ].
  destruct (node json_loads py_repr name) as [handler | ] eqn:Hnode;
    [ | discriminate].
  destruct (outcome (handler state) llm) as [state1 | e] eqn:Hout;
    [ | discriminate].
  pose proof (Hpatched _ _ (handler_patches _ _ _ _ _ _ _ Hnode Hout)) as Hstep.
  destruct (next_node name state1) as [target | | ]; [ | | discriminate].
  - intros Hwalk. exact (Htrans _ _ _ Hstep (IH _ _ _ _ Hwalk)).
  - intros [= <-]. exact Hstep.
Qed.

(** The router answers [completion] only in [completed] mode, on a
    message without a new-goal phrase. *)
Lemma route_to_completion (state : GoalMentorState) :
  route_conversation state = "completion" ->
  mode state = completed
  /\ Text.any_in new_goal_phrases (Text.lower (user_message state)) = false.
Proof.
  unfold route_conversation.
  destruct (Text.any_in new_goal_phrases _); [discriminate | ].
  destruct (mode state); try discriminate. auto.
Qed.

(** The path map sends each of its keys to the node of that name. *)
Lemma execution_edge_target (key target : string) :
  path_lookup execution_path_map key = Some target -> target = key.
Proof.
  unfold execution_path_map, path_lookup.
  destruct (String.eqb_spec "execution" key); [congruence | ].
  destruct (String.eqb_spec "help" key); [congruence | ].
  destruct (String.eqb_spec "completion" key); [congruence | ].
  destruct (String.eqb_spec "goal_analysis" key); [congruence | discriminate].
Qed.

Lemma walk_ends_completed
    (fuel : nat) (name : string) (state state' : GoalMentorState) (llm : port) :
  walk json_loads py_repr fuel name state llm = Finished state' ->
  (name = "completion" ->
   mode state = completed
   /\ Text.any_in new_goal_phrases (Text.lower (user_message state)) = false) ->
  mode state' = completed
  /\ Text.any_in new_goal_phrases (Text.lower (user_message state)) = false.
Proof.
  revert name state.
  induction fuel as [ | fuel IH]; intros name state; simpl; [discriminate | ].
  destruct (node json_loads py_repr name) as [handler | ] eqn:Hnode;
    [ | discriminate].
  destruct (outcome (handler state) llm) as [state1 | e] eqn:Hout;
    [ | discriminate].
  destruct (handler_patches _ _ _ _ _ _ _ Hnode Hout) as (_ & Hmessage & _).
  unfold node in Hnode. unfold next_node.
  destruct (String.eqb_spec name "goal_analysis") as [-> | _].
  { intros Hwalk _. rewrite <- Hmessage. apply (IH _ _ Hwalk).
    destruct (mode state1); discriminate. }
  destruct (String.eqb_spec name "planning") as [-> | _].
  { intros Hwalk _. rewrite <- Hmessage. apply (IH _ _ Hwalk). discriminate. }
  destruct (String.eqb_spec name "execution") as [-> | _].
  { destruct (path_lookup execution_path_map (route_conversation state1))
      as [target | ] eqn:Htarget; [ | discriminate].
    intros Hwalk _. rewrite <- Hmessage. apply (IH _ _ Hwalk).
    intros ->. apply route_to_completion.
    symmetry. exact (execution_edge_target _ _ Htarget). }
  destruct (String.eqb_spec name "help") as [-> | _].
  { intros Hwalk _. rewrite <- Hmessage. apply (IH _ _ Hwalk). discriminate. }
  destruct (String.eqb_spec name "completion") as [-> | _]; [ | discriminate].
  injection Hnode as <-. cbv beta iota.
  intros [= <-] Hentry. destruct (Hentry eq_refl) as [Hmode Hphrase].
  split; [ | exact Hphrase].
  rewrite (completion_keeps_mode _ _ _ Hout). exact Hmode.
Qed.

(** X11: a run of the graph ends only on a completed session.  When
    [graph.invoke] reaches [END], with whatever model and within
    whatever number of steps, the state it returns is in [completed]
    mode and the user's message held none of the new-goal phrases.  So a
    message that asks for a new goal never brings a run to its end: the
    router sends it back to goal analysis after every execution. *)
Theorem finished_run_is_completed
    (fuel : nat) (state state' : GoalMentorState) (llm : port) :
  graph_invoke json_loads py_repr fuel state llm = Finished state' ->
  mode state' = completed
  /\ Text.any_in new_goal_phrases (Text.lower (user_message state)) = false.
Proof.
  intros Hwalk. apply (walk_ends_completed _ _ _ _ _ Hwalk). discriminate.
Qed.

(** One step of a run: the node runs and its edge is followed. *)
Lemma walk_follows_edge
    (fuel : nat) (name : string) (handler : GoalMentorState -> M GoalMentorState)
    (state state1 : GoalMentorState) (llm : port) (target : string) :
  node json_loads py_repr name = Some handler ->
  outcome (handler state) llm = Ok state1 ->
  next_node name state1 = Goto target ->
  walk json_loads py_repr (S fuel) name state llm
  = walk json_loads py_repr fuel target state1 llm.
Proof.
  intros Hnode Hrun Hedge. simpl. rewrite Hnode, Hrun, Hedge. reflexivity.
Qed.

(** The execution handler on a done message, on a plan of steps. *)
Lemma execution_done_on_plan
    (state : GoalMentorState) (llm : port) (plan : list json) :
  steps state = JArr plan ->
  forallb step_ok plan = true ->
  0 <= current_step_index state < Z.of_nat (length plan) ->
  Text.any_in done_words (Text.lower (user_message state)) = true ->
  exists state',
    outcome (execution_node py_repr state) llm = Ok state'
    /\ current_step_index state' = current_step_index state + 1
    /\ mode state'
       = (if current_step_index state + 1 >=? Z.of_nat (length plan)
          then completed else execution)
    /\ steps state' = steps state
    /\ user_message state' = user_message state
    /\ is_Some (completion_status state' !! current_step_index state).
Proof.
  intros Hplan Hsteps [Hindex Hlt] Hdone.
  unfold outcome, execution_node. rewrite Hplan. simpl Py.len.
  rewrite bind_lift_ok.
  destruct (Z.geb_spec (current_step_index state) (Z.of_nat (length plan)))
    as [Hge | _]; [lia | ].
  destruct (plan_step_fields plan (current_step_index state) Hsteps
              (conj Hindex Hlt))
    as (step & title & description & tips & Hitem & Htitle & _).
  simpl Py.getitem_int. rewrite Hitem, bind_lift_ok, Hdone.
  destruct (Z.geb_spec (current_step_index state + 1) (Z.of_nat (length plan)))
    as [Hlast | Hmore].
  - eexists. split; [reflexivity | ]. simpl. rewrite lookup_insert_eq.
    repeat split; eauto.
  - destruct (plan_step_fields plan (current_step_index state + 1) Hsteps)
      as (next & next_title & next_description & _ & Hnext & Hnext_title
          & Hnext_description & _); [lia | ].
    unfold mbind at 1, M_bind.
    rewrite Hnext, bind_lift_ok, Htitle, bind_lift_ok, Hnext_title,
      bind_lift_ok, Hnext_description, bind_lift_ok.
    eexists. split; [reflexivity | ]. simpl. rewrite lookup_insert_eq.
    repeat split; eauto.
Qed.

(** The completion handler on a plan of steps. *)
Lemma completion_on_plan
    (state : GoalMentorState) (llm : port) (plan : list json) :
  steps state = JArr plan ->
  forallb step_ok plan = true ->
  exists text,
    completion_node py_repr state llm
    = (Ok (with_conversation_history
             (conversation_history state ++ [assistant_turn text])
             (with_assistant_response text state)), []).
Proof.
  intros Hplan Hsteps. unfold completion_node. rewrite Hplan. simpl Py.iter.
  rewrite bind_lift_ok.
  destruct (celebration_lines_of_plan py_repr (completion_status state) plan 0
              Hsteps) as [text ->].
  rewrite bind_lift_ok. eexists. reflexivity.
Qed.

Lemma records_stay_along_walk
    (fuel : nat) (name : string) (state state' : GoalMentorState)
    (llm : port) (k : Z) :
  walk json_loads py_repr fuel name state llm = Finished state' ->
  is_Some (completion_status state !! k) ->
  is_Some (completion_status state' !! k).
Proof.
  intros Hwalk. revert k.
  apply (walk_respects
           (fun a b => forall k, is_Some (completion_status a !! k) ->
                                 is_Some (completion_status b !! k)))
    with (fuel := fuel) (name := name) (llm := llm); try exact Hwalk.
  - intros a b c Hab Hbc k Hk. apply Hbc, Hab, Hk.
  - intros a b (_ & _ & _ & _ & _ & [-> | [record ->]] & _) k Hk; [exact Hk | ].
    destruct (decide (current_step_index a = k)) as [-> | Hne].
    + rewrite lookup_insert_eq. eauto.
    + rewrite lookup_insert_ne by exact Hne. exact Hk.
Qed.

Lemma walk_done_steps (n : nat) :
  forall (state : GoalMentorState) (llm : port) (plan : list json),
    steps state = JArr plan ->
    forallb step_ok plan = true ->
    0 <= current_step_index state ->
    current_step_index state + Z.of_nat (S n) = Z.of_nat (length plan) ->
    Text.any_in done_words (Text.lower (user_message state)) = true ->
    Text.any_in new_goal_phrases (Text.lower (user_message state)) = false ->
    exists state',
      walk json_loads py_repr (S (S n)) "execution" state llm = Finished state'
      /\ current_step_index state' = Z.of_nat (length plan)
      /\ mode state' = completed
      /\ (forall k, current_step_index state <= k < Z.of_nat (length plan) ->
                    is_Some (completion_status state' !! k)).
Proof.
  induction n as [ | n IH];
    intros state llm plan Hplan Hsteps Hindex Hgap Hdone Hphrase.
  - destruct (execution_done_on_plan state llm plan Hplan Hsteps) as
      (state1 & Hrun & Hindex1 & Hmode1 & Hplan1 & Hmessage1 & Hrecord1);
      [lia | exact Hdone | ].
    destruct (Z.geb_spec (current_step_index state + 1) (Z.of_nat (length plan)))
      as [_ | Hmore]; [ | lia].
    rewrite Hplan in Hplan1.
    destruct (completion_on_plan state1 llm plan Hplan1 Hsteps) as [text Hend].
    assert (Hroute : route_conversation state1 = "completion").
    { unfold route_conversation. rewrite Hmessage1, Hphrase, Hmode1. reflexivity. }
    assert (Hlast : walk json_loads py_repr 1 "completion" state1 llm
                    = Finished (with_conversation_history
                                  (conversation_history state1
                                   ++ [assistant_turn text])
                                  (with_assistant_response text state1))).
    { simpl. unfold outcome. rewrite Hend. reflexivity. }
    eexists. split.
    + change (walk json_loads py_repr 2 "execution" state llm)
        with (match outcome (execution_node py_repr state) llm with
              | Raise e => Raised e
              | Ok state' =>
                  match next_node "execution" state' with
                  | End_of_graph => Finished state'
                  | Goto target => walk json_loads py_repr 1 target state' llm
                  | No_edge => No_target
                  end
              end).
      rewrite Hrun. unfold next_node. simpl String.eqb. cbv iota.
      rewrite Hroute. exact Hlast.
    + simpl. split; [lia | ]. split; [exact Hmode1 | ].
      intros k Hk. assert (k = current_step_index state) as -> by lia.
      exact Hrecord1.
  - destruct (execution_done_on_plan state llm plan Hplan Hsteps) as
      (state1 & Hrun & Hindex1 & Hmode1 & Hplan1 & Hmessage1 & Hrecord1);
      [lia | exact Hdone | ].
    destruct (Z.geb_spec (current_step_index state + 1) (Z.of_nat (length plan)))
      as [Hlast | _]; [lia | ].
    rewrite Hplan in Hplan1.
    destruct (IH state1 llm plan Hplan1 Hsteps) as
      (state' & Hwalk & Hindex' & Hmode' & Hrecords');
      [lia | lia | rewrite Hmessage1; exact Hdone
       | rewrite Hmessage1; exact Hphrase | ].
    assert (Hroute : route_conversation state1 = "execution").
    { unfold route_conversation. rewrite Hmessage1, Hphrase, Hmode1. reflexivity. }
    exists state'. split.
    + change (walk json_loads py_repr (S (S (S n))) "execution" state llm)
        with (match outcome (execution_node py_repr state) llm with
              | Raise e => Raised e
              | Ok state' =>
                  match next_node "execution" state' with
                  | End_of_graph => Finished state'
                  | Goto target =>
                      walk json_loads py_repr (S (S n)) target state' llm
                  | No_edge => No_target
                  end
              end).
      rewrite Hrun. unfold next_node. simpl String.eqb. cbv iota.
      rewrite Hroute. exact Hwalk.
    + split; [exact Hindex' | ]. split; [exact Hmode' | ].
      intros k Hk.
      destruct (decide (k = current_step_index state)) as [-> | Hne].
      * exact (records_stay_along_walk _ _ _ _ _ _ Hwalk Hrecord1).
      * apply Hrecords'. lia.
Qed.

(** A run that has reached [END] does so with more node runs allowed. *)
Lemma walk_more_fuel (fuel : nat) :
  forall (name : string) (state state' : GoalMentorState) (llm : port)
         (extra : nat),
    walk json_loads py_repr fuel name state llm = Finished state' ->
    walk json_loads py_repr (fuel + extra) name state llm = Finished state'.
Proof.
  induction fuel as [ | fuel IH]; intros name state state' llm extra;
    [discriminate | ].
  cbn [walk Nat.add].
  destruct (node json_loads py_repr name) as [handler | ]; [ | discriminate].
  destruct (outcome (handler state) llm) as [state1 | e]; [ | discriminate].
  destruct (next_node name state1) as [target | | ];
    [apply IH | intros Hend; exact Hend | discriminate].
Qed.

(** With no more node runs allowed than there are steps left, the run on
    a done message stops before [END]. *)
Lemma walk_stops_short (fuel : nat) :
  forall (state : GoalMentorState) (llm : port) (plan : list json),
    steps state = JArr plan ->
    forallb step_ok plan = true ->
    0 <= current_step_index state < Z.of_nat (length plan) ->
    Text.any_in done_words (Text.lower (user_message state)) = true ->
    Text.any_in new_goal_phrases (Text.lower (user_message state)) = false ->
    Z.of_nat fuel <= Z.of_nat (length plan) - current_step_index state ->
    walk json_loads py_repr fuel "execution" state llm = Out_of_steps.
Proof.
  induction fuel as [ | fuel IH];
    intros state llm plan Hplan Hsteps Hrange Hdone Hphrase Hfuel;
    [reflexivity | ].
  destruct (execution_done_on_plan state llm plan Hplan Hsteps Hrange Hdone) as
    (state1 & Hrun & Hindex1 & Hmode1 & Hplan1 & Hmessage1 & _).
  rewrite Hplan in Hplan1.
  destruct (Z.geb_spec (current_step_index state + 1) (Z.of_nat (length plan)))
    as [Hlast | Hmore].
  - assert (Hroute : route_conversation state1 = "completion").
    { unfold route_conversation. rewrite Hmessage1, Hphrase, Hmode1. reflexivity. }
    rewrite (walk_follows_edge fuel "execution" (execution_node py_repr)
               state state1 llm "completion" eq_refl Hrun);
      [ | unfold next_node; simpl String.eqb; cbv iota; rewrite Hroute;
          reflexivity].
    destruct fuel as [ | fuel]; [reflexivity | lia].
  - assert (Hroute : route_conversation state1 = "execution").
    { unfold route_conversation. rewrite Hmessage1, Hphrase, Hmode1. reflexivity. }
    rewrite (walk_follows_edge fuel "execution" (execution_node py_repr)
               state state1 llm "execution" eq_refl Hrun);
      [ | unfold next_node; simpl String.eqb; cbv iota; rewrite Hroute;
          reflexivity].
    apply (IH state1 llm plan Hplan1 Hsteps); [lia | | | lia].
    + rewrite Hmessage1. exact Hdone.
    + rewrite Hmessage1. exact Hphrase.
Qed.

(** X12: one done message completes the whole plan, when the run is
    allowed enough node runs.  The graph's edge after [execution] leads
    back to [execution] as long as the mode is [execution], with the same
    message in the state.  So on a plan of steps, from any step of it, a
    run entered at [execution] with a message that holds a done word (and
    no new-goal phrase) marks a step completed at each handler run and
    needs one node run per step left and one for the completion handler.
    Allowed more node runs than there are steps left, it ends: the index
    is the length of the plan, the mode is [completed], and every step
    from the current one on has its completion record.  Allowed no more
    than that, as under the recursion limit of the graph on a long plan,
    it runs out of steps and does not end.  No model call is involved, so
    this holds for every model. *)
Theorem done_message_completes_the_plan
    (fuel : nat) (state : GoalMentorState) (llm : port) (plan : list json) :
  steps state = JArr plan ->
  forallb step_ok plan = true ->
  0 <= current_step_index state < Z.of_nat (length plan) ->
  Text.any_in done_words (Text.lower (user_message state)) = true ->
  Text.any_in new_goal_phrases (Text.lower (user_message state)) = false ->
  (Z.of_nat (length plan) - current_step_index state < Z.of_nat fuel ->
   exists state',
     walk json_loads py_repr fuel "execution" state llm = Finished state'
     /\ current_step_index state' = Z.of_nat (length plan)
     /\ mode state' = completed
     /\ (forall k, current_step_index state <= k < Z.of_nat (length plan) ->
                   is_Some (completion_status state' !! k)))
  /\ (Z.of_nat fuel <= Z.of_nat (length plan) - current_step_index state ->
      walk json_loads py_repr fuel "execution" state llm = Out_of_steps).
Proof.
  intros Hplan Hsteps [Hindex Hlt] Hdone Hphrase. split.
  - intros Hfuel.
    destruct (Z.to_nat (Z.of_nat (length plan) - current_step_index state))
      as [ | n] eqn:Hgap; [lia | ].
    destruct (walk_done_steps n state llm plan Hplan Hsteps Hindex)
      as (state' & Hwalk & Hend); [lia | assumption | assumption | ].
    exists state'. split; [ | exact Hend].
    replace fuel with (S (S n) + (fuel - S (S n)))%nat by lia.
    apply walk_more_fuel. exact Hwalk.
  - apply (walk_stops_short fuel state llm plan); auto.
Qed.

(** X13: with the model down, one done message runs a whole session.
    [graph.invoke] enters at goal analysis on every turn.  When the model
    fails on every prompt and the message holds a done word and no
    new-goal phrase, then from any state at all the run takes seven
    handler runs and ends: goal analysis gives up and moves to planning,
    planning installs the fallback plan with the index at 0, execution
    completes the four steps one after the other on the same message, and
    completion celebrates.  The state returned has the fallback plan, the
    index at 4, [completed] mode and a completion record for each of the
    four steps. *)
Theorem done_message_with_model_down
    (state : GoalMentorState) (llm : port) :
  (forall messages, llm messages = None) ->
  Text.any_in done_words (Text.lower (user_message state)) = true ->
  Text.any_in new_goal_phrases (Text.lower (user_message state)) = false ->
  exists state',
    graph_invoke json_loads py_repr 7 state llm = Finished state'
    /\ current_step_index state' = 4
    /\ mode state' = completed
    /\ (forall k, 0 <= k < 4 -> is_Some (completion_status state' !! k)).
Proof.
  intros Hdown Hdone Hphrase.
  pose (state1 := with_goal_refined true
                    (with_mode planning
                       (with_assistant_response (analysis_fallback (goal state))
                          state))).
  pose (state2 := with_current_step_index 0
                    (with_mode execution
                       (with_conversation_history
                          (conversation_history state1
                           ++ [assistant_turn fallback_ready])
                          (with_assistant_response fallback_ready
                             (with_steps (JArr (fallback_steps (goal state1)))
                                state1))))).
  destruct (walk_done_steps 3 state2 llm (fallback_steps (goal state1)))
    as (state' & Hwalk & Hindex & Hmode & Hrecords);
    try reflexivity; try assumption; try (simpl; lia).
  exists state'. split; [ | split; [exact Hindex | split; [exact Hmode | ]]].
  - unfold graph_invoke.
    rewrite (walk_follows_edge 6 "goal_analysis" goal_analysis_node
               state state1 llm "planning" eq_refl
               (goal_analysis_failure_frame state llm (fun m => Hdown _))
               eq_refl).
    rewrite (walk_follows_edge 5 "planning" (planning_node json_loads py_repr)
               state1 state2 llm "execution" eq_refl
               (planning_fallback_state json_loads py_repr state1 llm Hdown)
               eq_refl).
    exact Hwalk.
  - exact Hrecords.
Qed.

(** What the handlers do to the mode, the plan and the index. *)

Lemma planning_sets_mode (state state' : GoalMentorState) (llm : port) :
  outcome (planning_node json_loads py_repr state) llm = Ok state' ->
  mode state' = execution.
Proof.
  unfold outcome, planning_node, try_except.
  repeat next_step; simpl; try (intros [= <-]; reflexivity);
    destruct (json_loads _); repeat next_step; simpl; intros [= <-]; reflexivity.
Qed.

Lemma help_returns_plan (state state' : GoalMentorState) (llm : port) :
  outcome (help_node py_repr state) llm = Ok state' ->
  mode state' = execution
  /\ steps state' = steps state
  /\ current_step_index state' = current_step_index state.
Proof.
  unfold outcome, help_node, try_except.
  repeat next_step; simpl; try discriminate; intros [= <-]; repeat split.
Qed.

Lemma execution_mode_after (state state' : GoalMentorState) (llm : port) :
  outcome (execution_node py_repr state) llm = Ok state' ->
  mode state' = completed \/ mode state' = help \/ mode state' = execution
  \/ mode state' = mode state.
Proof.
  unfold outcome, execution_node, try_except.
  next_step; [ | discriminate].
  destruct (current_step_index state >=? v); [intros [= <-]; auto | ].
  next_step; [ | discriminate].
  destruct (Text.any_in done_words _).
  - destruct (current_step_index state + 1 >=? v).
    + simpl. intros [= <-]. simpl. auto.
    + unfold mbind at 1, M_bind.
      repeat next_step; simpl; try discriminate.
      intros [= <-]. simpl. auto.
  - destruct (Text.any_in help_words _); [intros [= <-]; auto | ].
    repeat next_step; simpl; try discriminate; intros [= <-]; simpl; auto.
Qed.

Lemma execution_without_done_word
    (state state' : GoalMentorState) (llm : port) (total : Z) :
  Py.len (steps state) = Ok total ->
  current_step_index state < total ->
  Text.any_in done_words (Text.lower (user_message state)) = false ->
  outcome (execution_node py_repr state) llm = Ok state' ->
  (mode state' = help \/ mode state' = mode state)
  /\ steps state' = steps state
  /\ current_step_index state' = current_step_index state.
Proof.
  intros Hlen Hlt Hdone. unfold outcome, execution_node, try_except.
  rewrite Hlen, bind_lift_ok.
  destruct (Z.geb_spec (current_step_index state) total) as [Hge | _]; [lia | ].
  next_step; [ | discriminate]. rewrite Hdone.
  destruct (Text.any_in help_words _); [intros [= <-]; simpl; auto | ].
  repeat next_step; simpl; try discriminate; intros [= <-]; simpl; auto.
Qed.

Lemma walk_without_done_word (fuel : nat) :
  forall (name : string) (state state' : GoalMentorState) (llm : port)
         (total : Z),
    name = "execution" /\ mode state = execution \/ name = "help" ->
    Py.len (steps state) = Ok total ->
    current_step_index state < total ->
    Text.any_in done_words (Text.lower (user_message state)) = false ->
    Text.any_in new_goal_phrases (Text.lower (user_message state)) = false ->
    walk json_loads py_repr fuel name state llm <> Finished state'.
Proof.
  induction fuel as [ | fuel IH];
    intros name state state' llm total Hname Hlen Hlt Hdone Hphrase;
    [discriminate | ].
  destruct Hname as [[-> Hmode] | ->].
  - simpl walk. change (node json_loads py_repr "execution")
      with (Some (execution_node py_repr)). cbv iota.
    destruct (outcome (execution_node py_repr state) llm) as [state1 | e]
      eqn:Hrun; [ | discriminate].
    destruct (execution_patches _ _ _ _ Hrun) as (_ & Hmessage & _).
    destruct (execution_without_done_word _ _ _ _ Hlen Hlt Hdone Hrun)
      as (Hmode1 & Hplan1 & Hindex1).
    unfold next_node. simpl String.eqb. cbv iota.
    unfold route_conversation. rewrite Hmessage, Hphrase.
    destruct Hmode1 as [Hmode1 | Hmode1]; rewrite Hmode1; [ | rewrite Hmode];
      unfold execution_path_map, path_lookup; simpl String.eqb; cbv iota;
      apply (IH _ state1 state' llm total); auto;
      rewrite ?Hplan1, ?Hindex1, ?Hmessage; auto.
    left. rewrite Hmode1. auto.
  - simpl walk. change (node json_loads py_repr "help")
      with (Some (help_node py_repr)). cbv iota.
    destruct (outcome (help_node py_repr state) llm) as [state1 | e]
      eqn:Hrun; [ | discriminate].
    destruct (help_patches _ _ _ _ Hrun) as (_ & Hmessage & _).
    destruct (help_returns_plan _ _ _ Hrun) as (Hmode1 & Hplan1 & Hindex1).
    unfold next_node. simpl String.eqb. cbv iota.
    apply (IH _ state1 state' llm total); auto;
      rewrite ?Hplan1, ?Hindex1, ?Hmessage; auto.
Qed.

(** X14: without a done word a run does not end.  In [execution] mode
    with steps left, a message that holds neither a done word nor a
    new-goal phrase keeps the graph between [execution] and [help]: the
    edge after [execution] leads to [help] or back to [execution], the
    edge after [help] back to [execution], and neither handler moves the
    index.  Whatever the model answers and however many steps the run is
    given, it does not reach [END]: it raises or runs out of steps. *)
Theorem message_without_done_word_never_ends
    (fuel : nat) (state state' : GoalMentorState) (llm : port) (total : Z) :
  mode state = execution ->
  Py.len (steps state) = Ok total ->
  current_step_index state < total ->
  Text.any_in done_words (Text.lower (user_message state)) = false ->
  Text.any_in new_goal_phrases (Text.lower (user_message state)) = false ->
  walk json_loads py_repr fuel "execution" state llm <> Finished state'.
Proof.
  intros Hmode. apply walk_without_done_word. left. auto.
Qed.

Lemma help_is_an_edge (key : string) :
  key = "execution" \/ key = "help" \/ key = "completion"
  \/ key = "goal_analysis" ->
  path_lookup execution_path_map key = Some key.
Proof.
  intros [-> | [-> | [-> | ->]]]; reflexivity.
Qed.

Lemma walk_finds_every_edge (fuel : nat) :
  forall (name : string) (state : GoalMentorState) (llm : port),
    (name = "goal_analysis" \/ name = "planning" \/ name = "help"
     \/ name = "completion" \/ (name = "execution" /\ mode state = execution)) ->
    walk json_loads py_repr fuel name state llm <> No_target.
Proof.
  induction fuel as [ | fuel IH]; intros name state llm Hname; [discriminate | ].
  destruct Hname as [-> | [-> | [-> | [-> | [-> Hmode]]]]]; simpl walk.
  - change (node json_loads py_repr "goal_analysis")
      with (Some goal_analysis_node). cbv iota.
    destruct (outcome (goal_analysis_node state) llm) as [state1 | e];
      [ | discriminate].
    unfold next_node. simpl String.eqb. cbv iota.
    apply IH. destruct (mode state1); auto.
  - change (node json_loads py_repr "planning")
      with (Some (planning_node json_loads py_repr)). cbv iota.
    destruct (outcome (planning_node json_loads py_repr state) llm)
      as [state1 | e] eqn:Hrun; [ | discriminate].
    unfold next_node. simpl String.eqb. cbv iota.
    apply IH. do 4 right. split; [reflexivity | ].
    exact (planning_sets_mode _ _ _ Hrun).
  - change (node json_loads py_repr "help") with (Some (help_node py_repr)).
    cbv iota.
    destruct (outcome (help_node py_repr state) llm) as [state1 | e] eqn:Hrun;
      [ | discriminate].
    unfold next_node. simpl String.eqb. cbv iota.
    apply IH. do 4 right. split; [reflexivity | ].
    exact (proj1 (help_returns_plan _ _ _ Hrun)).
  - change (node json_loads py_repr "completion")
      with (Some (completion_node py_repr)). cbv iota.
    destruct (outcome (completion_node py_repr state) llm) as [state1 | e];
      discriminate.
  - change (node json_loads py_repr "execution")
      with (Some (execution_node py_repr)). cbv iota.
    destruct (outcome (execution_node py_repr state) llm) as [state1 | e]
      eqn:Hrun; [ | discriminate].
    pose proof (execution_mode_after _ _ _ Hrun) as Hmode1.
    rewrite Hmode in Hmode1.
    unfold next_node. simpl String.eqb. cbv iota.
    unfold route_conversation.
    destruct (Text.any_in new_goal_phrases _).
    + rewrite help_is_an_edge by auto. apply IH. auto.
    + destruct Hmode1 as [Hmode1 | [Hmode1 | [Hmode1 | Hmode1]]]; rewrite Hmode1;
        rewrite help_is_an_edge by auto; apply IH; auto.
      * do 4 right. auto.
      * do 4 right. auto.
Qed.

(** X15: a run of the graph never stops for want of an edge.  The path
    map after [execution] has no key [planning], which the router can
    answer; but in a run from the entry point the execution handler is
    only ever entered in [execution] mode, after planning, after help or
    after itself, and returns a state in [execution], [help] or
    [completed] mode.  So the router's answer there is always a key of
    the path map, and every name followed is that of a handler. *)
Theorem graph_run_finds_every_edge
    (fuel : nat) (state : GoalMentorState) (llm : port) :
  graph_invoke json_loads py_repr fuel state llm <> No_target.
Proof.
  apply walk_finds_every_edge. auto.
Qed.


End Graph_runs.

(** ** The numbered-list reader *)

Module Text_facts.

Lemma length_app (a b : string) :
  String.length (a +:+ b) = (String.length a + String.length b)%nat.
Proof. induction a as [ | c a IH]; simpl; [reflexivity | rewrite IH; reflexivity]. Qed.

Lemma app_assoc (a b c : string) : (a +:+ b) +:+ c = a +:+ (b +:+ c).
Proof.
  induction a as [ | d a IH]; [reflexivity | ].
  change (String d ((a +:+ b) +:+ c) = String d (a +:+ (b +:+ c))).
  rewrite IH. reflexivity.
Qed.

(** [rstrip] one character at a time. *)
Lemma rstrip_cons (c : ascii) (t : string) :
  Text.rstrip (String c t)
  = if String.eqb (Text.rstrip t) EmptyString
    then (if Text.isspace c then EmptyString else String c EmptyString)
    else String c (Text.rstrip t).
Proof. simpl. destruct (Text.rstrip t); reflexivity. Qed.

Lemma rstrip_idem (s : string) : Text.rstrip (Text.rstrip s) = Text.rstrip s.
Proof.
  induction s as [ | c t IH]; [reflexivity | ].
  rewrite rstrip_cons.
  destruct (String.eqb_spec (Text.rstrip t) EmptyString) as [Hblank | Hsolid].
  - destruct (Text.isspace c) eqn:Hspace; [reflexivity | ].
    simpl. rewrite Hspace. reflexivity.
  - rewrite rstrip_cons, IH.
    destruct (String.eqb_spec (Text.rstrip t) EmptyString); [contradiction | ].
    reflexivity.
Qed.

Lemma rstrip_length (s : string) :
  (String.length (Text.rstrip s) <= String.length s)%nat.
Proof.
  induction s as [ | c t IH]; [simpl; lia | ].
  rewrite rstrip_cons.
  destruct (String.eqb (Text.rstrip t) EmptyString);
    [destruct (Text.isspace c) | ]; simpl; lia.
Qed.

Lemma rstrip_app_blank (a b : string) :
  Text.rstrip b = EmptyString -> Text.rstrip (a +:+ b) = Text.rstrip a.
Proof.
  intros Hblank. induction a as [ | c a IH]; [exact Hblank | ].
  change (String c a +:+ b) with (String c (a +:+ b)).
  rewrite !rstrip_cons, IH. reflexivity.
Qed.

Lemma rstrip_app_solid (a b : string) :
  Text.rstrip b <> EmptyString -> Text.rstrip (a +:+ b) = a +:+ Text.rstrip b.
Proof.
  intros Hsolid. induction a as [ | c a IH]; [reflexivity | ].
  change (String c a +:+ b) with (String c (a +:+ b)).
  rewrite rstrip_cons, IH.
  destruct (String.eqb_spec (a +:+ Text.rstrip b) EmptyString) as [Hempty | _];
    [ | reflexivity].
  destruct a; [contradiction | discriminate].
Qed.

Lemma lstrip_starts_solid (s : string) : starts_solid (Text.lstrip s).
Proof.
  induction s as [ | c t IH]; simpl; [exact I | ].
  destruct (Text.isspace c) eqn:Hspace; [exact IH | exact Hspace].
Qed.

Lemma lstrip_of_solid (s : string) : starts_solid s -> Text.lstrip s = s.
Proof. destruct s as [ | c t]; simpl; [reflexivity | intros ->; reflexivity]. Qed.

Lemma rstrip_starts_solid (s : string) :
  starts_solid s -> starts_solid (Text.rstrip s).
Proof.
  destruct s as [ | c t]; [intros _; exact I | ].
  intros Hsolid. rewrite rstrip_cons. simpl in Hsolid.
  destruct (String.eqb (Text.rstrip t) EmptyString); [rewrite Hsolid | ];
    exact Hsolid.
Qed.

Lemma strip_idem (s : string) : Text.strip (Text.strip s) = Text.strip s.
Proof.
  unfold Text.strip.
  rewrite (lstrip_of_solid (Text.rstrip (Text.lstrip s)))
    by apply rstrip_starts_solid, lstrip_starts_solid.
  apply rstrip_idem.
Qed.

Lemma strip_fixed (s : string) :
  Text.strip s = s -> Text.lstrip s = s /\ Text.rstrip s = s.
Proof.
  intros Hfixed. split.
  - apply lstrip_of_solid. rewrite <- Hfixed. unfold Text.strip.
    apply rstrip_starts_solid, lstrip_starts_solid.
  - rewrite <- Hfixed at 1. unfold Text.strip. rewrite rstrip_idem.
    exact Hfixed.
Qed.

Lemma strip_blank (s : string) :
  Text.strip s = EmptyString -> Text.rstrip s = EmptyString.
Proof.
  unfold Text.strip. induction s as [ | c t IH]; [reflexivity | ].
  simpl Text.lstrip. destruct (Text.isspace c) eqn:Hspace.
  - intros Hblank. rewrite rstrip_cons, (IH Hblank), Hspace. reflexivity.
  - rewrite rstrip_cons.
    destruct (String.eqb (Text.rstrip t) EmptyString);
      [rewrite Hspace | ]; discriminate.
Qed.

End Text_facts.

Lemma startswith_split (p s : string) :
  Text.startswith p s = true -> s = p +:+ Text.drop (String.length p) s.
Proof.
  revert s. induction p as [ | a p IH]; intros s; [reflexivity | ].
  destruct s as [ | b s]; simpl; [discriminate | ].
  destruct (Ascii.eqb_spec a b) as [-> | _]; [ | discriminate].
  intros Hrest. change (String b s = String b (p +:+ Text.drop (String.length p) s)).
  rewrite <- (IH s Hrest). reflexivity.
Qed.

Lemma find_after_split (sep s rest : string) :
  Text.find_after sep s = Some rest ->
  exists before, s = before +:+ sep +:+ rest.
Proof.
  induction s as [ | c s IH].
  - simpl. destruct (Text.startswith sep EmptyString) eqn:Hstart; [ | discriminate].
    intros [= <-]. exists EmptyString. exact (startswith_split _ _ Hstart).
  - simpl. destruct (Text.startswith sep (String c s)) eqn:Hstart.
    + intros [= <-]. exists EmptyString. exact (startswith_split _ _ Hstart).
    + intros Hlater. destruct (IH Hlater) as [before ->].
      exists (String c before). reflexivity.
Qed.

Lemma contains_find_after (sep s : string) :
  Text.contains sep s = true -> exists rest, Text.find_after sep s = Some rest.
Proof.
  induction s as [ | c s IH]; simpl.
  - rewrite orb_false_r. intros ->. eauto.
  - destruct (Text.startswith sep (String c s)); [eauto | ]. exact IH.
Qed.

(** What [numbered_line] returns is what follows the first dot and space
    of a stripped line, stripped. *)
Lemma numbered_line_step (line step : string) :
  NumberedList.numbered_line line = Some step ->
  exists before rest,
    Text.strip line = before +:+ ". " +:+ rest /\ step = Text.strip rest.
Proof.
  unfold NumberedList.numbered_line. cbv zeta.
  destruct (Text.strip line) as [ | c t] eqn:Hline; [discriminate | ].
  destruct ((2 <? String.length (String c t))%nat && Text.isdigit c
            && Text.contains ". " (String c t)) eqn:Hcond; [ | discriminate].
  apply andb_true_iff in Hcond as [_ Hdot].
  intros [= <-]. unfold Text.after_first.
  destruct (contains_find_after _ _ Hdot) as [rest Hrest]. rewrite Hrest.
  destruct (find_after_split _ _ _ Hrest) as [before Hsplit].
  exists before, rest. auto.
Qed.

Lemma numbered_step_not_empty (line step : string) :
  NumberedList.numbered_line line = Some step -> step <> EmptyString.
Proof.
  intros Hline Hempty.
  destruct (numbered_line_step line step Hline) as (before & rest & Hsplit & Hstep).
  assert (Hblank : Text.rstrip rest = EmptyString).
  { apply Text_facts.strip_blank. congruence. }
  assert (Hfixed : Text.rstrip (Text.strip line) = Text.strip line).
  { unfold Text.strip. apply Text_facts.rstrip_idem. }
  rewrite Hsplit in Hfixed.
  rewrite <- Text_facts.app_assoc in Hfixed.
  rewrite (Text_facts.rstrip_app_blank _ rest Hblank) in Hfixed.
  change (before +:+ ". ") with (before +:+ ("." +:+ " ")) in Hfixed.
  rewrite <- (Text_facts.app_assoc before "." " ") in Hfixed at 1.
  rewrite (Text_facts.rstrip_app_blank (before +:+ ".") " " eq_refl) in Hfixed.
  pose proof (Text_facts.rstrip_length (before +:+ ".")) as Hshort.
  rewrite Hfixed in Hshort.
  rewrite !Text_facts.length_app in Hshort. simpl in Hshort. lia.
Qed.

Lemma has_cons (c d : ascii) (s : string) :
  has c (String d s) = Ascii.eqb c d || has c s.
Proof.
  unfold has. simpl. destruct (Ascii.eqb c d); reflexivity.
Qed.

Lemma has_app (c : ascii) (a b : string) :
  has c (a +:+ b) = has c a || has c b.
Proof.
  induction a as [ | d a IH]; [reflexivity | ].
  change (String d a +:+ b) with (String d (a +:+ b)).
  rewrite !has_cons, IH. apply orb_assoc.
Qed.

Lemma lstrip_suffix (s : string) : exists head, s = head +:+ Text.lstrip s.
Proof.
  induction s as [ | c s [head IH]]; [exists EmptyString; reflexivity | ].
  simpl. destruct (Text.isspace c).
  - exists (String c head). rewrite IH at 1. reflexivity.
  - exists EmptyString. reflexivity.
Qed.

Lemma rstrip_prefix (s : string) : exists tail, s = Text.rstrip s +:+ tail.
Proof.
  induction s as [ | c s [tail IH]]; [exists EmptyString; reflexivity | ].
  rewrite Text_facts.rstrip_cons.
  destruct (String.eqb (Text.rstrip s) EmptyString).
  - destruct (Text.isspace c).
    + exists (String c s). reflexivity.
    + exists s. reflexivity.
  - exists tail. rewrite IH at 1. reflexivity.
Qed.

Lemma strip_keeps_out (c : ascii) (s : string) :
  has c s = false -> has c (Text.strip s) = false.
Proof.
  intros Hout. unfold Text.strip.
  destruct (lstrip_suffix s) as [head Hhead].
  destruct (rstrip_prefix (Text.lstrip s)) as [tail Htail].
  rewrite Hhead, has_app in Hout. apply orb_false_iff in Hout as [_ Hout].
  rewrite Htail, has_app in Hout. apply orb_false_iff in Hout as [Hout _].
  exact Hout.
Qed.

Lemma split_keeps_out (c : ascii) (s piece : string) :
  In piece (Text.split c s) -> has c piece = false.
Proof.
  revert piece. induction s as [ | d s IH]; intros piece; simpl.
  - intros [<- | []]. reflexivity.
  - destruct (Ascii.eqb_spec d c) as [-> | Hne].
    + intros [<- | Hin]; [reflexivity | exact (IH _ Hin)].
    + destruct (Text.split c s) as [ | first rest] eqn:Hsplit.
      * intros [<- | []]. rewrite has_cons.
        destruct (Ascii.eqb_spec c d); [congruence | reflexivity].
      * intros [<- | Hin].
        -- rewrite has_cons, (IH first (or_introl eq_refl)).
           destruct (Ascii.eqb_spec c d); [congruence | reflexivity].
        -- apply IH. right. exact Hin.
Qed.

(** The step read from a line without a line feed. *)
Lemma numbered_line_is_tidy (line step : string) :
  has "010" line = false ->
  NumberedList.numbered_line line = Some step ->
  tidy step.
Proof.
  intros Hout Hread.
  destruct (numbered_line_step line step Hread)
    as (before & rest & Hsplit & Hrest).
  split; [exact (numbered_step_not_empty line step Hread) | ].
  split; [rewrite Hrest; apply Text_facts.strip_idem | ].
  apply (strip_keeps_out "010") in Hout.
  rewrite Hsplit, !has_app in Hout.
  apply orb_false_iff in Hout as [_ Hout].
  apply orb_false_iff in Hout as [_ Hout].
  rewrite Hrest. exact (strip_keeps_out "010" rest Hout).
Qed.

(** X17: every step the numbered-list reader returns is a step: it is not
    empty, it has no white space at either end and no line feed in it,
    whatever text the model replied.  A numbered line with nothing after
    the number gives no step rather than an empty one. *)
Theorem numbered_steps_are_tidy (text step : string) :
  In step (NumberedList.numbered_steps text) -> tidy step.
Proof.
  unfold NumberedList.numbered_steps. intros Hstep.
  apply list_elem_of_In, list_elem_of_omap in Hstep as (line & Hline & Hread).
  apply list_elem_of_In in Hline.
  pose proof (split_keeps_out _ _ _ Hline) as Hout.
  exact (numbered_line_is_tidy line step Hout Hread).
Qed.

(** A digit is no white space, no dot and no line feed. *)
Lemma digit_is_solid (c : ascii) :
  Text.isdigit c = true ->
  Text.isspace c = false /\ Ascii.eqb "." c = false /\ Ascii.eqb "010" c = false.
Proof.
  destruct c as [b0 b1 b2 b3 b4 b5 b6 b7].
  destruct b0, b1, b2, b3, b4, b5, b6, b7; intros Hdigit;
    try discriminate Hdigit; repeat split.
Qed.

Lemma digits_keep_out_line_feed (s : string) :
  all_digits s = true -> has "010" s = false.
Proof.
  induction s as [ | c s IH]; [reflexivity | ].
  simpl. intros Hdigits. apply andb_true_iff in Hdigits as [Hc Hs].
  rewrite has_cons, (IH Hs).
  destruct (digit_is_solid c Hc) as (_ & _ & ->). reflexivity.
Qed.

Lemma startswith_app (p s : string) : Text.startswith p (p +:+ s) = true.
Proof.
  induction p as [ | a p IH]; [reflexivity | ].
  simpl. rewrite Ascii.eqb_refl. exact IH.
Qed.

Lemma contains_app_sep (sep a b : string) :
  Text.contains sep (a +:+ sep +:+ b) = true.
Proof.
  induction a as [ | c a IH].
  - change (EmptyString +:+ sep +:+ b) with (sep +:+ b).
    destruct (sep +:+ b) eqn:Hs; simpl;
      rewrite <- Hs, startswith_app; reflexivity.
  - change (String c a +:+ sep +:+ b) with (String c (a +:+ sep +:+ b)).
    simpl. rewrite IH. apply orb_true_r.
Qed.

Lemma find_after_later (sep : string) (c : ascii) (s : string) :
  Text.startswith sep (String c s) = false ->
  Text.find_after sep (String c s) = Text.find_after sep s.
Proof.
  intros Hmiss. cbn [Text.find_after]. rewrite Hmiss. reflexivity.
Qed.

Lemma find_after_digits (label step : string) :
  all_digits label = true ->
  Text.find_after ". " (label +:+ ". " +:+ step) = Some step.
Proof.
  induction label as [ | c label IH]; [reflexivity | ].
  simpl all_digits. intros Hdigits.
  apply andb_true_iff in Hdigits as [Hc Hlabel].
  change (String c label +:+ ". " +:+ step)
    with (String c (label +:+ ". " +:+ step)).
  destruct (digit_is_solid c Hc) as (_ & Hdot & _).
  rewrite find_after_later; [exact (IH Hlabel) | ].
  cbn [Text.startswith]. rewrite Hdot. reflexivity.
Qed.

(** A line made of a number, a dot, a space and a step is read as the
    step. *)
Lemma numbered_line_reads (label step : string) :
  label <> EmptyString ->
  all_digits label = true ->
  step <> EmptyString ->
  Text.strip step = step ->
  NumberedList.numbered_line (label +:+ ". " +:+ step) = Some step.
Proof.
  intros Hlabel Hdigits Hstep Hfixed.
  destruct (Text_facts.strip_fixed step Hfixed) as [_ Hright].
  destruct label as [ | c label]; [contradiction | ].
  simpl in Hdigits. apply andb_true_iff in Hdigits as [Hc Hrest].
  destruct (digit_is_solid c Hc) as (Hsolid & _ & _).
  set (line := String c label +:+ ". " +:+ step).
  assert (Hline : Text.strip line = line).
  { unfold Text.strip, line.
    change (String c label +:+ ". " +:+ step)
      with (String c (label +:+ ". " +:+ step)).
    simpl Text.lstrip. rewrite Hsolid.
    change (String c (label +:+ ". " +:+ step))
      with (String c label +:+ (". " +:+ step)).
    rewrite <- Text_facts.app_assoc.
    rewrite Text_facts.rstrip_app_solid by (rewrite Hright; exact Hstep).
    rewrite Hright. reflexivity. }
  unfold NumberedList.numbered_line. cbv zeta. rewrite Hline.
  unfold line at 1.
  change (String c label +:+ ". " +:+ step)
    with (String c (label +:+ ". " +:+ step)).
  cbv iota. fold line.
  assert (Hlong : (2 <? String.length line)%nat = true).
  { apply Nat.ltb_lt. unfold line. rewrite !Text_facts.length_app.
    destruct step; [contradiction | ]. simpl. lia. }
  rewrite Hlong, Hc.
  unfold line at 1. rewrite contains_app_sep. simpl andb. cbv iota.
  unfold Text.after_first, line.
  rewrite (find_after_digits (String c label) step)
    by (simpl; rewrite Hc; exact Hrest).
  simpl default. rewrite Hfixed. reflexivity.
Qed.

(** The numbers the console prints are digits. *)

Lemma pretty_N_char_is_digit (d : N) : Text.isdigit (pretty_N_char d) = true.
Proof. unfold pretty_N_char. repeat case_match; reflexivity. Qed.

Lemma pretty_N_go_digits (x : N) :
  forall s, all_digits s = true -> all_digits (pretty_N_go x s) = true.
Proof.
  induction (N.lt_wf_0 x) as [x _ IH]. intros s Hs.
  assert (x = 0 \/ 0 < x)%N as [-> | Hpos] by lia;
    [rewrite pretty_N_go_0; exact Hs | ].
  rewrite pretty_N_go_step by exact Hpos.
  apply IH; [apply N.div_lt; lia | ].
  simpl. rewrite pretty_N_char_is_digit. exact Hs.
Qed.

Lemma pretty_N_go_grows (x : N) :
  forall s, (0 < x)%N ->
            (String.length s < String.length (pretty_N_go x s))%nat.
Proof.
  induction (N.lt_wf_0 x) as [x _ IH]. intros s Hpos.
  rewrite pretty_N_go_step by exact Hpos.
  destruct (N.eq_0_gt_0_cases (x `div` 10)) as [Hnone | Hmore].
  - rewrite Hnone, pretty_N_go_0. simpl. lia.
  - specialize (IH (x `div` 10)%N (N.div_lt x 10 Hpos eq_refl)
                  (String (pretty_N_char (x `mod` 10)) s) Hmore).
    simpl in IH. lia.
Qed.

Lemma line_number_is_digits (i : nat) :
  pretty (Z.of_nat i + 1) <> EmptyString
  /\ all_digits (pretty (Z.of_nat i + 1)) = true.
Proof.
  destruct (Z.of_nat i + 1) as [ | p | p] eqn:Hnumber; try lia.
  unfold pretty, pretty_Z, pretty, pretty_positive, pretty, pretty_N.
  destruct (decide (N.pos p = 0%N)) as [Hzero | _]; [discriminate Hzero | ].
  split.
  - intros Hempty.
    pose proof (pretty_N_go_grows (N.pos p) EmptyString) as Hgrows.
    rewrite Hempty in Hgrows. simpl in Hgrows. lia.
  - apply pretty_N_go_digits. reflexivity.
Qed.

Lemma numbered_reads (i : nat) (step : string) :
  tidy step ->
  NumberedList.numbered_line (Console.numbered i step) = Some step
  /\ has "010" (Console.numbered i step) = false.
Proof.
  intros (Hstep & Hfixed & Hout).
  destruct (line_number_is_digits i) as [Hlabel Hdigits].
  split; [apply numbered_line_reads; assumption | ].
  unfold Console.numbered. rewrite !has_app.
  rewrite (digits_keep_out_line_feed _ Hdigits). exact Hout.
Qed.

Lemma split_line (c : ascii) (line rest : string) :
  has c line = false ->
  Text.split c (line +:+ String c rest) = line :: Text.split c rest.
Proof.
  induction line as [ | d line IH].
  - intros _. change (EmptyString +:+ String c rest) with (String c rest).
    simpl. rewrite Ascii.eqb_refl. reflexivity.
  - rewrite has_cons. intros Hout. apply orb_false_iff in Hout as [Hd Hline].
    change (String d line +:+ String c rest)
      with (String d (line +:+ String c rest)).
    cbn [Text.split]. rewrite (IH Hline).
    rewrite Ascii.eqb_sym, Hd. reflexivity.
Qed.

Lemma split_printed (lines : list string) :
  Forall (fun line => has "010" line = false) lines ->
  Text.split "010" (Console.printed lines) = lines ++ [EmptyString].
Proof.
  induction 1 as [ | line lines Hline _ IH]; [reflexivity | ].
  simpl Console.printed. rewrite (split_line _ _ _ Hline), IH. reflexivity.
Qed.

Lemma numbered_lines_read
    (f : nat -> string -> string) (steps : list string) :
  (forall i step, tidy step ->
                  NumberedList.numbered_line (f i step) = Some step
                  /\ has "010" (f i step) = false) ->
  Forall tidy steps ->
  omap NumberedList.numbered_line (imap f steps) = steps
  /\ Forall (fun line => has "010" line = false) (imap f steps).
Proof.
  intros Hf Hsteps. revert f Hf.
  induction Hsteps as [ | step steps Hstep _ IH]; intros f Hf;
    [split; [reflexivity | constructor] | ].
  rewrite imap_cons. destruct (Hf 0%nat step Hstep) as [Hread Hout].
  destruct (IH (f ∘ S)) as [Hrest Houts]; [intros i s; apply Hf | ].
  split.
  - simpl. rewrite Hread. f_equal. exact Hrest.
  - constructor; assumption.
Qed.

(** X18: the plan the console prints is read back as the plan.  The
    lines [1. step], [2. step], ... that [run_goal_mentor] prints for a
    plan, put through the reader of the model's reply, give the steps of
    the plan again, in order, for every plan whose steps are not empty
    and have no white space at either end and no line feed.  Every plan
    the reader returns is such a plan, so reading what was printed of a
    plan read changes nothing. *)
Theorem printed_plan_reads_back :
  (forall steps : list string,
      Forall tidy steps ->
      NumberedList.numbered_steps (Console.printed (Console.plan_lines steps))
      = steps)
  /\ (forall text : string,
         NumberedList.numbered_steps
           (Console.printed
              (Console.plan_lines (NumberedList.numbered_steps text)))
         = NumberedList.numbered_steps text).
Proof.
  assert (Hback : forall steps : list string,
             Forall tidy steps ->
             NumberedList.numbered_steps
               (Console.printed (Console.plan_lines steps)) = steps).
  { intros steps Hsteps.
    destruct (numbered_lines_read Console.numbered steps numbered_reads Hsteps)
      as [Hread Houts].
    unfold NumberedList.numbered_steps, Console.plan_lines.
    rewrite (split_printed _ Houts), omap_app, Hread.
    simpl. apply app_nil_r. }
  split; [exact Hback | ].
  intros text. apply Hback. apply Forall_forall.
  intros step Hstep. unfold NumberedList.numbered_steps in Hstep.
  apply list_elem_of_omap in Hstep as (line & Hline & Hread).
  apply list_elem_of_In in Hline.
  exact (numbered_line_is_tidy line step (split_keeps_out _ _ _ Hline) Hread).
Qed.

(** ** The console mentor *)

Section Console_loop.

Variable error_text : list message -> string.

Lemma console_item_in_range (l : list string) (i : Z) :
  0 <= i < Z.of_nat (length l) ->
  exists step, ConsoleApp.item l i = Ok step.
Proof.
  intros Hrange. unfold ConsoleApp.item.
  destruct (Z.ltb_spec i 0) as [Hneg | _]; [lia | ].
  destruct (Z.leb_spec 0 i) as [_ | Hneg]; [ | lia].
  destruct (Z.ltb_spec i (Z.of_nat (length l))) as [_ | Hge]; [ | lia].
  simpl. destruct (l !! Z.to_nat i) as [step | ] eqn:Hstep; [eauto | ].
  apply lookup_ge_None in Hstep. lia.
Qed.

Lemma resources_always_come (goal step : string) (llm : port) :
  exists resources sent,
    ConsoleApp.get_helpful_resources goal step llm = (Ok resources, [sent]).
Proof.
  unfold ConsoleApp.get_helpful_resources, try_except.
  rewrite bind_invoke. destruct (llm _); eexists; eexists; reflexivity.
Qed.

Lemma move_to_next_is_safe
    (goal : string) (st : ConsoleApp.state) (at_end : list ConsoleApp.output)
    (at_next : string -> list ConsoleApp.output) (llm : port) :
  0 <= ConsoleApp.current_step_index st
       < Z.of_nat (length (ConsoleApp.steps st)) ->
  exists shown control,
    ConsoleApp.move_to_next goal st at_end at_next llm = (Ok (shown, control), [])
    /\ forall st', control = ConsoleApp.Continue st' ->
                   ConsoleApp.index_in_plan st'.
Proof.
  intros Hrange. unfold ConsoleApp.move_to_next.
  destruct (Z.geb_spec (ConsoleApp.current_step_index st + 1)
              (Z.of_nat (length (ConsoleApp.steps st)))) as [Hend | Hnext].
  - eexists. eexists. split; [reflexivity | discriminate].
  - destruct (console_item_in_range (ConsoleApp.steps st)
                (ConsoleApp.current_step_index st + 1)) as [next Hitem]; [lia | ].
    rewrite Hitem, bind_lift_ok. eexists. eexists. split; [reflexivity | ].
    intros st' [= <-]. right. simpl. lia.
Qed.

Lemma track_is_safe
    (goal : string) (st : ConsoleApp.state) (user_input : string) (llm : port) :
  0 <= ConsoleApp.current_step_index st
       < Z.of_nat (length (ConsoleApp.steps st)) ->
  exists shown control sent,
    ConsoleApp.track goal st user_input llm = (Ok (shown, control), sent)
    /\ (length sent <= 1)%nat
    /\ forall st', control = ConsoleApp.Continue st' ->
                   ConsoleApp.index_in_plan st'.
Proof.
  intros Hrange. unfold ConsoleApp.track.
  assert (Hhere : ConsoleApp.index_in_plan st) by (right; exact Hrange).
  destruct (console_item_in_range (ConsoleApp.steps st)
              (ConsoleApp.current_step_index st) Hrange) as [step Hitem].
  destruct (Text.contains "yes" _).
  { destruct (move_to_next_is_safe goal st [ConsoleApp.Print ConsoleApp.all_completed]
                (fun week => [ConsoleApp.Print (ConsoleApp.great_job week)])
                llm Hrange) as (shown & control & -> & Hnext).
    exists shown, control, []. split; [reflexivity | ]. split; [simpl; lia | exact Hnext]. }
  destruct (Text.contains "no" _).
  { rewrite Hitem, bind_lift_ok.
    destruct (resources_always_come goal step llm) as (resources & sent & Hcall).
    unfold mbind, M_bind. rewrite Hcall.
    eexists. eexists. eexists. split; [reflexivity | ].
    split; [simpl; lia | intros st' [= <-]; exact Hhere]. }
  destruct (Text.contains "help" _).
  { rewrite Hitem, bind_lift_ok.
    eexists. eexists. eexists. split; [reflexivity | ].
    split; [simpl; lia | intros st' [= <-]; exact Hhere]. }
  destruct (Text.contains "skip" _).
  { destruct (move_to_next_is_safe goal st
                [ConsoleApp.Print ConsoleApp.end_of_plan;
                 ConsoleApp.Print ConsoleApp.skipped_progress]
                (fun week => [ConsoleApp.Print (ConsoleApp.move_on week)])
                llm Hrange) as (shown & control & -> & Hnext).
    exists shown, control, []. split; [reflexivity | ]. split; [simpl; lia | exact Hnext]. }
  rewrite Hitem, bind_lift_ok.
  eexists. eexists. eexists. split; [reflexivity | ].
  split; [simpl; lia | intros st' [= <-]; exact Hhere].
Qed.

Lemma set_goal_is_safe
    (st : ConsoleApp.state) (user_input : string) (llm : port) :
  ConsoleApp.index_in_plan st ->
  exists shown control sent,
    ConsoleApp.set_goal error_text st user_input llm = (Ok (shown, control), [sent])
    /\ forall st', control = ConsoleApp.Continue st' ->
                   ConsoleApp.index_in_plan st'.
Proof.
  intros Hhere. unfold ConsoleApp.set_goal, try_except.
  rewrite bind_invoke. destruct (llm _) as [response | ].
  - destruct (NumberedList.numbered_steps (Text.strip response))
      as [ | first rest] eqn:Hplan.
    + eexists. eexists. eexists. split; [reflexivity | ].
      intros st' [= <-]. left. reflexivity.
    + eexists. eexists. eexists. split; [reflexivity | ].
      intros st' [= <-]. right. simpl. lia.
  - eexists. eexists. eexists. split; [reflexivity | ].
    intros st' [= <-]. exact Hhere.
Qed.

Lemma turn_is_safe (st : ConsoleApp.state) (typed : string) (llm : port) :
  ConsoleApp.index_in_plan st ->
  exists shown control sent,
    ConsoleApp.turn error_text st typed llm = (Ok (shown, control), sent)
    /\ (length sent <= 1)%nat
    /\ forall st', control = ConsoleApp.Continue st' ->
                   ConsoleApp.index_in_plan st'.
Proof.
  intros Hhere. unfold ConsoleApp.turn.
  destruct (String.eqb (Text.lower (Text.strip typed)) "exit").
  { eexists. eexists. eexists. split; [reflexivity | ].
    split; [simpl; lia | discriminate]. }
  assert (Hset : exists shown control sent,
             (ConsoleApp.set_goal error_text st (Text.strip typed)
              ≫= (fun result =>
                    mret (ConsoleApp.Prompt ConsoleApp.you_prompt :: result.1,
                          result.2))) llm
             = (Ok (shown, control), sent)
             /\ (length sent <= 1)%nat
             /\ forall st', control = ConsoleApp.Continue st' ->
                            ConsoleApp.index_in_plan st').
  { destruct (set_goal_is_safe st (Text.strip typed) llm Hhere)
      as (shown & control & sent & Hrun & Hnext).
    unfold mbind, M_bind. rewrite Hrun.
    eexists. eexists. eexists. split; [reflexivity | ].
    split; [simpl; lia | exact Hnext]. }
  destruct (ConsoleApp.goal st) as [[ | c g] | ]; try exact Hset.
  destruct (ConsoleApp.steps st) as [ | first rest] eqn:Hsteps.
  - eexists. eexists. eexists. split; [reflexivity | ].
    split; [simpl; lia | intros st' [= <-]; exact Hhere].
  - destruct Hhere as [Hnone | Hrange]; [rewrite Hsteps in Hnone; discriminate | ].
    destruct (track_is_safe (String c g) st (Text.strip typed) llm Hrange)
      as (shown & control & sent & Hrun & Hsent & Hnext).
    unfold mbind, M_bind. rewrite Hrun.
    eexists. eexists. eexists. split; [reflexivity | ].
    split; [rewrite app_nil_r; exact Hsent | exact Hnext].
Qed.

Lemma loop_is_safe (typed : list string) :
  forall (st : ConsoleApp.state) (llm : port),
    ConsoleApp.index_in_plan st ->
    exists shown control sent,
      ConsoleApp.loop error_text typed st llm = (Ok (shown, control), sent)
      /\ (length sent <= length typed)%nat.
Proof.
  induction typed as [ | line rest IH]; intros st llm Hhere.
  - eexists. eexists. eexists. split; [reflexivity | simpl; lia].
  - destruct (turn_is_safe st line llm Hhere)
      as (shown & control & sent & Hrun & Hsent & Hnext).
    simpl ConsoleApp.loop. unfold mbind at 1, M_bind. rewrite Hrun.
    destruct control as [st' | ]; cbn [fst snd].
    + destruct (IH st' llm (Hnext st' eq_refl))
        as (shown' & control' & sent' & Hrest & Hsent').
      unfold mbind, M_bind. rewrite Hrest.
      eexists. eexists. eexists. split; [reflexivity | ].
      rewrite app_nil_r, length_app. simpl. lia.
    + eexists. eexists. eexists. split; [reflexivity | ].
      rewrite app_nil_r. simpl. lia.
Qed.

(** X19: the console mentor never raises.  Whatever lines are typed and
    whatever the model does, [run_goal_mentor] runs through them without
    an exception: the step index always points into the plan when a step
    is read, the model's failures are caught, and the model is called at
    most once for each line typed. *)
Theorem console_mentor_never_raises (typed : list string) (llm : port) :
  exists shown control sent,
    ConsoleApp.run_goal_mentor error_text typed llm = (Ok (shown, control), sent)
    /\ (length sent <= length typed)%nat.
Proof.
  unfold ConsoleApp.run_goal_mentor.
  destruct (loop_is_safe typed
              {| ConsoleApp.goal := None; ConsoleApp.steps := [];
                 ConsoleApp.current_step_index := 0 |} llm)
    as (shown & control & sent & Hrun & Hsent); [left; reflexivity | ].
  unfold mbind, M_bind. rewrite Hrun.
  eexists. eexists. eexists. split; [reflexivity | ].
  rewrite app_nil_r. exact Hsent.
Qed.

(** X20: an answer with [yes] in it moves on, whatever else it says.
    With a goal and a plan, a line other than [exit] that holds [yes], in
    any mix of cases, takes the loop to the next step without a model
    call, or out of the loop when the current step is the last; [no],
    [help] and [skip] in the same line change nothing, since [yes] is
    looked for first. *)
Theorem yes_moves_to_the_next_step
    (st : ConsoleApp.state) (typed : string) (llm : port)
    (c : ascii) (g : string) :
  ConsoleApp.goal st = Some (String c g) ->
  0 <= ConsoleApp.current_step_index st
       < Z.of_nat (length (ConsoleApp.steps st)) ->
  Text.lower (Text.strip typed) <> "exit" ->
  Text.contains "yes" (Text.lower (Text.strip typed)) = true ->
  exists shown,
    ConsoleApp.turn error_text st typed llm
    = (Ok (shown,
           if ConsoleApp.current_step_index st + 1
              >=? Z.of_nat (length (ConsoleApp.steps st))
           then ConsoleApp.Break
           else ConsoleApp.Continue
                  {| ConsoleApp.goal := Some (String c g);
                     ConsoleApp.steps := ConsoleApp.steps st;
                     ConsoleApp.current_step_index :=
                       ConsoleApp.current_step_index st + 1 |}), []).
Proof.
  intros Hgoal Hrange Hexit Hyes. unfold ConsoleApp.turn.
  destruct (String.eqb_spec (Text.lower (Text.strip typed)) "exit");
    [contradiction | ].
  rewrite Hgoal.
  destruct (ConsoleApp.steps st) as [ | first rest] eqn:Hsteps;
    [simpl in Hrange; lia | ].
  unfold ConsoleApp.track. rewrite Hyes. unfold ConsoleApp.move_to_next.
  rewrite Hsteps.
  destruct (ConsoleApp.current_step_index st + 1
            >=? Z.of_nat (length (first :: rest))) eqn:Hend.
  - eexists. reflexivity.
  - destruct (console_item_in_range (first :: rest)
                (ConsoleApp.current_step_index st + 1)) as [next Hitem];
      [destruct (Z.geb_spec (ConsoleApp.current_step_index st + 1)
                   (Z.of_nat (length (first :: rest)))); [discriminate | lia] | ].
    rewrite Hitem. eexists. reflexivity.
Qed.

(** X21: an answer with [no] in it and no [yes] asks the model once.
    With a goal and a plan, such a line (other than [exit]) leaves the
    goal, the plan and the index as they are, and sends exactly one
    prompt to the model, whose tips, or the fixed ones when the call
    fails, are printed.  Any text with the letters [no] in it counts. *)
Theorem no_asks_for_tips
    (st : ConsoleApp.state) (typed : string) (llm : port)
    (c : ascii) (g : string) :
  ConsoleApp.goal st = Some (String c g) ->
  0 <= ConsoleApp.current_step_index st
       < Z.of_nat (length (ConsoleApp.steps st)) ->
  Text.lower (Text.strip typed) <> "exit" ->
  Text.contains "yes" (Text.lower (Text.strip typed)) = false ->
  Text.contains "no" (Text.lower (Text.strip typed)) = true ->
  exists shown step,
    ConsoleApp.item (ConsoleApp.steps st) (ConsoleApp.current_step_index st)
    = Ok step
    /\ ConsoleApp.turn error_text st typed llm
       = (Ok (shown, ConsoleApp.Continue st),
          [[SystemMessage (ConsoleApp.resources_prompt (String c g) step)]])
    /\ In (ConsoleApp.Print
             match llm [SystemMessage
                          (ConsoleApp.resources_prompt (String c g) step)] with
             | Some response => Text.strip response
             | None => ConsoleApp.resources_fallback (String c g) step
             end) shown.
Proof.
  intros Hgoal Hrange Hexit Hyes Hno. unfold ConsoleApp.turn.
  destruct (String.eqb_spec (Text.lower (Text.strip typed)) "exit");
    [contradiction | ].
  rewrite Hgoal.
  destruct (console_item_in_range _ _ Hrange) as [step Hitem].
  destruct (ConsoleApp.steps st) as [ | first rest] eqn:Hsteps;
    [simpl in Hrange; lia | ].
  unfold ConsoleApp.track. rewrite Hyes, Hno, Hsteps, Hitem.
  unfold ConsoleApp.get_helpful_resources, try_except.
  destruct (llm [SystemMessage (ConsoleApp.resources_prompt (String c g) step)])
    as [response | ] eqn:Hcall;
    eexists; exists step; (split; [reflexivity | ]);
    (split; [unfold mbind, M_bind, lift, invoke; rewrite Hcall; reflexivity | ]);
    rewrite Hcall; simpl; auto 12.
Qed.

Lemma move_to_next_keeps_plan
    (goal : string) (st : ConsoleApp.state) (at_end : list ConsoleApp.output)
    (at_next : string -> list ConsoleApp.output) (llm : port)
    (shown : list ConsoleApp.output) (st' : ConsoleApp.state)
    (sent : list (list message)) :
  ConsoleApp.steps st <> [] ->
  ConsoleApp.move_to_next goal st at_end at_next llm
  = (Ok (shown, ConsoleApp.Continue st'), sent) ->
  ConsoleApp.steps st' <> [].
Proof.
  intros Hplan. unfold ConsoleApp.move_to_next.
  destruct (_ >=? _); [discriminate | ].
  next_step; [ | discriminate].
  intros [= _ <- _]. exact Hplan.
Qed.

Lemma turn_keeps_goal_with_plan
    (st st' : ConsoleApp.state) (typed : string) (llm : port)
    (shown : list ConsoleApp.output) (sent : list (list message)) :
  ConsoleApp.goal_has_plan st ->
  ConsoleApp.turn error_text st typed llm
  = (Ok (shown, ConsoleApp.Continue st'), sent) ->
  ConsoleApp.goal_has_plan st'.
Proof.
  intros Hst. unfold ConsoleApp.turn.
  destruct (String.eqb (Text.lower (Text.strip typed)) "exit"); [discriminate | ].
  assert (Hset : forall shown0 sent0,
             (ConsoleApp.set_goal error_text st (Text.strip typed)
              ≫= (fun result =>
                    mret (ConsoleApp.Prompt ConsoleApp.you_prompt :: result.1,
                          result.2))) llm
             = (Ok (shown0, ConsoleApp.Continue st'), sent0) ->
             ConsoleApp.goal_has_plan st').
  { intros shown0 sent0. unfold ConsoleApp.set_goal, try_except.
    unfold mbind at 1, M_bind. rewrite bind_invoke.
    destruct (llm _) as [response | ].
    - destruct (NumberedList.numbered_steps (Text.strip response))
        as [ | first rest]; simpl; intros [= _ <- _]; intros c g; simpl;
        discriminate.
    - simpl. intros [= _ <- _]. intros c g. simpl. discriminate. }
  destruct (ConsoleApp.goal st) as [[ | c g] | ] eqn:Hgoal;
    try exact (Hset shown sent).
  destruct (ConsoleApp.steps st) as [ | first rest] eqn:Hsteps.
  - simpl. intros [= _ <- _]. exact Hst.
  - assert (Hplan : ConsoleApp.steps st <> []) by (rewrite Hsteps; discriminate).
    unfold mbind, M_bind.
    destruct (ConsoleApp.track (String c g) st (Text.strip typed) llm)
      as [[[shown1 control1] | e] sent1] eqn:Htrack; [ | discriminate].
    simpl. intros [= _ -> _]. revert Htrack. unfold ConsoleApp.track.
    destruct (Text.contains "yes" _).
    { intros Hmove c' g' _.
      exact (move_to_next_keeps_plan _ _ _ _ _ _ _ _ Hplan Hmove). }
    destruct (Text.contains "no" _).
    { next_step; [ | discriminate].
      destruct (resources_always_come (String c g) v llm)
        as (resources & one & Hcall).
      unfold mbind, M_bind. rewrite Hcall. simpl.
      intros [= _ <- _] c' g' _. exact Hplan. }
    destruct (Text.contains "help" _).
    { next_step; [ | discriminate].
      simpl. intros [= _ <- _] c' g' _. exact Hplan. }
    destruct (Text.contains "skip" _).
    { intros Hmove c' g' _.
      exact (move_to_next_keeps_plan _ _ _ _ _ _ _ _ Hplan Hmove). }
    next_step; [ | discriminate].
    simpl. intros [= _ <- _] c' g' _. exact Hplan.
Qed.

Lemma loop_keeps_goal_with_plan (typed : list string) :
  forall (st st' : ConsoleApp.state) (llm : port)
         (shown : list ConsoleApp.output) (sent : list (list message)),
    ConsoleApp.goal_has_plan st ->
    ConsoleApp.index_in_plan st ->
    ConsoleApp.loop error_text typed st llm
    = (Ok (shown, ConsoleApp.Continue st'), sent) ->
    ConsoleApp.goal_has_plan st' /\ ConsoleApp.index_in_plan st'.
Proof.
  induction typed as [ | line rest IH]; intros st st' llm shown sent Hgoal Hindex.
  - simpl. intros [= _ <- _]. split; assumption.
  - destruct (turn_is_safe st line llm Hindex)
      as (shown1 & control1 & sent1 & Hturn & _ & Hnext).
    simpl ConsoleApp.loop. unfold mbind at 1, M_bind. rewrite Hturn.
    destruct control1 as [st1 | ]; cbn [fst snd].
    + unfold mbind, M_bind.
      destruct (ConsoleApp.loop error_text rest st1 llm)
        as [[[shown2 control2] | e] sent2] eqn:Hrest; [ | discriminate].
      simpl. intros [= _ -> _].
      apply (IH st1 st' llm shown2 sent2); [ | exact (Hnext st1 eq_refl) | exact Hrest].
      exact (turn_keeps_goal_with_plan _ _ _ _ _ _ Hgoal Hturn).
    + simpl. discriminate.
Qed.

(** X22: a goal is only kept together with a plan.  After any lines
    typed, with any model, the variables of the loop are such that a
    goal that counts (a text that is not empty) comes with a plan of at
    least one step, and the index points into that plan.  So the case of
    a goal without plan, in which the loop would read a line and answer
    nothing, never arises; when the model fails or its reply has no
    numbered line, the goal is dropped and asked for again. *)
Theorem console_goal_comes_with_a_plan
    (typed : list string) (llm : port) (st' : ConsoleApp.state)
    (shown : list ConsoleApp.output) (sent : list (list message)) :
  ConsoleApp.run_goal_mentor error_text typed llm
  = (Ok (shown, ConsoleApp.Continue st'), sent) ->
  ConsoleApp.goal_has_plan st' /\ ConsoleApp.index_in_plan st'.
Proof.
  unfold ConsoleApp.run_goal_mentor, mbind, M_bind.
  destruct (ConsoleApp.loop error_text typed _ llm)
    as [[[shown1 control1] | e] sent1] eqn:Hloop; [ | discriminate].
  simpl. intros [= _ -> _].
  refine (loop_keeps_goal_with_plan typed _ st' llm shown1 sent1 _ _ Hloop).
  - intros c g. discriminate.
  - left. reflexivity.
Qed.

End Console_loop.

(** ** The properties on the sessions of [Cases] *)

Lemma history_only_grows_witness :
  exists state',
    run Json.loads Demo.repr Demo.week Demo.chatting = Some state'
    /\ exists added,
         conversation_history state'
         = conversation_history Demo.chatting ++ added.
Proof.
  destruct (run Json.loads Demo.repr Demo.week Demo.chatting)
    as [state' | ] eqn:Hrun.
  - exists state'. split; [reflexivity | ].
    exact (history_only_grows Json.loads Demo.repr Demo.week Demo.chatting
             state' Hrun).
  - vm_compute in Hrun. discriminate Hrun.
Defined.

Lemma stuck_count_never_decreases_witness :
  exists state',
    run Json.loads Demo.repr Demo.week Demo.chatting = Some state'
    /\ stuck_count Demo.chatting <= stuck_count state'.
Proof.
  destruct (run Json.loads Demo.repr Demo.week Demo.chatting)
    as [state' | ] eqn:Hrun.
  - exists state'. split; [reflexivity | ].
    exact (stuck_count_never_decreases Json.loads Demo.repr Demo.week
             Demo.chatting state' Hrun).
  - vm_compute in Hrun. discriminate Hrun.
Defined.

Lemma completion_records_stay_witness :
  exists state',
    run Json.loads Demo.repr Demo.week Demo.chatting = Some state'
    /\ is_Some (completion_status Demo.chatting !! 0)
    /\ is_Some (completion_status state' !! 0).
Proof.
  assert (Hrecord : is_Some (completion_status Demo.chatting !! 0))
    by (eexists; reflexivity).
  destruct (run Json.loads Demo.repr Demo.week Demo.chatting)
    as [state' | ] eqn:Hrun.
  - exists state'. split; [reflexivity | ]. split; [exact Hrecord | ].
    exact (completion_records_stay Json.loads Demo.repr Demo.week
             Demo.chatting state' 0 Hrun Hrecord).
  - vm_compute in Hrun. discriminate Hrun.
Defined.


Lemma step_done_moves_to_next_witness :
  exists state',
    execution_node Demo.repr Cases.second_done failing_port = (Ok state', [])
    /\ current_step_index state' = 2
    /\ mode state' = execution.
Proof.
  destruct (step_done_moves_to_next Demo.repr Cases.second_done failing_port 4
              _ _ _ _ _
              eq_refl ltac:(simpl; lia) eq_refl eq_refl eq_refl eq_refl
              eq_refl eq_refl)
    as (state' & Hrun & Hindex & Hmode & _).
  exists state'. repeat split; assumption.
Defined.

Lemma done_word_wins_over_help_word_witness :
  exists state',
    outcome (execution_node Demo.repr Cases.done_and_help) failing_port
    = Ok state'
    /\ Text.any_in help_words (Text.lower (user_message Cases.done_and_help))
       = true
    /\ current_step_index state' = 2
    /\ mode state' <> help.
Proof.
  destruct (outcome (execution_node Demo.repr Cases.done_and_help) failing_port)
    as [state' | e] eqn:Hrun.
  - exists state'. split; [reflexivity | ]. split; [reflexivity | ].
    destruct (done_word_wins_over_help_word Demo.repr Cases.done_and_help
                state' failing_port 4 eq_refl ltac:(simpl; lia) eq_refl Hrun)
      as (Hindex & _ & Hmode & _).
    split; assumption.
  - vm_compute in Hrun. discriminate Hrun.
Defined.

Lemma one_model_call_at_most_witness :
  (calls (help_node Demo.repr Demo.stuck) (Demo.answering "Try ten minutes a day.")
   <= 1)%nat.
Proof.
  exact (proj1 (one_model_call_at_most Json.loads Demo.repr "help"
                  (help_node Demo.repr) Demo.stuck
                  (Demo.answering "Try ten minutes a day.") eq_refl)).
Defined.

Lemma help_past_the_plan_raises_witness :
  help_node Demo.repr Cases.help_overrun failing_port = (Raise IndexError, []).
Proof.
  apply (help_past_the_plan_raises Demo.repr Cases.help_overrun failing_port
           (fallback_steps Demo.goal_text) eq_refl).
  left. simpl. lia.
Defined.

Lemma routed_turn_keeps_session_witness :
  exists state',
    outcome (routed_turn Json.loads Demo.repr Demo.chatting)
      (Demo.answering "Start with the tutorial.") = Ok state'
    /\ session_ok state'.
Proof.
  apply (routed_turn_keeps_session Json.loads Demo.repr Demo.chatting
           (Demo.answering "Start with the tutorial.")).
  - exists (fallback_steps Demo.goal_text).
    split; [reflexivity | ]. split; [reflexivity | ].
    split; [simpl; lia | intros Hmode; discriminate Hmode].
  - intros Hmode. discriminate Hmode.
Defined.

Lemma finished_run_is_completed_witness :
  exists state',
    graph_invoke Json.loads Demo.repr 7 Demo.last_week failing_port
    = Finished state'
    /\ mode state' = completed
    /\ Text.any_in new_goal_phrases (Text.lower (user_message Demo.last_week))
       = false.
Proof.
  destruct (graph_invoke Json.loads Demo.repr 7 Demo.last_week failing_port)
    as [state' | e | | ] eqn:Hrun;
    [ | vm_compute in Hrun; discriminate Hrun ..].
  exists state'. split; [reflexivity | ].
  exact (finished_run_is_completed Json.loads Demo.repr 7 Demo.last_week state'
           failing_port Hrun).
Defined.

Lemma done_message_completes_the_plan_witness :
  (exists state',
      walk Json.loads Demo.repr 4 "execution" Cases.second_done failing_port
      = Finished state'
      /\ current_step_index state' = 4
      /\ mode state' = completed
      /\ (forall k, 1 <= k < 4 -> is_Some (completion_status state' !! k)))
  /\ walk Json.loads Demo.repr 3 "execution" Cases.second_done failing_port
     = Out_of_steps.
Proof.
  split.
  - exact (proj1 (done_message_completes_the_plan Json.loads Demo.repr 4
                    Cases.second_done failing_port
                    (fallback_steps Demo.goal_text)
                    eq_refl eq_refl ltac:(simpl; lia) eq_refl eq_refl)
             ltac:(simpl; lia)).
  - exact (proj2 (done_message_completes_the_plan Json.loads Demo.repr 3
                    Cases.second_done failing_port
                    (fallback_steps Demo.goal_text)
                    eq_refl eq_refl ltac:(simpl; lia) eq_refl eq_refl)
             ltac:(simpl; lia)).
Defined.

Lemma done_message_with_model_down_witness :
  exists state',
    graph_invoke Json.loads Demo.repr 7 Demo.last_week failing_port
    = Finished state'
    /\ current_step_index state' = 4
    /\ mode state' = completed
    /\ (forall k, 0 <= k < 4 -> is_Some (completion_status state' !! k)).
Proof.
  exact (done_message_with_model_down Json.loads Demo.repr Demo.last_week
           failing_port (fun _ => eq_refl) eq_refl eq_refl).
Defined.

Lemma message_without_done_word_never_ends_witness :
  walk Json.loads Demo.repr 6 "execution" Demo.chatting
    (Demo.answering "Start with the tutorial.")
  <> Finished Demo.chatting.
Proof.
  exact (message_without_done_word_never_ends Json.loads Demo.repr 6
           Demo.chatting Demo.chatting
           (Demo.answering "Start with the tutorial.") 4
           eq_refl eq_refl ltac:(simpl; lia) eq_refl eq_refl).
Defined.


Lemma numbered_steps_are_tidy_witness :
  In "Read a book" (NumberedList.numbered_steps Cases.two_lines)
  /\ tidy "Read a book".
Proof.
  assert (Hstep : In "Read a book" (NumberedList.numbered_steps Cases.two_lines))
    by (left; reflexivity).
  split; [exact Hstep | ].
  exact (numbered_steps_are_tidy Cases.two_lines "Read a book" Hstep).
Defined.

Lemma yes_moves_to_the_next_step_witness :
  exists shown,
    ConsoleApp.turn Cases.error_text Cases.console "YES, no more help needed"
      failing_port
    = (Ok (shown,
           ConsoleApp.Continue
             {| ConsoleApp.goal := Some Demo.goal_text;
                ConsoleApp.steps := ConsoleApp.steps Cases.console;
                ConsoleApp.current_step_index := 1 |}), []).
Proof.
  exact (yes_moves_to_the_next_step Cases.error_text Cases.console
           "YES, no more help needed" failing_port "l" "earn python"
           eq_refl ltac:(simpl; lia)
           ltac:(intros Hexit; vm_compute in Hexit; discriminate Hexit) eq_refl).
Defined.

Lemma no_asks_for_tips_witness :
  exists shown step,
    ConsoleApp.item (ConsoleApp.steps Cases.console) 0 = Ok step
    /\ ConsoleApp.turn Cases.error_text Cases.console "I do not know" failing_port
       = (Ok (shown, ConsoleApp.Continue Cases.console),
          [[SystemMessage (ConsoleApp.resources_prompt Demo.goal_text step)]])
    /\ In (ConsoleApp.Print (ConsoleApp.resources_fallback Demo.goal_text step))
         shown.
Proof.
  exact (no_asks_for_tips Cases.error_text Cases.console "I do not know"
           failing_port "l" "earn python"
           eq_refl ltac:(simpl; lia)
           ltac:(intros Hexit; vm_compute in Hexit; discriminate Hexit)
           eq_refl eq_refl).
Defined.

Lemma console_goal_comes_with_a_plan_witness :
  exists shown st' sent,
    ConsoleApp.run_goal_mentor Cases.error_text ["learn python"; "not yet"]
      (Demo.answering Cases.two_lines)
    = (Ok (shown, ConsoleApp.Continue st'), sent)
    /\ ConsoleApp.goal_has_plan st'
    /\ ConsoleApp.index_in_plan st'.
Proof.
  destruct (ConsoleApp.run_goal_mentor Cases.error_text
              ["learn python"; "not yet"] (Demo.answering Cases.two_lines))
    as [[[shown [st' | ]] | e] sent] eqn:Hrun;
    [ | vm_compute in Hrun; discriminate Hrun ..].
  exists shown, st', sent. split; [reflexivity | ].
  exact (console_goal_comes_with_a_plan Cases.error_text
           ["learn python"; "not yet"] (Demo.answering Cases.two_lines)
           st' shown sent Hrun).
Defined.
